(** * shop-chat-agent: the streaming chat client and the auth token helpers

    A shallow embedding of
      - [extensions/chat-bubble/assets/chat.js]  (object [ShopAIChat]) and
      - [app/routes/api.chat-auth.jsx]           ([generateToken], [parseToken])
    together with the properties the specification states about them.

    Conventions of the embedding.
      - JavaScript text is a [string]: a sequence of 8-bit code units (text is
        taken in its UTF-8 form, so [Buffer.from(s)] / [toString('utf8')] are
        the identity on it).
      - [sessionStorage] is a finite map from keys to values.
      - DOM elements live in a store (a list indexed by node identifier); the
        messages container holds node identifiers, so that a reference such as
        [currentMessageElement] keeps denoting the same element whatever is
        appended to or removed from the container.
      - [async] functions are cut at their [await]s: each piece between two
        awaits is a function on the world, and the browser's event loop is the
        step function [step] that runs one such piece per event.
      - Scroll positions and focus are not part of the model. *)

From Stdlib Require Import ZArith Lia Bool Ascii.
From stdpp Require Import base option list gmap strings pretty.

#[local] Set Warnings "-register-all".
Local Open Scope Z_scope.
Local Open Scope list_scope.

(** ** JavaScript strings *)

Module JsString.

Definition nl : ascii := "010"%char.
Definition cr : ascii := "013"%char.

(** [s.startsWith(p)] *)
Fixpoint startsWith (p s : string) : bool :=
  match p with
  | EmptyString => true
  | String a p' =>
      match s with
      | EmptyString => false
      | String b s' => Ascii.eqb a b && startsWith p' s'
      end
  end.

(** [s.slice(n)] for [0 <= n] *)
Fixpoint slice (n : nat) (s : string) : string :=
  match n, s with
  | O, _ => s
  | S n', String _ s' => slice n' s'
  | S _, EmptyString => EmptyString
  end.

(** what follows the prefix [p] of [s], if [s] starts with it *)
Fixpoint strip_prefix (p s : string) : option string :=
  match p with
  | EmptyString => Some s
  | String a p' =>
      match s with
      | EmptyString => None
      | String b s' => if Ascii.eqb a b then strip_prefix p' s' else None
      end
  end.

(** whether every code unit of a text is in a class *)
Fixpoint all_chars (p : ascii -> bool) (s : string) : bool :=
  match s with
  | EmptyString => true
  | String a s' => p a && all_chars p s'
  end.

(** adds a code unit in front of the first segment of a split *)
Definition cons_head (c : ascii) (l : list string) : list string :=
  match l with
  | h :: t => String c h :: t
  | [] => [String c EmptyString]
  end.

(** [s.split(sep)] for a non-empty separator: the segments between the
    occurrences of [sep], found from left to right without overlap.
    [skip] counts the code units of a separator occurrence still to pass. *)
Fixpoint split_from (sep : string) (skip : nat) (s : string) : list string :=
  match s with
  | EmptyString => [EmptyString]
  | String c s' =>
      match skip with
      | S k => split_from sep k s'
      | O =>
          if startsWith sep s
          then EmptyString :: split_from sep (String.length sep - 1) s'
          else cons_head c (split_from sep O s')
      end
  end.

Definition split (sep : string) (s : string) : list string :=
  split_from sep O s.

(** [a.pop()]: the last element (or [undefined]) and the shortened array *)
Definition pop {A} (a : list A) : option A * list A :=
  (last a, removelast a).

(** [v || ''] for a string or [undefined] *)
Definition or_empty (v : option string) : string :=
  match v with
  | Some s => s
  | None => EmptyString
  end.

(** truthiness of a string *)
Definition truthy (s : string) : bool :=
  match s with
  | EmptyString => false
  | _ => true
  end.

End JsString.

(** ** The line separators of JavaScript

    The [.] of a regular expression matches no line terminator: not the line
    feed, not the carriage return, and not the separators U+2028 and U+2029
    either. The first two are code units; the separators are sequences of
    three code units in the UTF-8 form of a text. *)

Module LineSeparator.

Definition unit (n : nat) (s : string) : string := String (ascii_of_nat n) s.

(** U+2028 and U+2029 *)
Definition line : string := unit 226 (unit 128 (unit 168 EmptyString)).
Definition paragraph : string := unit 226 (unit 128 (unit 169 EmptyString)).

(** whether a text starts with one of them *)
Definition starts (s : string) : bool :=
  JsString.startsWith line s || JsString.startsWith paragraph s.

(** whether a text holds one of them *)
Fixpoint occurs (s : string) : bool :=
  match s with
  | EmptyString => false
  | String _ s' =>
      JsString.startsWith line s || JsString.startsWith paragraph s || occurs s'
  end.

End LineSeparator.

(** ** The frame decoder of [API.streamResponse] (chat.js, the [while] loop) *)

Module Decoder.
Import JsString.

Definition delimiter : string := String nl (String nl EmptyString).

(** One pass of the loop body on the text of one network read:
      buffer += decoder.decode(value, { stream: true });
      const lines = buffer.split('\n\n');
      buffer = lines.pop() || '';
    Returns the complete lines and the retained buffer. *)
Definition read (buffer : string) (value : string) : list string * string :=
  let buffer := buffer +:+ value in
  let lines := split delimiter buffer in
  let '(popped, lines) := pop lines in
  (lines, or_empty popped).

(** the loop body over the texts of successive reads, from a buffer: all
    the complete lines, in order, and the buffer left at the end *)
Fixpoint reads (buffer : string) (values : list string) : list string * string :=
  match values with
  | [] => ([], buffer)
  | value :: rest =>
      let '(lines, buffer) := read buffer value in
      let '(more, buffer) := reads buffer rest in
      (lines ++ more, buffer)
  end.

End Decoder.

(** ** The wire format of a stream: frames closed by the delimiter *)

Module Wire.
Import JsString.

(** the text received over all reads *)
Definition received (values : list string) : string :=
  fold_right String.append EmptyString values.

(** [frames], each followed by the delimiter, then a trailing fragment *)
Fixpoint serialize (frames : list string) (partial : string) : string :=
  match frames with
  | [] => partial
  | frame :: rest => frame +:+ Decoder.delimiter +:+ serialize rest partial
  end.

(** whether the delimiter occurs in a text *)
Fixpoint has_delimiter (s : string) : bool :=
  match s with
  | EmptyString => false
  | String _ s' => startsWith Decoder.delimiter s || has_delimiter s'
  end.

(** A frame holds no delimiter and does not end in a newline: the delimiter
    that closes it is the first one to occur after its start. *)
Definition complete_frame (frame : string) : bool :=
  negb (has_delimiter (frame +:+ String nl EmptyString)).

(** the fragment after the last delimiter holds none *)
Definition fragment (partial : string) : bool :=
  negb (has_delimiter partial).

End Wire.

(** ** Values produced by [JSON.parse] *)

Module Json.

(** A number is kept as an exact decimal, [mantissa * 10 ^ exponent]. *)
Inductive json :=
| JNull
| JBool (b : bool)
| JNumber (mantissa exponent : Z)
| JString (s : string)
| JArray (items : list json)
| JObject (fields : list (string * json)).

(** [o[k]] on the fields of an object: a later duplicate key wins *)
Fixpoint lookup_field (k : string) (fields : list (string * json)) : option json :=
  match fields with
  | [] => None
  | (k', v) :: rest =>
      match lookup_field k rest with
      | Some v' => Some v'
      | None => if String.eqb k k' then Some v else None
      end
  end.

(** [v.k] for a value [v] that is not [null]; [None] is [undefined] *)
Definition prop (k : string) (v : json) : option json :=
  match v with
  | JObject fields => lookup_field k fields
  | _ => None
  end.

(** whether the number of JavaScript for the decimal [m * 10 ^ e] is
    zero: the decimal is zero, or so small that the nearest double is,
    which is the case up to [2 ^ -1075] *)
Definition is_zero (m e : Z) : bool :=
  (m =? 0) || ((e <? 0) && (Z.abs m * 2 ^ 1075 <=? 10 ^ (- e))).

(** truthiness of a value or [undefined] *)
Definition truthy (v : option json) : bool :=
  match v with
  | None | Some JNull => false
  | Some (JBool b) => b
  | Some (JNumber m e) => negb (is_zero m e)
  | Some (JString s) => JsString.truthy s
  | Some (JArray _) | Some (JObject _) => true
  end.

(** [v === s] for a string literal [s] *)
Definition is_string (s : string) (v : option json) : bool :=
  match v with
  | Some (JString s') => String.eqb s' s
  | _ => false
  end.

End Json.
Export Json.

(** ** [JSON.parse] and [JSON.stringify]

    A concrete reading of the two built-ins on byte strings, used by the token
    helpers of [api.chat-auth.jsx] and to run the chat client on sample
    streams. Integers are printed and read exactly. *)

Module JSON.

Definition quote : ascii := "034"%char.
Definition backslash : ascii := "092"%char.

(** writes a text literal of this file with ['] standing for the double
    quote *)
Fixpoint dq (s : string) : string :=
  match s with
  | EmptyString => EmptyString
  | String a s' => String (if Ascii.eqb a "'" then quote else a) (dq s')
  end.

(** *** Printing *)

Definition hex_digit (n : N) : ascii :=
  match n with
  | 0 => "0" | 1 => "1" | 2 => "2" | 3 => "3" | 4 => "4" | 5 => "5" | 6 => "6"
  | 7 => "7" | 8 => "8" | 9 => "9" | 10 => "a" | 11 => "b" | 12 => "c"
  | 13 => "d" | 14 => "e" | _ => "f"
  end%char%N.

(** the escape of one code unit inside a string literal *)
Definition escape_char (a : ascii) : string :=
  let n := N_of_ascii a in
  if Ascii.eqb a quote then String backslash (String quote EmptyString)
  else if Ascii.eqb a backslash then String backslash (String backslash EmptyString)
  else if (n =? 8)%N then "\b"
  else if (n =? 12)%N then "\f"
  else if (n =? 10)%N then "\n"
  else if (n =? 13)%N then "\r"
  else if (n =? 9)%N then "\t"
  else if (n <? 32)%N then
    "\u00" +:+ String (hex_digit (n / 16)) (String (hex_digit (n mod 16)) EmptyString)
  else String a EmptyString.

Fixpoint escape (s : string) : string :=
  match s with
  | EmptyString => EmptyString
  | String a s' => escape_char a +:+ escape s'
  end.

Definition quoted (s : string) : string :=
  String quote (escape s +:+ String quote EmptyString).

(** a number: an integer in decimal; otherwise mantissa and exponent *)
Definition number_text (mantissa exponent : Z) : string :=
  if exponent =? 0 then pretty mantissa
  else pretty mantissa +:+ "e" +:+ pretty exponent.

Fixpoint join (sep : string) (l : list string) : string :=
  match l with
  | [] => EmptyString
  | [x] => x
  | x :: rest => x +:+ sep +:+ join sep rest
  end.

(** [JSON.stringify(value)] *)
Fixpoint stringify (v : json) : string :=
  match v with
  | JNull => "null"
  | JBool true => "true"
  | JBool false => "false"
  | JNumber m e => number_text m e
  | JString s => quoted s
  | JArray items => "[" +:+ join "," (List.map stringify items) +:+ "]"
  | JObject fields =>
      "{" +:+ join "," (List.map (fun kv => quoted (fst kv) +:+ ":" +:+ stringify (snd kv))
                          fields) +:+ "}"
  end.

Fixpoint spaces (n : nat) : string :=
  match n with
  | O => EmptyString
  | S n' => String " " (spaces n')
  end.

Definition line_break : string := String JsString.nl EmptyString.

(** [JSON.stringify(value, null, 2)], at an indentation *)
Fixpoint stringify_at (indent : nat) (v : json) : string :=
  match v with
  | JArray (x :: rest) =>
      let inner := S (S indent) in
      "[" +:+ line_break +:+
      join ("," +:+ line_break)
        (List.map (fun item => spaces inner +:+ stringify_at inner item) (x :: rest)) +:+
      line_break +:+ spaces indent +:+ "]"
  | JObject (x :: rest) =>
      let inner := S (S indent) in
      "{" +:+ line_break +:+
      join ("," +:+ line_break)
        (List.map (fun kv => spaces inner +:+ quoted (fst kv) +:+ ": " +:+
                             stringify_at inner (snd kv)) (x :: rest)) +:+
      line_break +:+ spaces indent +:+ "}"
  | JArray [] => "[]"
  | JObject [] => "{}"
  | _ => stringify v
  end.

(** [String(value)] *)
Definition ToString (v : option json) : string :=
  match v with
  | None => "undefined"
  | Some (JString s) => s
  | Some (JArray items) =>
      join "," (List.map (fun item => match item with
                                      | JNull => EmptyString
                                      | JString s => s
                                      | JArray _ | JObject _ => "[object Object]"
                                      | _ => stringify item
                                      end) items)
  | Some (JObject _) => "[object Object]"
  | Some v => stringify v
  end.

(** *** Reading *)

Definition is_ws (a : ascii) : bool :=
  Ascii.eqb a " " || Ascii.eqb a "009" || Ascii.eqb a "010" || Ascii.eqb a "013".

Fixpoint skip_ws (s : string) : string :=
  match s with
  | String a s' => if is_ws a then skip_ws s' else s
  | EmptyString => EmptyString
  end.

Definition digit_of (a : ascii) : option Z :=
  let n := Z.of_N (N_of_ascii a) in
  if (48 <=? n) && (n <=? 57) then Some (n - 48) else None.

Definition hex_of (a : ascii) : option Z :=
  let n := Z.of_N (N_of_ascii a) in
  if (48 <=? n) && (n <=? 57) then Some (n - 48)
  else if (97 <=? n) && (n <=? 102) then Some (n - 87)
  else if (65 <=? n) && (n <=? 70) then Some (n - 55)
  else None.

(** the digits a text starts with: their value after [acc], their number
    added to [count], and what follows them *)
Fixpoint digits (acc : Z) (count : nat) (s : string) : Z * nat * string :=
  match s with
  | EmptyString => (acc, count, EmptyString)
  | String a s' =>
      match digit_of a with
      | Some d => digits (acc * 10 + d) (S count) s'
      | None => (acc, count, s)
      end
  end.

Definition starts_with (a : ascii) (s : string) : bool :=
  match s with
  | String b _ => Ascii.eqb a b
  | EmptyString => false
  end.

(** a character that starts a number starts no other kind of value *)
Definition starts_number (a : ascii) : Prop :=
  is_ws a = false /\ Ascii.eqb a "{" = false /\ Ascii.eqb a "[" = false /\
  Ascii.eqb a quote = false /\ Ascii.eqb a "t" = false /\ Ascii.eqb a "f" = false /\
  Ascii.eqb a "n" = false.

(** [-? int frac? exp?], as mantissa and exponent *)
Definition parse_number (s : string) : option (Z * Z * string) :=
  let negative := starts_with "-" s in
  let s := if negative then JsString.slice 1 s else s in
  let '(int, count, s1) := digits 0 0 s in
  if (count =? 0)%nat || (starts_with "0" s && (1 <? count)%nat) then None else
  let with_fraction :=
    if starts_with "." s1 then
      let '(m, fcount, s2) := digits int 0 (JsString.slice 1 s1) in
      if (fcount =? 0)%nat then None else Some (m, - Z.of_nat fcount, s2)
    else Some (int, 0, s1) in
  match with_fraction with
  | None => None
  | Some (m, e, s2) =>
      let m := if negative then - m else m in
      if starts_with "e" s2 || starts_with "E" s2 then
        let s3 := JsString.slice 1 s2 in
        let minus := starts_with "-" s3 in
        let s4 := if minus || starts_with "+" s3 then JsString.slice 1 s3 else s3 in
        let '(x, xcount, s5) := digits 0 0 s4 in
        if (xcount =? 0)%nat then None
        else Some (m, e + (if minus then - x else x), s5)
      else Some (m, e, s2)
  end.

(** the code units of a code point below 65536, in UTF-8 *)
Definition utf8 (code : Z) : string :=
  let byte z := ascii_of_N (Z.to_N z) in
  if code <? 128 then String (byte code) EmptyString
  else if code <? 2048 then
    String (byte (192 + code / 64)) (String (byte (128 + code mod 64)) EmptyString)
  else
    String (byte (224 + code / 4096))
      (String (byte (128 + (code / 64) mod 64))
         (String (byte (128 + code mod 64)) EmptyString)).

Definition simple_escape (e : ascii) : option ascii :=
  if Ascii.eqb e quote then Some quote
  else if Ascii.eqb e backslash then Some backslash
  else if Ascii.eqb e "/" then Some "/"%char
  else if Ascii.eqb e "b" then Some "008"%char
  else if Ascii.eqb e "f" then Some "012"%char
  else if Ascii.eqb e "n" then Some "010"%char
  else if Ascii.eqb e "r" then Some "013"%char
  else if Ascii.eqb e "t" then Some "009"%char
  else None.

Definition hex4 (h1 h2 h3 h4 : ascii) : option Z :=
  match hex_of h1, hex_of h2, hex_of h3, hex_of h4 with
  | Some a, Some b, Some c, Some d => Some (((a * 16 + b) * 16 + c) * 16 + d)
  | _, _, _, _ => None
  end.

Definition prepend (t : string) (r : option (string * string)) : option (string * string) :=
  match r with
  | Some (s, rest) => Some (t +:+ s, rest)
  | None => None
  end.

(** a string literal after its opening quote: its value and what follows
    the closing quote *)
Fixpoint parse_chars (s : string) : option (string * string) :=
  match s with
  | EmptyString => None
  | String a s' =>
      if Ascii.eqb a quote then Some (EmptyString, s')
      else if Ascii.eqb a backslash then
        match s' with
        | EmptyString => None
        | String e s'' =>
            match simple_escape e with
            | Some c => prepend (String c EmptyString) (parse_chars s'')
            | None =>
                if Ascii.eqb e "u" then
                  match s'' with
                  | String h1 (String h2 (String h3 (String h4 s3))) =>
                      match hex4 h1 h2 h3 h4 with
                      | Some code => prepend (utf8 code) (parse_chars s3)
                      | None => None
                      end
                  | _ => None
                  end
                else None
            end
        end
      else if (N_of_ascii a <? 32)%N then None
      else prepend (String a EmptyString) (parse_chars s')
  end.

(** a value, and the members of an object or the items of an array after
    the first; [fuel] bounds the nesting and the number of members *)
Fixpoint parse_value (fuel : nat) (s : string) : option (json * string) :=
  match fuel with
  | O => None
  | S fuel =>
      match skip_ws s with
      | EmptyString => None
      | String a s1 =>
          if Ascii.eqb a "{" then
            if starts_with "}" (skip_ws s1)
            then Some (JObject [], JsString.slice 1 (skip_ws s1))
            else match parse_members fuel s1 with
                 | Some (fields, rest) => Some (JObject fields, rest)
                 | None => None
                 end
          else if Ascii.eqb a "[" then
            if starts_with "]" (skip_ws s1)
            then Some (JArray [], JsString.slice 1 (skip_ws s1))
            else match parse_items fuel s1 with
                 | Some (items, rest) => Some (JArray items, rest)
                 | None => None
                 end
          else if Ascii.eqb a quote then
            match parse_chars s1 with
            | Some (text, rest) => Some (JString text, rest)
            | None => None
            end
          else if Ascii.eqb a "t" then
            option_map (fun rest => (JBool true, rest)) (JsString.strip_prefix "rue" s1)
          else if Ascii.eqb a "f" then
            option_map (fun rest => (JBool false, rest)) (JsString.strip_prefix "alse" s1)
          else if Ascii.eqb a "n" then
            option_map (fun rest => (JNull, rest)) (JsString.strip_prefix "ull" s1)
          else
            match parse_number (String a s1) with
            | Some (m, e, rest) => Some (JNumber m e, rest)
            | None => None
            end
      end
  end
with parse_members (fuel : nat) (s : string) : option (list (string * json) * string) :=
  match fuel with
  | O => None
  | S fuel =>
      match skip_ws s with
      | EmptyString => None
      | String a s1 =>
          if Ascii.eqb a quote then
            match parse_chars s1 with
            | Some (key, s2) =>
                if starts_with ":" (skip_ws s2) then
                  match parse_value fuel (JsString.slice 1 (skip_ws s2)) with
                  | Some (v, s3) =>
                      if starts_with "," (skip_ws s3) then
                        match parse_members fuel (JsString.slice 1 (skip_ws s3)) with
                        | Some (fields, rest) => Some ((key, v) :: fields, rest)
                        | None => None
                        end
                      else if starts_with "}" (skip_ws s3) then
                        Some ([(key, v)], JsString.slice 1 (skip_ws s3))
                      else None
                  | None => None
                  end
                else None
            | None => None
            end
          else None
      end
  end
with parse_items (fuel : nat) (s : string) : option (list json * string) :=
  match fuel with
  | O => None
  | S fuel =>
      match parse_value fuel s with
      | Some (v, s1) =>
          if starts_with "," (skip_ws s1) then
            match parse_items fuel (JsString.slice 1 (skip_ws s1)) with
            | Some (items, rest) => Some (v :: items, rest)
            | None => None
            end
          else if starts_with "]" (skip_ws s1) then
            Some ([v], JsString.slice 1 (skip_ws s1))
          else None
      | None => None
      end
  end.

(** [JSON.parse(text)]; [None] when it throws *)
Definition parse (text : string) : option json :=
  match parse_value (S (String.length text)) text with
  | Some (v, rest) =>
      match skip_ws rest with
      | EmptyString => Some v
      | _ => None
      end
  | None => None
  end.

End JSON.

(** ** What the page takes from its environment

    The built-ins and collaborators the client calls but does not define. *)

Class Platform := {
  (** [JSON.parse(text)]; [None] when it throws *)
  JSON_parse : string -> option json;
  (** [JSON.stringify(value, null, 2)] *)
  JSON_stringify_indented : json -> string;
  (** [String(value)] for a value or [undefined], as string concatenation and
      [setItem] apply it *)
  ToString : option json -> string;
  (** the markup [Formatting.formatMessageContent] assigns to [innerHTML] for a
      raw text: link replacement followed by [convertMarkdownToHtml] *)
  formatMarkdown : string -> string;
  (** the URL of the last authentication link among the markdown links of a
      raw text, which [formatMessageContent] stores in [window.shopAuthUrl] *)
  authLink : string -> option string;
  (** the [textContent] of an element whose [innerHTML] is the given markup *)
  markupText : string -> string;
  (** [window.shopChatConfig?.welcomeMessage] *)
  configuredWelcomeMessage : option string
}.

(** ** The page *)

Inductive Body :=
| textContent (text : string)
| innerHTML (markup : string)
| toolUse (toolText toggle args : string)   (* header (text, toggle) and arguments *)
| typingDots
| productSection (cards : list json).        (* header and grid; no card: "No products found" *)

Record Element := mkElement {
  classList : list string;
  rawText : option string;      (* dataset.rawText *)
  body : Body
}.

Inductive Effect :=
| console_log (message : string)
| console_error (message : string)
| window_open (url : string)
| alert (message : string)
| fetch_chat (message : string) (conversation_id : option string)
| fetch_history (conversation_id : string)
| fetch_token_status (conversation_id : string).

Inductive Timer :=
| poll_timer (poller : nat) (delay : Z)
| replay_timer (message conversationId : string) (delay : Z).

Inductive Awaiting := not_awaiting | awaiting_fetch | awaiting_json.

(** the variables captured by one [poll] closure of [Auth.startTokenPolling] *)
Record Poller := mkPoller {
  pollingId : string;
  poll_conversationId : string;
  attemptCount : Z;
  poll_awaiting : Awaiting
}.

Inductive StreamState := opening | reading | closed.

(** the variables of one call of [API.streamResponse] *)
Record Stream := mkStream {
  userMessage : string;
  stream_conversationId : option string;
  buffer : string;
  currentMessageElement : option nat;
  stream_state : StreamState
}.

(** the variables of the call of [API.fetchChatHistory] *)
Record History := mkHistory {
  history_conversationId : string;
  loadingMessage : nat;
  history_awaiting : Awaiting
}.

(** what every piece of code shares *)
Record World := mkWorld {
  sessionStorage : gmap string string;
  elements : list Element;          (* every element created, by identifier *)
  messagesContainer : list nat;     (* the children of the messages container *)
  shopAuthUrl : option string;      (* window.shopAuthUrl *)
  trace : list Effect;              (* console output and requests, oldest first *)
  timers : list Timer               (* pending setTimeout callbacks *)
}.

Definition set_sessionStorage (f : gmap string string -> gmap string string) (w : World) : World :=
  mkWorld (f (sessionStorage w)) (elements w) (messagesContainer w) (shopAuthUrl w)
          (trace w) (timers w).
Definition set_elements (f : list Element -> list Element) (w : World) : World :=
  mkWorld (sessionStorage w) (f (elements w)) (messagesContainer w) (shopAuthUrl w)
          (trace w) (timers w).
Definition set_messagesContainer (f : list nat -> list nat) (w : World) : World :=
  mkWorld (sessionStorage w) (elements w) (f (messagesContainer w)) (shopAuthUrl w)
          (trace w) (timers w).
Definition set_shopAuthUrl (f : option string -> option string) (w : World) : World :=
  mkWorld (sessionStorage w) (elements w) (messagesContainer w) (f (shopAuthUrl w))
          (trace w) (timers w).
Definition set_trace (f : list Effect -> list Effect) (w : World) : World :=
  mkWorld (sessionStorage w) (elements w) (messagesContainer w) (shopAuthUrl w)
          (f (trace w)) (timers w).
Definition set_timers (f : list Timer -> list Timer) (w : World) : World :=
  mkWorld (sessionStorage w) (elements w) (messagesContainer w) (shopAuthUrl w)
          (trace w) (f (timers w)).



(** the page before [ShopAIChat.init] *)
Definition blank (storage : gmap string string) : World :=
  mkWorld storage [] [] None [] [].

(** [document.createElement] followed by [messagesContainer.appendChild] *)
Definition appendChild (e : Element) (w : World) : World * nat :=
  let id := length (elements w) in
  (set_messagesContainer (fun c => c ++ [id]) (set_elements (fun s => s ++ [e]) w), id).

Definition emit (e : Effect) : World -> World := set_trace (fun t => t ++ [e]).
Definition setTimeout (t : Timer) : World -> World := set_timers (fun l => l ++ [t]).
Definition getItem (k : string) (w : World) : option string := sessionStorage w !! k.
Definition setItem (k v : string) : World -> World := set_sessionStorage (insert k v).
Definition removeItem (k : string) : World -> World := set_sessionStorage (delete k).


(** the stored polling identifier is not [id] *)
Definition fenced (id : string) (w : World) : Prop :=
  getItem "shopAiTokenPollingId" w <> Some id.

Definition has_class (c : string) (e : Element) : bool :=
  existsb (String.eqb c) (classList e).

(** ** [ShopAIChat.UI] *)

Module UI.

Definition typingIndicator : Element :=
  mkElement ["shop-ai-typing-indicator"] None typingDots.

Definition showTypingIndicator (w : World) : World :=
  fst (appendChild typingIndicator w).

(** [messagesContainer.querySelector(selector)]: the first child the
    selector accepts. The page of the model holds the children of the
    container and not the elements inside them, so this is the query of
    the source on a page where no element inside a message is accepted by
    the selector; the source searches all descendants, and the markup of a
    formatted message can hold any element. *)
Definition querySelector (sel : Element -> bool) (w : World) : option nat :=
  List.find (fun id => from_option sel false (elements w !! id)) (messagesContainer w).

(** [node.remove()] / [messagesContainer.removeChild(node)]: the first
    occurrence of the node leaves the container; the element itself lives on *)
Fixpoint remove_first (id : nat) (c : list nat) : list nat :=
  match c with
  | [] => []
  | x :: c' => if Nat.eqb x id then c' else x :: remove_first id c'
  end.

Definition removeTypingIndicator (w : World) : World :=
  match querySelector (has_class "shop-ai-typing-indicator") w with
  | Some id => set_messagesContainer (remove_first id) w
  | None => w
  end.

(** the products [forEach] reaches before [Product.createCard] throws on a
    [null] product, and whether it throws *)
Fixpoint createCards (products : list json) : list json * bool :=
  match products with
  | [] => ([], false)
  | JNull :: _ => ([], true)
  | p :: rest => let '(cards, thrown) := createCards rest in (p :: cards, thrown)
  end.

(** returns whether it threw *)
Definition displayProductResults (products : option json) (w : World) : World * bool :=
  let '(cards, thrown) :=
    match products with
    | Some (JArray (p :: rest)) => createCards (p :: rest)
    | _ => ([], false)
    end in
  (fst (appendChild (mkElement ["shop-ai-product-section"] None (productSection cards)) w),
   thrown).

End UI.

(** ** [ShopAIChat.Formatting] *)

Module Formatting.
Section WithPlatform.
Context `{Platform}.

(** an element once [formatMessageContent] has run on it *)
Definition formatted (e : Element) : Element :=
  match rawText e with
  | Some raw =>
      if JsString.truthy raw
      then mkElement (classList e) (rawText e) (innerHTML (formatMarkdown raw))
      else e
  | None => e
  end.

Definition formatMessageContent (element : nat) (w : World) : World :=
  match elements w !! element with
  | Some e =>
      match rawText e with
      | Some raw =>
          if JsString.truthy raw then
            let w := match authLink raw with
                     | Some url => set_shopAuthUrl (fun _ => Some url) w
                     | None => w
                     end in
            set_elements
              (alter (fun e => mkElement (classList e) (rawText e)
                                 (innerHTML (formatMarkdown raw))) element) w
          else w
      | None => w
      end
  | None => w
  end.

End WithPlatform.
End Formatting.

(** ** [ShopAIChat.Message] *)

Module Message.

(** *** The pattern [/Calling tool: (\w+) with arguments: (.+)/] *)

Definition in_range (lo hi : nat) (a : ascii) : bool :=
  let n := nat_of_ascii a in (lo <=? n)%nat && (n <=? hi)%nat.

(** [\w] *)
Definition is_word (a : ascii) : bool :=
  in_range 48 57 a || in_range 65 90 a || in_range 97 122 a || in_range 95 95 a.

(** the code units [.] matches: all but the line feed and the carriage
    return; [.] does not match at a line separator either *)
Definition is_dot (a : ascii) : bool :=
  negb (Ascii.eqb a JsString.nl || Ascii.eqb a JsString.cr).

(** the longest prefix of code units in a class, and what follows it *)
Fixpoint span (p : ascii -> bool) (s : string) : string * string :=
  match s with
  | EmptyString => (EmptyString, EmptyString)
  | String a s' =>
      if p a then let '(l, r) := span p s' in (String a l, r)
      else (EmptyString, s)
  end.

(** what a greedy [.+] takes, and what follows it: the code units before
    the first line terminator (LF, CR, U+2028 or U+2029) *)
Fixpoint span_dot (s : string) : string * string :=
  match s with
  | EmptyString => (EmptyString, EmptyString)
  | String a s' =>
      if is_dot a && negb (LineSeparator.starts s)
      then let '(l, r) := span_dot s' in (String a l, r)
      else (EmptyString, s)
  end.

(** a match that starts at the first code unit. [\w+] and [.+] are greedy;
    a shorter [\w+] never helps, since the literal after it starts with a
    space, which is not a word character. *)
Definition match_here (s : string) : option (string * string) :=
  match JsString.strip_prefix "Calling tool: " s with
  | None => None
  | Some s1 =>
      let '(name, s2) := span is_word s1 in
      if JsString.truthy name then
        match JsString.strip_prefix " with arguments: " s2 with
        | None => None
        | Some s3 =>
            let '(args, _) := span_dot s3 in
            if JsString.truthy args then Some (name, args) else None
        end
      else None
  end.

(** [toolMessage.match(pattern)]: the leftmost match, as its two groups *)
Fixpoint match_pattern (s : string) : option (string * string) :=
  match match_here s with
  | Some groups => Some groups
  | None =>
      match s with
      | EmptyString => None
      | String _ s' => match_pattern s'
      end
  end.

(** ASCII white space, as the DOM has it: TAB, LF, FF, CR and SP *)
Definition is_ascii_space (a : ascii) : bool :=
  let n := nat_of_ascii a in
  Nat.eqb n 9 || Nat.eqb n 10 || Nat.eqb n 12 || Nat.eqb n 13 || Nat.eqb n 32.

(** whether [classList.add] accepts a token: it throws on the empty text
    and on a text that holds ASCII white space *)
Definition is_token (s : string) : bool :=
  JsString.truthy s && JsString.all_chars (fun a => negb (is_ascii_space a)) s.

Section WithPlatform.
Context `{Platform}.

(** [String(v)]: the text a class token, [dataset.rawText] or
    [JSON.parse] gets for a value; a string is its own text *)
Definition text_of (v : option json) : string :=
  match v with
  | Some (JString s) => s
  | _ => ToString v
  end.

(** the text [element.textContent = v] shows: none for [undefined] and
    [null] *)
Definition content_of (v : option json) : string :=
  match v with
  | None | Some JNull => EmptyString
  | _ => text_of v
  end.

(** [Message.add(text, sender, messagesContainer)] for a text and a
    sender that are strings, the sender being a token [classList.add]
    accepts ([user] and [assistant] are); [add_any] below is the function
    on all values *)
Definition add (text sender : string) (w : World) : World * nat :=
  if String.eqb sender "assistant" then
    let '(w, id) := appendChild (mkElement ["shop-ai-message"; sender] (Some text)
                                   (textContent "")) w in
    (Formatting.formatMessageContent id w, id)
  else
    appendChild (mkElement ["shop-ai-message"; sender] None (textContent text)) w.

(** [Message.add(text, sender, messagesContainer)] for any values, as
    [fetchChatHistory] passes them; [None] when [classList.add] throws,
    which it does before the page is changed *)
Definition add_any (text sender : option json) (w : World) : option (World * nat) :=
  let token := text_of sender in
  if is_token token then
    Some (if is_string "assistant" sender
          then add (text_of text) "assistant" w
          else appendChild (mkElement ["shop-ai-message"; token] None
                              (textContent (content_of text))) w)
  else None.

Definition addToolUse (toolMessage : string) (w : World) : World :=
  match match_pattern toolMessage with
  | None =>
      fst (appendChild (mkElement ["shop-ai-message"; "tool-use"] None
                          (textContent toolMessage)) w)
  | Some (toolName, argsString) =>
      let args :=
        match JSON_parse argsString with
        | Some parsedArgs => JSON_stringify_indented parsedArgs
        | None => argsString
        end in
      fst (appendChild (mkElement ["shop-ai-message"; "tool-use"] None
                          (toolUse ("Calling tool: " +:+ toolName) "[+]" args)) w)
  end.

End WithPlatform.
End Message.

(** ** [ShopAIChat.API] *)

Module API.

Definition streamError : string :=
  "Sorry, I couldn't process your request. Please try again later.".
Definition rateLimitError : string :=
  "Sorry, our servers are currently busy. Please try again later.".
Definition defaultWelcome : string := "üëã Hi there! How can I help you today?".
Definition loadingText : string := "Loading conversation history...".

(** how a call of [handleStreamEvent] ends *)
Inductive Outcome :=
| returned                        (* without calling [updateCurrentElement] *)
| updated (newElement : nat)      (* after [updateCurrentElement(newElement)] *)
| thrown.

Definition assistantFrame : Element :=
  mkElement ["shop-ai-message"; "assistant"] (Some "") (textContent "").

(** [value + suffix] where [value] may be [undefined] *)
Definition concat_undefined (value : option string) (suffix : string) : string :=
  match value with
  | Some s => s +:+ suffix
  | None => "undefined" +:+ suffix
  end.

Section WithPlatform.
Context `{Platform}.

Definition welcomeMessage : string :=
  match configuredWelcomeMessage with
  | Some s => if JsString.truthy s then s else defaultWelcome
  | None => defaultWelcome
  end.

(** the element [Message.add] shows for the welcome message *)
Definition welcomeElement : Element :=
  mkElement ["shop-ai-message"; "assistant"] (Some welcomeMessage)
    (innerHTML (formatMarkdown welcomeMessage)).

(** [element.textContent = text] *)
Definition set_textContent (element : nat) (text : string) : World -> World :=
  set_elements (alter (fun e => mkElement (classList e) (rawText e) (textContent text))
                  element).

(** [handleStreamEvent(data, currentMessageElement, messagesContainer,
    userMessage, updateCurrentElement)] *)
Definition handleStreamEvent (data : json) (currentMessageElement : nat)
    (userMessage : string) (w : World) : World * Outcome :=
  match data with
  | JNull => (w, thrown)
  | _ =>
    let type := prop "type" data in
    if is_string "id" type then
      if truthy (prop "conversation_id" data)
      then (setItem "shopAiConversationId" (ToString (prop "conversation_id" data)) w,
            returned)
      else (w, returned)
    else if is_string "chunk" type then
      let w := UI.removeTypingIndicator w in
      match elements w !! currentMessageElement with
      | Some e =>
          let raw := concat_undefined (rawText e) (ToString (prop "chunk" data)) in
          (set_elements
             (alter (fun e => mkElement (classList e) (Some raw) (textContent raw))
                currentMessageElement) w,
           returned)
      | None => (w, thrown)
      end
    else if is_string "message_complete" type then
      (Formatting.formatMessageContent currentMessageElement (UI.removeTypingIndicator w),
       returned)
    else if is_string "end_turn" type then
      (UI.removeTypingIndicator w, returned)
    else if is_string "error" type then
      let w := UI.removeTypingIndicator (emit (console_error "Stream error:") w) in
      match elements w !! currentMessageElement with
      | Some _ => (set_textContent currentMessageElement streamError w, returned)
      | None => (w, thrown)
      end
    else if is_string "rate_limit_exceeded" type then
      let w := UI.removeTypingIndicator (emit (console_error "Rate limit exceeded:") w) in
      match elements w !! currentMessageElement with
      | Some _ => (set_textContent currentMessageElement rateLimitError w, returned)
      | None => (w, thrown)
      end
    else if is_string "auth_required" type then
      (setItem "shopAiLastMessage"
         (if JsString.truthy userMessage then userMessage else "") w, returned)
    else if is_string "product_results" type then
      let '(w, threw) := UI.displayProductResults (prop "products" data) w in
      (w, if threw then thrown else returned)
    else if is_string "tool_use" type then
      if truthy (prop "tool_use_message" data) then
        match prop "tool_use_message" data with
        | Some (JString toolMessage) => (Message.addToolUse toolMessage w, returned)
        | _ => (w, thrown)        (* [toolMessage.match] is not a function *)
        end
      else (w, returned)
    else if is_string "new_message" type then
      let w := Formatting.formatMessageContent currentMessageElement w in
      let w := UI.showTypingIndicator w in
      let '(w, newMessageElement) := appendChild assistantFrame w in
      (w, updated newMessageElement)
    else if is_string "content_block_complete" type then
      (UI.showTypingIndicator w, returned)
    else (w, returned)
  end.

(** the body of [for (const line of lines)] in [streamResponse]; returns
    the world and the value of [currentMessageElement] after it *)
Definition processLine (userMessage : string) (st : World * nat) (line : string)
    : World * nat :=
  let '(w, currentMessageElement) := st in
  if JsString.startsWith "data: " line then
    match JSON_parse (JsString.slice 6 line) with
    | Some data =>
        match handleStreamEvent data currentMessageElement userMessage w with
        | (w, returned) => (w, currentMessageElement)
        | (w, updated newElement) => (w, newElement)
        | (w, thrown) => (emit (console_error "Error parsing event data:") w,
                          currentMessageElement)
        end
    | None => (emit (console_error "Error parsing event data:") w, currentMessageElement)
    end
  else (w, currentMessageElement).

(** [streamResponse] up to [await fetch(streamUrl, ...)] *)
Definition streamResponse (userMessage : string) (conversationId : option string)
    (w : World) : World * Stream :=
  (emit (fetch_chat userMessage conversationId) w,
   mkStream userMessage conversationId "" None opening).

(** the [catch] block of [streamResponse] *)
Definition streamResponse_catch (s : Stream) (w : World) : World * Stream :=
  let w := emit (console_error "Error in streaming:") w in
  let w := UI.removeTypingIndicator w in
  let w := fst (Message.add streamError "assistant" w) in
  (w, mkStream (userMessage s) (stream_conversationId s) (buffer s)
        (currentMessageElement s) closed).

(** [fetch] settled: with a response whose body can be read ([ok]), up to
    the first [await reader.read()]; otherwise the [catch] block *)
Definition streamResponse_response (s : Stream) (ok : bool) (w : World)
    : World * Stream :=
  match stream_state s with
  | opening =>
      if ok then
        let '(w, messageElement) := appendChild assistantFrame w in
        (w, mkStream (userMessage s) (stream_conversationId s) ""
              (Some messageElement) reading)
      else streamResponse_catch s w
  | _ => (w, s)
  end.

(** what [await reader.read()] gives *)
Inductive ReadResult :=
| read_value (text : string)     (* [{ value, done: false }], decoded *)
| read_done                      (* [{ done: true }] *)
| read_error.                    (* the promise rejects *)

(** one turn of the [while (true)] loop, from the settled [reader.read()]
    to the next [await] *)
Definition streamResponse_read (s : Stream) (r : ReadResult) (w : World)
    : World * Stream :=
  match stream_state s, currentMessageElement s with
  | reading, Some current =>
      match r with
      | read_value value =>
          let '(lines, buffer') := Decoder.read (buffer s) value in
          let '(w, current) :=
            fold_left (processLine (userMessage s)) lines (w, current) in
          (w, mkStream (userMessage s) (stream_conversationId s) buffer'
                (Some current) reading)
      | read_done =>
          (w, mkStream (userMessage s) (stream_conversationId s) (buffer s)
                (currentMessageElement s) closed)
      | read_error => streamResponse_catch s w
      end
  | _, _ => (w, s)
  end.


(** the loop over successive reads that give text *)
Definition streamResponse_reads (s : Stream) (values : list string) (w : World)
    : World * Stream :=
  fold_left (fun '(w, s) value => streamResponse_read s (read_value value) w)
    values (w, s).

(** *** [fetchChatHistory] *)

(** how [await fetch(...)] settles *)
Inductive FetchResult :=
| fetch_rejected
| response_not_ok
| response_ok.

(** how [await response.json()] settles: the promise rejects, or gives
    the value the body is the JSON text of *)
Inductive HistoryResult :=
| history_rejected
| history_data (data : json).

(** [element.textContent] read back *)
Definition get_textContent (e : Element) : string :=
  match body e with
  | textContent text => text
  | innerHTML markup => markupText markup
  | toolUse toolText toggle args => toolText +:+ toggle +:+ args
  | typingDots => ""
  | productSection _ => ""
  end.

Definition is_assistant_message (e : Element) : bool :=
  has_class "shop-ai-message" e && has_class "assistant" e.

(** [fetchChatHistory] up to [await fetch(historyUrl, ...)] *)
Definition fetchChatHistory (conversationId : string) (w : World) : World * History :=
  let '(w, loadingMessage) :=
    appendChild (mkElement ["shop-ai-message"; "assistant"] None
                   (textContent loadingText)) w in
  let w := emit (console_log "Fetching history from:") w in
  let w := emit (fetch_history conversationId) w in
  (w, mkHistory conversationId loadingMessage awaiting_fetch).

(** the [catch] block of [fetchChatHistory] *)
Definition fetchChatHistory_catch (w : World) : World :=
  let w := emit (console_error "Error fetching chat history:") w in
  let w :=
    match UI.querySelector is_assistant_message w with
    | Some id =>
        match elements w !! id with
        | Some e =>
            if String.eqb (get_textContent e) loadingText
            then set_messagesContainer (UI.remove_first id) w
            else w
        | None => w
        end
    | None => w
    end in
  let w := fst (Message.add welcomeMessage "assistant" w) in
  removeItem "shopAiConversationId" w.

Definition settled (h : History) : History :=
  mkHistory (history_conversationId h) (loadingMessage h) not_awaiting.

(** [fetch] settled, up to [await response.json()] *)
Definition fetchChatHistory_response (h : History) (r : FetchResult) (w : World)
    : World * History :=
  match history_awaiting h with
  | awaiting_fetch =>
      match r with
      | fetch_rejected => (fetchChatHistory_catch w, settled h)
      | response_not_ok =>
          (fetchChatHistory_catch (emit (console_error "History fetch failed:") w),
           settled h)
      | response_ok =>
          (w, mkHistory (history_conversationId h) (loadingMessage h) awaiting_json)
      end
  | _ => (w, h)
  end.

(** the blocks of one parsed [message.content], in the [for ... of] loop;
    returns whether the loop threw: a [null] block has no [type], and
    [Message.add] throws on a role that is no class token *)
Fixpoint addContentBlocks (blocks : list json) (role : option json) (w : World)
    : World * bool :=
  match blocks with
  | [] => (w, false)
  | JNull :: _ => (w, true)
  | contentBlock :: rest =>
      if is_string "text" (prop "type" contentBlock) then
        match Message.add_any (prop "text" contentBlock) role w with
        | Some (w, _) => addContentBlocks rest role w
        | None => (w, true)
        end
      else addContentBlocks rest role w
  end.

(** the callback of [data.messages.forEach]; returns whether it threw,
    which it does on a [null] message and when [Message.add] throws in
    its [catch] block *)
Definition addHistoryMessage (message : json) (w : World) : World * bool :=
  match message with
  | JNull => (w, true)
  | _ =>
      let content := prop "content" message in
      let role := prop "role" message in
      let fallback w :=
        match Message.add_any content role w with
        | Some (w, _) => (w, false)
        | None => (w, true)
        end in
      match JSON_parse (Message.text_of content) with
      | Some (JArray blocks) =>
          let '(w, threw) := addContentBlocks blocks role w in
          if threw then fallback w else (w, false)
      | Some (JString _) => (w, false)     (* iterates over code units: no [type] *)
      | Some _ => fallback w               (* not iterable *)
      | None => fallback w
      end
  end.

(** [data.messages.forEach(...)], which the first throw of its callback
    ends; returns whether it threw *)
Fixpoint addHistoryMessages (messages : list json) (w : World) : World * bool :=
  match messages with
  | [] => (w, false)
  | message :: rest =>
      let '(w, threw) := addHistoryMessage message w in
      if threw then (w, true) else addHistoryMessages rest w
  end.

(** [messages.length === 0] for a value that is not falsy *)
Definition length_is_zero (messages : option json) : bool :=
  match messages with
  | Some (JArray []) => true
  | Some (JObject fields) =>
      match lookup_field "length" fields with
      | Some (JNumber m e) => is_zero m e
      | _ => false
      end
  | _ => false
  end.

(** the [try] block from the value of [response.json()] to its end;
    returns whether it threw *)
Definition fetchChatHistory_try (h : History) (data : json) (w : World)
    : World * bool :=
  if existsb (Nat.eqb (loadingMessage h)) (messagesContainer w) then
    let w := set_messagesContainer (UI.remove_first (loadingMessage h)) w in
    match data with
    | JNull => (w, true)
    | _ =>
        let messages := prop "messages" data in
        if negb (truthy messages) || length_is_zero messages then
          (fst (Message.add welcomeMessage "assistant" w), false)
        else
          match messages with
          | Some (JArray items) => addHistoryMessages items w
          | _ => (w, true)                 (* [forEach] is not a function *)
          end
    end
  else (w, true).                          (* [removeChild] throws *)

(** [response.json()] settled, to the end of the function *)
Definition fetchChatHistory_json (h : History) (r : HistoryResult) (w : World)
    : World * History :=
  match history_awaiting h with
  | awaiting_json =>
      match r with
      | history_rejected => (fetchChatHistory_catch w, settled h)
      | history_data data =>
          let '(w, threw) := fetchChatHistory_try h data w in
          (if threw then fetchChatHistory_catch w else w, settled h)
      end
  | _ => (w, h)
  end.

End WithPlatform.
End API.

(** ** [ShopAIChat.Auth] *)

Module Auth.

Definition maxAttempts : Z := 30.

(** how [await response.json()] settles in [poll] *)
Inductive JsonResult :=
| json_rejected
| json_value (data : json).

Definition set_poller (P : Poller) (count : Z) (a : Awaiting) : Poller :=
  mkPoller (pollingId P) (poll_conversationId P) count a.

Section WithPlatform.
Context `{Platform}.

(** [startTokenPolling(conversationId, messagesContainer)], where [now] is
    the value of [Date.now()] and [p] names the [poll] closure it creates *)
Definition startTokenPolling (p : nat) (conversationId : option string) (now : Z)
    (w : World) : World * option Poller :=
  match conversationId with
  | Some conversationId =>
      if JsString.truthy conversationId then
        let w := emit (console_log "Starting token polling for conversation:") w in
        let pollingId := "polling_" +:+ pretty now in
        let w := setItem "shopAiTokenPollingId" pollingId w in
        (setTimeout (poll_timer p 2000) w,
         Some (mkPoller pollingId conversationId 0 not_awaiting))
      else (w, None)
  | None => (w, None)
  end.

(** [poll], from its start to [await fetch(tokenUrl)] *)
Definition poll (p : nat) (P : Poller) (w : World) : World * Poller :=
  if negb (bool_decide (getItem "shopAiTokenPollingId" w = Some (pollingId P))) then
    (emit (console_log "Another polling session has started, stopping this one") w, P)
  else if maxAttempts <=? attemptCount P then
    (emit (console_log "Max polling attempts reached, stopping") w, P)
  else
    (emit (fetch_token_status (poll_conversationId P)) w,
     set_poller P (attemptCount P + 1) awaiting_fetch).

(** the [catch] block of [poll] *)
Definition poll_catch (p : nat) (P : Poller) (w : World) : World * Poller :=
  (setTimeout (poll_timer p 10000)
     (emit (console_error "Error polling for token status:") w),
   set_poller P (attemptCount P) not_awaiting).

(** [fetch] settled, up to [await response.json()] *)
Definition poll_response (p : nat) (P : Poller) (r : API.FetchResult) (w : World)
    : World * Poller :=
  match poll_awaiting P with
  | awaiting_fetch =>
      match r with
      | API.response_ok => (w, set_poller P (attemptCount P) awaiting_json)
      | _ => poll_catch p P w
      end
  | _ => (w, P)
  end.

(** [response.json()] settled, to the end of [poll] *)
Definition poll_json (p : nat) (P : Poller) (r : JsonResult) (w : World)
    : World * Poller :=
  match poll_awaiting P with
  | awaiting_json =>
      match r with
      | json_rejected | json_value JNull => poll_catch p P w
      | json_value data =>
          let P' := set_poller P (attemptCount P) not_awaiting in
          if is_string "authorized" (prop "status" data) then
            let w := emit (console_log "Token available, resuming conversation") w in
            let w :=
              match getItem "shopAiLastMessage" w with
              | Some message =>
                  if JsString.truthy message then
                    setTimeout (replay_timer message (poll_conversationId P) 500)
                      (removeItem "shopAiLastMessage" w)
                  else w
              | None => w
              end in
            (removeItem "shopAiTokenPollingId" w, P')
          else
            (setTimeout (poll_timer p 10000)
               (emit (console_log "Token not available yet, polling again in 10s") w),
             P')
      end
  | _ => (w, P)
  end.

(** the callback [poll] passes to [setTimeout(..., 500)] once authorized *)
Definition replay (message conversationId : string) (w : World) : World * Stream :=
  let w := fst (Message.add
                  "Authorization successful! I'm now continuing with your request."
                  "assistant" w) in
  let '(w, s) := API.streamResponse message (Some conversationId) w in
  (UI.showTypingIndicator w, s).

(** [openAuthPopup(authUrl)] for a URL; [popup] tells whether [window.open]
    gave a window *)
Definition openAuthPopup (p : nat) (authUrl : string) (popup : bool) (now : Z)
    (w : World) : World * option Poller :=
  let w := emit (window_open authUrl) w in
  let w :=
    if popup then w
    else emit (alert "Please allow popups for this site to authenticate with Shopify.") w in
  match getItem "shopAiConversationId" w with
  | Some conversationId =>
      if JsString.truthy conversationId then
        let w := fst (Message.add
            "Authentication in progress. Please complete the process in the popup window."
            "assistant" w) in
        startTokenPolling p (Some conversationId) now w
      else (w, None)
  | None => (w, None)
  end.

End WithPlatform.
End Auth.

(** ** The page's entry points and its event loop *)

Module ShopAIChat.

(** the shared world and the variables of every call in progress *)
Record Page := mkPage {
  world : World;
  pollers : list Poller;           (* the [poll] closures, in creation order *)
  streams : list Stream;           (* the calls of [streamResponse] *)
  history : option History         (* the call of [fetchChatHistory] *)
}.

Definition load (storage : gmap string string) : Page :=
  mkPage (blank storage) [] [] None.

(** runs a piece of code on one element of a list of closures *)
Definition on_nth {A} (i : nat) (l : list A) (f : A -> World -> World * A) (w : World)
    : World * list A :=
  match l !! i with
  | Some a => let '(w, a) := f a w in (w, <[i := a]> l)
  | None => (w, l)
  end.

Section WithPlatform.
Context `{Platform}.

(** [Message.send], with [userMessage] the trimmed value of the input *)
Definition send (userMessage : string) (w : World) : World * Stream :=
  let conversationId := getItem "shopAiConversationId" w in
  let w := fst (Message.add userMessage "user" w) in
  let w := UI.showTypingIndicator w in
  API.streamResponse userMessage conversationId w.

(** [ShopAIChat.init] *)
Definition init (w : World) : World * option History :=
  match getItem "shopAiConversationId" w with
  | Some conversationId =>
      if JsString.truthy conversationId
      then let '(w, h) := API.fetchChatHistory conversationId w in (w, Some h)
      else (fst (Message.add API.welcomeMessage "assistant" w), None)
  | None => (fst (Message.add API.welcomeMessage "assistant" w), None)
  end.

(** what the browser hands to the page *)
Inductive Event :=
| DOMContentLoaded
| submit (userMessage : string)          (* Enter or the send button *)
| click_auth_link (popup : bool) (now : Z)
| timer_fires (i : nat)                  (* the i-th pending timer is due *)
| stream_response (sid : nat) (ok : bool)
| stream_read (sid : nat) (r : API.ReadResult)
| token_response (p : nat) (r : API.FetchResult)
| token_json (p : nat) (r : Auth.JsonResult)
| history_response (r : API.FetchResult)
| history_json (r : API.HistoryResult).

(** one task of the event loop *)
Definition step (pg : Page) (e : Event) : Page :=
  let w := world pg in
  match e with
  | DOMContentLoaded =>
      let '(w, h) := init w in
      mkPage w (pollers pg) (streams pg) h
  | submit userMessage =>
      if JsString.truthy userMessage then
        let '(w, s) := send userMessage w in
        mkPage w (pollers pg) (streams pg ++ [s]) (history pg)
      else pg
  | click_auth_link popup now =>
      match shopAuthUrl w with
      | Some url =>
          if JsString.truthy url then
            let '(w, P) := Auth.openAuthPopup (length (pollers pg)) url popup now w in
            mkPage w (pollers pg ++ option_list P) (streams pg) (history pg)
          else pg
      | None => pg
      end
  | timer_fires i =>
      match timers w !! i with
      | Some t =>
          let w := set_timers (delete i) w in
          match t with
          | poll_timer p _ =>
              let '(w, ps) := on_nth p (pollers pg) (Auth.poll p) w in
              mkPage w ps (streams pg) (history pg)
          | replay_timer message conversationId _ =>
              let '(w, s) := Auth.replay message conversationId w in
              mkPage w (pollers pg) (streams pg ++ [s]) (history pg)
          end
      | None => pg
      end
  | stream_response sid ok =>
      let '(w, ss) := on_nth sid (streams pg)
                        (fun s => API.streamResponse_response s ok) w in
      mkPage w (pollers pg) ss (history pg)
  | stream_read sid r =>
      let '(w, ss) := on_nth sid (streams pg)
                        (fun s => API.streamResponse_read s r) w in
      mkPage w (pollers pg) ss (history pg)
  | token_response p r =>
      let '(w, ps) := on_nth p (pollers pg) (fun P => Auth.poll_response p P r) w in
      mkPage w ps (streams pg) (history pg)
  | token_json p r =>
      let '(w, ps) := on_nth p (pollers pg) (fun P => Auth.poll_json p P r) w in
      mkPage w ps (streams pg) (history pg)
  | history_response r =>
      match history pg with
      | Some h =>
          let '(w, h) := API.fetchChatHistory_response h r w in
          mkPage w (pollers pg) (streams pg) (Some h)
      | None => pg
      end
  | history_json r =>
      match history pg with
      | Some h =>
          let '(w, h) := API.fetchChatHistory_json h r w in
          mkPage w (pollers pg) (streams pg) (Some h)
      | None => pg
      end
  end.

Definition run (pg : Page) (events : list Event) : Page := fold_left step events pg.

(** whether a task starts a polling session at a given [Date.now()] *)
Definition starts_session_at (now : Z) (e : Event) : bool :=
  match e with
  | click_auth_link _ now' => now' =? now
  | _ => false
  end.

(** *** One polling session, with nothing else running in between *)










End WithPlatform.
End ShopAIChat.

(** ** [Buffer]'s base64 encoding *)

Module Base64.

Inductive sextet := Sextet (b5 b4 b3 b2 b1 b0 : bool).

Definition N_of_sextet (x : sextet) : N :=
  let 'Sextet b5 b4 b3 b2 b1 b0 := x in
  N_of_digits [b0; b1; b2; b3; b4; b5].

Definition sextet_of_N (n : N) : sextet :=
  Sextet (N.testbit n 5) (N.testbit n 4) (N.testbit n 3)
         (N.testbit n 2) (N.testbit n 1) (N.testbit n 0).

Definition alphabet : string :=
  "ABCDEFGHIJKLMNOPQRSTUVWXYZabcdefghijklmnopqrstuvwxyz0123456789+/".

Definition char_of (x : sextet) : ascii :=
  match String.get (N.to_nat (N_of_sextet x)) alphabet with
  | Some a => a
  | None => "="%char
  end.

(** the value of a character of the standard or of the URL-safe alphabet *)
Definition value_of (a : ascii) : option sextet :=
  let n := N_of_ascii a in
  if (65 <=? n)%N && (n <=? 90)%N then Some (sextet_of_N (n - 65))
  else if (97 <=? n)%N && (n <=? 122)%N then Some (sextet_of_N (n - 71))
  else if (48 <=? n)%N && (n <=? 57)%N then Some (sextet_of_N (n + 4))
  else if (n =? 43)%N || (n =? 45)%N then Some (sextet_of_N 62)
  else if (n =? 47)%N || (n =? 95)%N then Some (sextet_of_N 63)
  else None.

(** [buffer.toString('base64')] *)
Fixpoint encode (bytes : string) : string :=
  match bytes with
  | EmptyString => EmptyString
  | String (Ascii a0 a1 a2 a3 a4 a5 a6 a7) EmptyString =>
      String (char_of (Sextet a7 a6 a5 a4 a3 a2))
        (String (char_of (Sextet a1 a0 false false false false)) "==")
  | String (Ascii a0 a1 a2 a3 a4 a5 a6 a7)
      (String (Ascii b0 b1 b2 b3 b4 b5 b6 b7) EmptyString) =>
      String (char_of (Sextet a7 a6 a5 a4 a3 a2))
        (String (char_of (Sextet a1 a0 b7 b6 b5 b4))
           (String (char_of (Sextet b3 b2 b1 b0 false false)) "="))
  | String (Ascii a0 a1 a2 a3 a4 a5 a6 a7)
      (String (Ascii b0 b1 b2 b3 b4 b5 b6 b7)
         (String (Ascii c0 c1 c2 c3 c4 c5 c6 c7) rest)) =>
      String (char_of (Sextet a7 a6 a5 a4 a3 a2))
        (String (char_of (Sextet a1 a0 b7 b6 b5 b4))
           (String (char_of (Sextet b3 b2 b1 b0 c7 c6))
              (String (char_of (Sextet c5 c4 c3 c2 c1 c0)) (encode rest))))
  end.

(** the sextets of a text, as [Buffer.from(text, 'base64')] reads it:
    characters outside the alphabets are passed over, [=] ends the data *)
Fixpoint sextets (s : string) : list sextet :=
  match s with
  | EmptyString => []
  | String a s' =>
      if Ascii.eqb a "=" then []
      else match value_of a with
           | Some x => x :: sextets s'
           | None => sextets s'
           end
  end.

Fixpoint bytes_of (l : list sextet) : string :=
  match l with
  | Sextet a7 a6 a5 a4 a3 a2 :: Sextet a1 a0 b7 b6 b5 b4 ::
    Sextet b3 b2 b1 b0 c7 c6 :: Sextet c5 c4 c3 c2 c1 c0 :: rest =>
      String (Ascii a0 a1 a2 a3 a4 a5 a6 a7)
        (String (Ascii b0 b1 b2 b3 b4 b5 b6 b7)
           (String (Ascii c0 c1 c2 c3 c4 c5 c6 c7) (bytes_of rest)))
  | [Sextet a7 a6 a5 a4 a3 a2; Sextet a1 a0 b7 b6 b5 b4; Sextet b3 b2 b1 b0 _ _] =>
      String (Ascii a0 a1 a2 a3 a4 a5 a6 a7)
        (String (Ascii b0 b1 b2 b3 b4 b5 b6 b7) EmptyString)
  | [Sextet a7 a6 a5 a4 a3 a2; Sextet a1 a0 _ _ _ _] =>
      String (Ascii a0 a1 a2 a3 a4 a5 a6 a7) EmptyString
  | _ => EmptyString
  end.

(** [Buffer.from(text, 'base64')] *)
Definition decode (text : string) : string := bytes_of (sextets text).

End Base64.

(** ** The token helpers of [app/routes/api.chat-auth.jsx] *)

Module ChatAuth.

(** [7 * 24 * 60 * 60 * 1000] *)
Definition sevenDays : Z := 7 * 24 * 60 * 60 * 1000.

(** [generateToken(userId)], where [now] is the value of [Date.now()] *)
Definition generateToken (userId : string) (now : Z) : string :=
  let payload := JObject [("userId", JString userId);
                          ("exp", JNumber (now + sevenDays) 0)] in
  Base64.encode (JSON.stringify payload).

Section Coercion.
(** [v < n] for a string, an array or an object [v], which JavaScript
    first converts to a number *)
Variable coerced_lt : json -> Z -> bool.

(** [exp < now] for the value or [undefined] that [payload.exp] gives *)
Definition lt_now (exp : option json) (now : Z) : bool :=
  match exp with
  | None => false
  | Some JNull => 0 <? now
  | Some (JBool b) => (if b then 1 else 0) <? now
  | Some (JNumber m e) =>
      if 0 <=? e then m * 10 ^ e <? now else m <? now * 10 ^ (- e)
  | Some v => coerced_lt v now
  end.

(** [parseToken(token)], where [now] is the value of [Date.now()];
    [None] is [null] *)
Definition parseToken (token : string) (now : Z) : option json :=
  match JSON.parse (Base64.decode token) with
  | Some JNull => None             (* [payload.exp] throws, caught *)
  | Some payload =>
      if lt_now (prop "exp" payload) now then None else Some payload
  | None => None                   (* [JSON.parse] throws, caught *)
  end.

End Coercion.
End ChatAuth.

(** ** A browser to run the page in

    [JSON] for the built-ins; for the markdown collaborator, what it gives on
    one line of plain text without links. *)

Module Browser.

(** the text of a markup: what lies outside its tags *)
Fixpoint strip_tags (inside : bool) (markup : string) : string :=
  match markup with
  | EmptyString => EmptyString
  | String a rest =>
      if Ascii.eqb a "<" then strip_tags true rest
      else if Ascii.eqb a ">" then strip_tags false rest
      else if inside then strip_tags inside rest
      else String a (strip_tags inside rest)
  end.

#[local] Instance browser : Platform := {|
  JSON_parse := JSON.parse;
  JSON_stringify_indented := JSON.stringify_at 0;
  ToString := JSON.ToString;
  formatMarkdown := fun raw => "<p>" +:+ raw +:+ "</p>";
  authLink := fun _ => None;
  markupText := strip_tags false;
  configuredWelcomeMessage := None
|}.

End Browser.

(** ** Sample pages and streams *)

Module Samples.
Import JSON ShopAIChat.
#[local] Existing Instance Browser.browser.

Definition storage : gmap string string := {["shopAiConversationId" := "conv_1"]}.

(** a turn in progress: the user has sent [hi] and the response has opened *)
Definition turn : Page := run (load storage) [submit "hi"; stream_response 0 true].

Definition turn_stream : Stream := mkStream "hi" (Some "conv_1") "" (Some 2%nat) reading.

(** two reads that cut a [chunk] frame in two and end inside a third frame *)
Definition values : list string :=
  [dq "data: {'type':'chunk','chunk':'Hel";
   dq "lo'}" +:+ Decoder.delimiter +:+ dq "data: {'type':'end_turn'}" +:+
   Decoder.delimiter +:+ "da"].

Definition frames : list string :=
  [dq "data: {'type':'chunk','chunk':'Hello'}"; dq "data: {'type':'end_turn'}"].

Definition event (type : string) : json := JObject [("type", JString type)].

Definition line (payload : string) : string := "data: " +:+ dq payload.

(** a page on which the assistant has shown an authentication link *)
Definition authUrl : string := "https://shopify.com/authentication/1/oauth/authorize".

Definition linked : Page :=
  mkPage (set_shopAuthUrl (fun _ => Some authUrl)
            (setItem "shopAiLastMessage" "hi" (world turn)))
    (pollers turn) (streams turn) (history turn).

Definition authorized : json := JObject [("status", JString "authorized")].

End Samples.

(** * Proof automation *)




From Stdlib Require Import Sorted Permutation.

(** * The server: [db.server] and the routes [api.chat-auth], [api.user-prompt]

    The tables [ChatUser] and [PromptHistory] are lists of rows in insertion
    order, with the constraints of the migration (primary keys, the unique
    index on [(shopId, username)]). A call of a store function or of a route
    handler is a function on the store that gives a value or throws; what the
    server writes to its console is part of the store. The columns
    [createdAt] and [updatedAt] of [ChatUser], which no function of these
    files reads, are left out; a [version] is an integer, without the bound
    of its column. *)

(** what Node and Prisma bring: the hex digest of SHA-256, the comparison of
    a string, an array or an object with a number (JavaScript converts it to
    a number first), and [Date.prototype.toISOString] *)
Class Node := {
  sha256_hex : string -> string;
  coerced_lt : json -> Z -> bool;
  coerced_gt : json -> Z -> bool;
  toISOString : Z -> string
}.

Module ChatUser.

Record t := mk {
  id : string;
  shopId : string;
  username : string;
  passwordHash : string;
  currentPrompt : option string;      (* [NULL] or a text *)
  isActive : bool
}.

End ChatUser.

Module PromptHistory.

Record t := mk {
  id : string;
  userId : string;
  content : string;
  version : Z;
  createdAt : Z
}.

End PromptHistory.

Module Server.

Record Store := mkStore {
  chatUser : list ChatUser.t;
  promptHistory : list PromptHistory.t;
  console : list string
}.

(** how a call ends: with a value, or with an exception (for an [async]
    function: a rejected promise) *)
Inductive Completion (A : Type) : Type :=
| value (a : A)
| exception.
Arguments value {A} a.
Arguments exception {A}.

Definition M (A : Type) : Type := Store -> Completion A * Store.

Definition ret {A} (a : A) : M A := fun st => (value a, st).

Definition throw {A} : M A := fun st => (exception, st).

Definition bind {A B} (m : M A) (k : A -> M B) : M B :=
  fun st =>
    match m st with
    | (value a, st') => k a st'
    | (exception, st') => (exception, st')
    end.

(** [try { m } catch (error) { handler }] *)
Definition try_catch {A} (m : M A) (handler : M A) : M A :=
  fun st =>
    match m st with
    | (value a, st') => (value a, st')
    | (exception, st') => handler st'
    end.

Definition console_error (message : string) : M unit :=
  fun st => (value tt, mkStore (chatUser st) (promptHistory st) (console st ++ [message])).

Notation "x <- m ;; k" := (bind m (fun x => k))
  (at level 100, m at next level, right associativity).
Notation "m ;;; k" := (bind m (fun _ => k))
  (at level 100, right associativity).

(** a value that is a string; Prisma and [crypto] refuse anything else where
    they expect one *)
Definition as_string (v : option json) : option string :=
  match v with
  | Some (JString s) => Some s
  | _ => None
  end.

(** [s.length]: the number of UTF-16 code units of a text held in UTF-8
    form. A byte that continues a sequence counts for nothing, the first
    byte of a four-byte sequence for a surrogate pair. *)
Fixpoint utf16_length (s : string) : nat :=
  match s with
  | EmptyString => 0
  | String a s' =>
      let n := nat_of_ascii a in
      ((if (n <? 128)%nat then 1
        else if (n <? 192)%nat then 0
        else if (n <? 240)%nat then 1
        else 2) + utf16_length s')%nat
  end.

(** [v.length] for a value that is neither [null] nor [undefined] *)
Definition length_of (v : json) : option json :=
  match v with
  | JString s => Some (JNumber (Z.of_nat (utf16_length s)) 0)
  | JArray items => Some (JNumber (Z.of_nat (length items)) 0)
  | JObject _ => prop "length" v
  | _ => None
  end.

(** [v.length] for a value or [undefined] that has passed the test [!v] *)
Definition dot_length (v : option json) : option json :=
  match v with
  | Some v => length_of v
  | None => None
  end.

Definition of_option_string (v : option string) : json :=
  match v with
  | Some s => JString s
  | None => JNull
  end.

(** ** The requests and responses of the routes *)

Record Request := mkRequest {
  method : string;
  origin : option string;             (* [headers.get("Origin")] *)
  authorization : option string;      (* [headers.get("Authorization")] *)
  action_param : option string;       (* [url.searchParams.get("action")] *)
  json_body : option json             (* [await request.json()]; [None]: it rejects *)
}.

(** a response: its status, the value its body is the JSON text of, and its
    header [Access-Control-Allow-Origin]. The other headers are the same on
    every response: the content type, the allowed methods [GET, POST,
    OPTIONS], the allowed headers, [Access-Control-Allow-Credentials: true]
    and the maximal age. *)
Record Response := mkResponse {
  status : Z;
  body : option json;
  allowOrigin : string
}.

(** [corsHeaders(request)], as its first header *)
Definition corsHeaders (request : Request) : string :=
  match origin request with
  | Some o => if JsString.truthy o then o else "*"
  | None => "*"
  end.

Definition jsonResponse (data : json) (status : Z) (request : Request) : Response :=
  mkResponse status (Some data) (corsHeaders request).

(** [new Response(null, { status: 204, headers: corsHeaders(request) })] *)
Definition preflight (request : Request) : Response :=
  mkResponse 204 None (corsHeaders request).

Definition error (message : string) : json := JObject [("error", JString message)].

(** a call that, whenever it answers, answers with the CORS header of its
    request *)
Definition answers_with_cors (request : Request) (m : M Response) : Prop :=
  forall st,
    match fst (m st) with
    | value response => allowOrigin response = corsHeaders request
    | exception => True
    end.

(** ** [db.server] *)

Module Db.

Definition same_user (shopId username : string) (u : ChatUser.t) : bool :=
  String.eqb (ChatUser.shopId u) shopId && String.eqb (ChatUser.username u) username.

Definition has_id (id : string) (u : ChatUser.t) : bool := String.eqb (ChatUser.id u) id.

Definition has_history_id (id : string) (h : PromptHistory.t) : bool :=
  String.eqb (PromptHistory.id h) id.

(** [prisma.chatUser.create]: the row gets the identifier Prisma makes for
    it, no prompt and [isActive = true]; the primary key and the unique index
    on [(shopId, username)] make it throw *)
Definition chatUser_create (newId shopId username passwordHash : string) : M ChatUser.t :=
  fun st =>
    if existsb (has_id newId) (chatUser st) || existsb (same_user shopId username) (chatUser st)
    then (exception, st)
    else
      let row := ChatUser.mk newId shopId username passwordHash None true in
      (value row, mkStore (chatUser st ++ [row]) (promptHistory st) (console st)).

(** [createChatUser(shopId, username, passwordHash)] *)
Definition createChatUser (newId : string) (shopId username : option json)
    (passwordHash : string) : M ChatUser.t :=
  try_catch
    (match as_string shopId, as_string username with
     | Some shopId, Some username => chatUser_create newId shopId username passwordHash
     | _, _ => throw
     end)
    (console_error "Error creating chat user:" ;;; throw).

(** [getChatUserByUsername(shopId, username)] *)
Definition getChatUserByUsername (shopId username : option json) : M (option ChatUser.t) :=
  try_catch
    (match as_string shopId, as_string username with
     | Some shopId, Some username =>
         fun st => (value (List.find (same_user shopId username) (chatUser st)), st)
     | _, _ => throw
     end)
    (console_error "Error getting chat user:" ;;; ret None).

(** [getChatUserById(userId)] *)
Definition getChatUserById (userId : option json) : M (option ChatUser.t) :=
  try_catch
    (match as_string userId with
     | Some userId => fun st => (value (List.find (has_id userId) (chatUser st)), st)
     | None => throw
     end)
    (console_error "Error getting chat user by id:" ;;; ret None).

(** the greatest [version] among the rows of a user: the [version] of the
    row [findFirst({ where: { userId }, orderBy: { version: 'desc' } })]
    gives, whichever row that is *)
Fixpoint lastVersion (userId : string) (rows : list PromptHistory.t) : option Z :=
  match rows with
  | [] => None
  | h :: rest =>
      if String.eqb (PromptHistory.userId h) userId then
        match lastVersion userId rest with
        | Some v => Some (Z.max (PromptHistory.version h) v)
        | None => Some (PromptHistory.version h)
        end
      else lastVersion userId rest
  end.

(** [prisma.promptHistory.create] *)
Definition promptHistory_create (row : PromptHistory.t) : M unit :=
  fun st =>
    if existsb (has_history_id (PromptHistory.id row)) (promptHistory st)
       || negb (existsb (has_id (PromptHistory.userId row)) (chatUser st))
    then (exception, st)
    else (value tt, mkStore (chatUser st) (promptHistory st ++ [row]) (console st)).

Definition set_currentPrompt (prompt : string) (u : ChatUser.t) : ChatUser.t :=
  ChatUser.mk (ChatUser.id u) (ChatUser.shopId u) (ChatUser.username u)
    (ChatUser.passwordHash u) (Some prompt) (ChatUser.isActive u).

(** [prisma.chatUser.update({ where: { id }, data: { currentPrompt, ... } })]:
    throws when there is no such row *)
Definition chatUser_update (userId prompt : string) : M ChatUser.t :=
  fun st =>
    match List.find (has_id userId) (chatUser st) with
    | Some u =>
        (value (set_currentPrompt prompt u),
         mkStore (List.map (fun u => if has_id userId u then set_currentPrompt prompt u else u)
                    (chatUser st))
           (promptHistory st) (console st))
    | None => (exception, st)
    end.

(** [(lastHistory?.version || 0) + 1] *)
Definition newVersion (lastHistory : option Z) : Z :=
  match lastHistory with
  | Some v => (if v =? 0 then 0 else v) + 1
  | None => 0 + 1
  end.

(** [updateUserPrompt(userId, prompt)]; [newId] and [createdAt] are the
    identifier and the time stamp the history row gets, if one is made *)
Definition updateUserPrompt (newId : string) (createdAt : Z) (userId prompt : string)
    : M ChatUser.t :=
  try_catch
    (user <- (fun st => (value (List.find (has_id userId) (chatUser st)), st)) ;;
     match user with
     | Some user =>
         match ChatUser.currentPrompt user with
         | Some current =>
             if JsString.truthy current then
               lastHistory <- (fun st => (value (lastVersion userId (promptHistory st)), st)) ;;
               promptHistory_create
                 (PromptHistory.mk newId userId current (newVersion lastHistory) createdAt)
             else ret tt
         | None => ret tt
         end
     | None => ret tt
     end ;;;
     chatUser_update userId prompt)
    (console_error "Error updating user prompt:" ;;; throw).

(** the rows in the order [orderBy: { version: 'desc' }] puts them in; rows
    of one version stay in insertion order *)
Fixpoint insert_desc (h : PromptHistory.t) (sorted : list PromptHistory.t)
    : list PromptHistory.t :=
  match sorted with
  | [] => [h]
  | x :: rest =>
      if PromptHistory.version x <=? PromptHistory.version h
      then h :: x :: rest
      else x :: insert_desc h rest
  end.

Definition orderBy_version_desc (rows : list PromptHistory.t) : list PromptHistory.t :=
  fold_right insert_desc [] rows.

Definition of_user (userId : string) (h : PromptHistory.t) : bool :=
  String.eqb (PromptHistory.userId h) userId.

(** [getPromptHistory(userId)] *)
Definition getPromptHistory (userId : string) : M (list PromptHistory.t) :=
  fun st =>
    (value (orderBy_version_desc (List.filter (of_user userId) (promptHistory st))), st).

(** the rows of each user have pairwise different versions *)
Definition versions_distinct (rows : list PromptHistory.t) : Prop :=
  forall userId,
    NoDup (List.map PromptHistory.version (List.filter (of_user userId) rows)).

(** [prisma.promptHistory.findUnique({ where: { id: historyId } })] *)
Definition promptHistory_findUnique (historyId : option json)
    : M (option PromptHistory.t) :=
  match as_string historyId with
  | Some historyId =>
      fun st =>
        (value (List.find (has_history_id historyId) (promptHistory st)), st)
  | None => throw
  end.

(** [getPromptHistoryById(historyId)] *)
Definition getPromptHistoryById (historyId : option json) : M (option PromptHistory.t) :=
  try_catch (promptHistory_findUnique historyId)
    (console_error "Error getting prompt history by id:" ;;; ret None).

(** [restorePromptFromHistory(userId, historyId)] *)
Definition restorePromptFromHistory (newId : string) (createdAt : Z) (userId : string)
    (historyId : option json) : M ChatUser.t :=
  try_catch
    (history <- promptHistory_findUnique historyId ;;
     match history with
     | Some history =>
         if String.eqb (PromptHistory.userId history) userId
         then updateUserPrompt newId createdAt userId (PromptHistory.content history)
         else throw
     | None => throw
     end)
    (console_error "Error restoring prompt from history:" ;;; throw).

End Db.

(** ** [app/routes/api.chat-auth.jsx] *)

Module AuthRoute.
Section WithNode.
Context `{Node}.

(** [hashPassword(password)]: [update] throws on what is not a string *)
Definition hashPassword (password : option json) : M string :=
  match as_string password with
  | Some password => ret (sha256_hex password)
  | None => throw
  end.

(** [v < n] and [v > n] for a value or [undefined] and a number *)
Definition lt (v : option json) (n : Z) : bool := ChatAuth.lt_now coerced_lt v n.

Definition gt (v : option json) (n : Z) : bool :=
  match v with
  | None => false
  | Some JNull => n <? 0
  | Some (JBool b) => n <? (if b then 1 else 0)
  | Some (JNumber m e) =>
      if 0 <=? e then n <? m * 10 ^ e else n * 10 ^ (- e) <? m
  | Some v => coerced_gt v n
  end.

Definition parseToken (token : string) (now : Z) : option json :=
  ChatAuth.parseToken coerced_lt token now.

Definition unauthenticated (request : Request) : Response :=
  jsonResponse (JObject [("authenticated", JBool false)]) 200 request.

(** the token of a header [Bearer <token>] *)
Definition bearer (authHeader : option string) : option string :=
  match authHeader with
  | Some authHeader =>
      if JsString.truthy authHeader && JsString.startsWith "Bearer " authHeader
      then Some (JsString.slice 7 authHeader)
      else None
  | None => None
  end.

(** [loader({ request })], with [now] the value of [Date.now()] *)
Definition loader (now : Z) (request : Request) : M Response :=
  if String.eqb (method request) "OPTIONS" then ret (preflight request)
  else if bool_decide (action_param request = Some "check") then
    match bearer (authorization request) with
    | None => ret (unauthenticated request)
    | Some token =>
        match parseToken token now with
        | Some payload =>
            if Json.truthy (Some payload) then
              user <- Db.getChatUserById (prop "userId" payload) ;;
              match user with
              | Some user =>
                  if ChatUser.isActive user then
                    ret (jsonResponse
                           (JObject [("authenticated", JBool true);
                                     ("userId", JString (ChatUser.id user));
                                     ("username", JString (ChatUser.username user));
                                     ("currentPrompt",
                                      of_option_string (ChatUser.currentPrompt user))])
                           200 request)
                  else ret (unauthenticated request)
              | None => ret (unauthenticated request)
              end
            else ret (unauthenticated request)
        | None => ret (unauthenticated request)
        end
    end
  else ret (jsonResponse (error "Invalid action") 400 request).

(** [handleRegister(shopId, username, password, request)]; [newId] is the
    identifier Prisma makes for the row *)
Definition handleRegister (now : Z) (newId : string) (shopId username password : option json)
    (request : Request) : M Response :=
  existingUser <- Db.getChatUserByUsername shopId username ;;
  match existingUser with
  | Some _ => ret (jsonResponse (error "用户名已存在") 409 request)
  | None =>
      passwordHash <- hashPassword password ;;
      user <- Db.createChatUser newId shopId username passwordHash ;;
      let token := ChatAuth.generateToken (ChatUser.id user) now in
      ret (jsonResponse
             (JObject [("success", JBool true);
                       ("userId", JString (ChatUser.id user));
                       ("username", JString (ChatUser.username user));
                       ("token", JString token)])
             201 request)
  end.

(** [handleLogin(shopId, username, password, request)] *)
Definition handleLogin (now : Z) (shopId username password : option json)
    (request : Request) : M Response :=
  user <- Db.getChatUserByUsername shopId username ;;
  match user with
  | None => ret (jsonResponse (error "用户名或密码错误") 401 request)
  | Some user =>
      passwordHash <- hashPassword password ;;
      if negb (String.eqb (ChatUser.passwordHash user) passwordHash) then
        ret (jsonResponse (error "用户名或密码错误") 401 request)
      else if negb (ChatUser.isActive user) then
        ret (jsonResponse (error "账户已被禁用") 403 request)
      else
        let token := ChatAuth.generateToken (ChatUser.id user) now in
        ret (jsonResponse
               (JObject [("success", JBool true);
                         ("userId", JString (ChatUser.id user));
                         ("username", JString (ChatUser.username user));
                         ("currentPrompt", of_option_string (ChatUser.currentPrompt user));
                         ("token", JString token)])
               200 request)
  end.

Definition serverError (request : Request) : M Response :=
  console_error "Auth error:" ;;; ret (jsonResponse (error "服务器错误") 500 request).

(** [action({ request })]. The handlers are returned without [await], so an
    exception of theirs is not caught by the [try] block: the call throws. *)
Definition action (now : Z) (newId : string) (request : Request) : M Response :=
  if String.eqb (method request) "OPTIONS" then ret (preflight request)
  else
    match json_body request with
    | None | Some JNull => serverError request
    | Some body =>
        let action := prop "action" body in
        let username := prop "username" body in
        let password := prop "password" body in
        let shopId := prop "shopId" body in
        if negb (Json.truthy username) || negb (Json.truthy password)
           || negb (Json.truthy shopId) then
          ret (jsonResponse (error "缺少必要参数") 400 request)
        else if lt (dot_length username) 2 || gt (dot_length username) 50 then
          ret (jsonResponse (error "用户名长度应为2-50个字符") 400 request)
        else if lt (dot_length password) 4 then
          ret (jsonResponse (error "密码长度至少4个字符") 400 request)
        else if is_string "register" action then
          handleRegister now newId shopId username password request
        else if is_string "login" action then
          handleLogin now shopId username password request
        else ret (jsonResponse (error "无效的操作") 400 request)
    end.

End WithNode.
End AuthRoute.

(** ** [app/routes/api.user-prompt.jsx] *)

Module PromptRoute.
Section WithNode.
Context `{Node}.

(** [authenticateRequest(request)] *)
Definition authenticateRequest (now : Z) (request : Request) : M (option ChatUser.t) :=
  match AuthRoute.bearer (authorization request) with
  | None => ret None
  | Some token =>
      match AuthRoute.parseToken token now with
      | Some payload =>
          if Json.truthy (Some payload) then
            user <- Db.getChatUserById (prop "userId" payload) ;;
            match user with
            | Some user => if ChatUser.isActive user then ret (Some user) else ret None
            | None => ret None
            end
          else ret None
      | None => ret None
      end
  end.

Definition unauthorized (request : Request) : Response :=
  jsonResponse (error "未授权") 401 request.

Definition history_entry (h : PromptHistory.t) : json :=
  JObject [("id", JString (PromptHistory.id h));
           ("version", JNumber (PromptHistory.version h) 0);
           ("content", JString (PromptHistory.content h));
           ("createdAt", JString (toISOString (PromptHistory.createdAt h)))].

(** [loader({ request })] *)
Definition loader (now : Z) (request : Request) : M Response :=
  if String.eqb (method request) "OPTIONS" then ret (preflight request)
  else
    user <- authenticateRequest now request ;;
    match user with
    | None => ret (unauthorized request)
    | Some user =>
        if bool_decide (action_param request = Some "history") then
          history <- Db.getPromptHistory (ChatUser.id user) ;;
          ret (jsonResponse (JObject [("history", JArray (List.map history_entry history))])
                 200 request)
        else
          ret (jsonResponse
                 (JObject [("currentPrompt",
                            JString (match ChatUser.currentPrompt user with
                                     | Some p => if JsString.truthy p then p else ""
                                     | None => ""
                                     end));
                           ("userId", JString (ChatUser.id user))])
                 200 request)
    end.

Definition updated (updatedUser : ChatUser.t) (request : Request) : Response :=
  jsonResponse
    (JObject [("success", JBool true);
              ("currentPrompt", of_option_string (ChatUser.currentPrompt updatedUser))])
    200 request.

(** [action({ request })]; [newId] and [createdAt] are the identifier and
    the time stamp a new history row gets *)
Definition action (now : Z) (newId : string) (createdAt : Z) (request : Request)
    : M Response :=
  if String.eqb (method request) "OPTIONS" then ret (preflight request)
  else
    user <- authenticateRequest now request ;;
    match user with
    | None => ret (unauthorized request)
    | Some user =>
        try_catch
          (match json_body request with
           | None | Some JNull => throw
           | Some body =>
               let action := prop "action" body in
               if is_string "update" action then
                 match prop "prompt" body with
                 | Some (JString prompt) =>
                     updatedUser <- Db.updateUserPrompt newId createdAt
                                      (ChatUser.id user) prompt ;;
                     ret (updated updatedUser request)
                 | _ => ret (jsonResponse (error "提示词必须是字符串") 400 request)
                 end
               else if is_string "restore" action then
                 let historyId := prop "historyId" body in
                 if negb (Json.truthy historyId) then
                   ret (jsonResponse (error "缺少历史记录ID") 400 request)
                 else
                   updatedUser <- Db.restorePromptFromHistory newId createdAt
                                    (ChatUser.id user) historyId ;;
                   ret (updated updatedUser request)
               else ret (jsonResponse (error "无效的操作") 400 request)
           end)
          (console_error "Prompt API error:" ;;;
           ret (jsonResponse (error "服务器错误") 500 request))
    end.

End WithNode.
End PromptRoute.

End Server.

(** * [ShopAIChat.User]: the login state of the chat client

    The fields of [ShopAIChat.User] hold JavaScript values ([None] is
    [undefined], [Some JNull] is [null]); [localStorage] is a finite map;
    of the user button, the class [logged-in] and the title are kept. *)

Module User.

Record Button := mkButton {
  logged_in : bool;                   (* the class [logged-in] *)
  title : string
}.

Record State := mkState {
  userId : option json;
  username : option json;
  token : option json;
  currentPrompt : option json;
  localStorage : gmap string string;
  userButton : option Button          (* [UI.elements.userButton], or [null] *)
}.

(** the state of a page that has just been loaded *)
Definition loaded (storage : gmap string string) (button : option Button) : State :=
  mkState (Some JNull) (Some JNull) (Some JNull) (Some JNull) storage button.

(** [localStorage.getItem(key)] *)
Definition getItem (key : string) (st : State) : option json :=
  match localStorage st !! key with
  | Some s => Some (JString s)
  | None => Some JNull
  end.

Definition set_localStorage (f : gmap string string -> gmap string string) (st : State)
    : State :=
  mkState (userId st) (username st) (token st) (currentPrompt st) (f (localStorage st))
    (userButton st).

(** the body [register] and [login] post to [/api/chat-auth] *)
Definition credentials (action username password shopId : string) : json :=
  JObject [("action", JString action); ("username", JString username);
           ("password", JString password); ("shopId", JString shopId)].

(** the bodies [Settings.savePrompt] and [Settings.restorePrompt] post to
    [/api/user-prompt] *)
Definition savePrompt_body (prompt : string) : json :=
  JObject [("action", JString "update"); ("prompt", JString prompt)].

Definition restorePrompt_body (historyId : string) : json :=
  JObject [("action", JString "restore"); ("historyId", JString historyId)].

(** [User.init] *)
Definition init (st : State) : State :=
  mkState (getItem "shopChatUserId" st) (getItem "shopChatUsername" st)
    (getItem "shopChatToken" st) (getItem "shopChatCurrentPrompt" st)
    (localStorage st) (userButton st).

(** [User.isLoggedIn] *)
Definition isLoggedIn (st : State) : bool :=
  Json.truthy (userId st) && Json.truthy (token st).

Section WithPlatform.
Context `{Platform}.

(** [User.getAuthHeader]: the value of the header [Authorization], if the
    object has one *)
Definition getAuthHeader (st : State) : option string :=
  if Json.truthy (token st) then Some ("Bearer " +:+ ToString (token st)) else None.

(** [UI.updateUserButton] *)
Definition updateUserButton (st : State) : State :=
  match userButton st with
  | None => st
  | Some _ =>
      mkState (userId st) (username st) (token st) (currentPrompt st) (localStorage st)
        (Some (if isLoggedIn st
               then mkButton true (ToString (username st))
               else mkButton false "ÁôªÂΩï"))
  end.

(** [User.saveUserData(data)]; [None] when it throws, on [null] *)
Definition saveUserData (data : json) (st : State) : option State :=
  match data with
  | JNull => None
  | _ =>
      let storage := localStorage st in
      let storage := <["shopChatUserId" := ToString (prop "userId" data)]> storage in
      let storage := <["shopChatUsername" := ToString (prop "username" data)]> storage in
      let storage := <["shopChatToken" := ToString (prop "token" data)]> storage in
      let storage :=
        if Json.truthy (prop "currentPrompt" data)
        then <["shopChatCurrentPrompt" := ToString (prop "currentPrompt" data)]> storage
        else storage in
      Some (mkState (prop "userId" data) (prop "username" data) (prop "token" data)
              (if Json.truthy (prop "currentPrompt" data)
               then prop "currentPrompt" data else Some JNull)
              storage (userButton st))
  end.

(** [User.register] and [User.login] once the response has arrived: [ok] is
    [response.ok] and [data] what [response.json()] gives ([None]: it
    rejects); [None] when the function throws *)
Definition receive (ok : bool) (data : option json) (st : State) : option State :=
  match data with
  | Some data => if ok then saveUserData data st else None
  | None => None
  end.

(** [User.logout] *)
Definition logout (st : State) : State :=
  let storage := localStorage st in
  let storage := delete "shopChatUserId" storage in
  let storage := delete "shopChatUsername" storage in
  let storage := delete "shopChatToken" storage in
  let storage := delete "shopChatCurrentPrompt" storage in
  updateUserButton
    (mkState (Some JNull) (Some JNull) (Some JNull) (Some JNull) storage (userButton st)).

(** [Settings.savePrompt] and [Settings.restorePrompt] once the response has
    arrived *)
Definition promptReceived (ok : bool) (data : option json) (st : State) : option State :=
  match data with
  | Some JNull | None => None
  | Some data =>
      if ok then
        let currentPrompt := prop "currentPrompt" data in
        Some (mkState (userId st) (username st) (token st) currentPrompt
                (<["shopChatCurrentPrompt" :=
                     if Json.truthy currentPrompt then ToString currentPrompt else ""]>
                   (localStorage st))
                (userButton st))
      else None
  end.

End WithPlatform.
End User.

(** * [ShopAIChat.Formatting]: from the raw text of a message to its markup

    The two steps of [formatMessageContent]: the replacement of the markdown
    links, whose callback stores the URL of an authentication link in
    [window.shopAuthUrl], and [convertMarkdownToHtml]. They give the
    functions [formatMarkdown] and [authLink] the page takes from its
    [Platform].

    A regular expression is embedded as the function that gives its groups
    for a match at the start of a text; the patterns of this module leave
    the matcher no choice (a greedy class is followed by a character that is
    not in it), so the first match is the only one. A global [replace] is a
    scan from left to right that passes the code units of a match. Code
    points outside ASCII that the classes [\s] and [.] name are sequences of
    code units of the UTF-8 form. *)

(** what the JavaScript engine rounds *)
Class Engine := {
  (** [String(parseInt(digits, 10))] for decimal digits whose value [n] is
      above 2^53: the text of the number the engine rounds [n] to *)
  rounded_text : N -> string
}.

Module Markdown.

Definition units (codes : list nat) : string :=
  fold_right (fun n s => String (ascii_of_nat n) s) EmptyString codes.

(** [s.includes(p)] *)
Fixpoint includes (p s : string) : bool :=
  JsString.startsWith p s ||
  match s with
  | EmptyString => false
  | String _ s' => includes p s'
  end.

(** the line terminators: LF, CR, U+2028 and U+2029 *)
Definition lineTerminators : list string :=
  [units [10]%nat; units [13]%nat; units [226; 128; 168]%nat; units [226; 128; 169]%nat].

(** the class [\s], which [trim] removes as well: TAB, VT, FF, SP, U+00A0,
    U+1680, U+2000 to U+200A, U+202F, U+205F, U+3000, U+FEFF and the line
    terminators *)
Definition whiteSpace : list string :=
  [units [9]%nat; units [11]%nat; units [12]%nat; units [32]%nat; units [194; 160]%nat;
   units [225; 154; 128]%nat;
   units [226; 128; 128]%nat; units [226; 128; 129]%nat; units [226; 128; 130]%nat;
   units [226; 128; 131]%nat; units [226; 128; 132]%nat; units [226; 128; 133]%nat;
   units [226; 128; 134]%nat; units [226; 128; 135]%nat; units [226; 128; 136]%nat;
   units [226; 128; 137]%nat; units [226; 128; 138]%nat; units [226; 128; 175]%nat;
   units [226; 129; 159]%nat; units [227; 128; 128]%nat; units [239; 187; 191]%nat] ++
  lineTerminators.

(** the number of code units of the code point of a class a text starts
    with; 0 when it starts with none *)
Definition starts_with_one (class : list string) (s : string) : nat :=
  match List.find (fun c => JsString.startsWith c s) class with
  | Some c => String.length c
  | None => 0
  end.

(** what follows the longest run of code points of a class at the start of
    a text; [skip] counts the code units of a code point still to pass *)
Fixpoint after_run (class : list string) (skip : nat) (s : string) : string :=
  match s with
  | EmptyString => EmptyString
  | String _ s' =>
      match skip with
      | S k => after_run class k s'
      | O =>
          match starts_with_one class s with
          | O => s
          | S k => after_run class k s'
          end
      end
  end.

(** what a greedy [\s*] leaves *)
Definition after_space (s : string) : string := after_run whiteSpace 0 s.

(** whether [\s+] matches at the start *)
Definition starts_with_space (s : string) : bool :=
  negb (Nat.eqb (starts_with_one whiteSpace s) 0).

(** what a greedy [.] repeated takes, as the last group of a pattern: the
    code units before the first line terminator *)
Fixpoint dots (s : string) : string :=
  match s with
  | EmptyString => EmptyString
  | String a s' =>
      match starts_with_one lineTerminators s with
      | O => String a (dots s')
      | S _ => EmptyString
      end
  end.

(** ** The links: [/\[([^\]]+)\]\(([^)]+)\)/g] and its callback *)

Definition not_char (c a : ascii) : bool := negb (Ascii.eqb a c).

(** the groups [text] and [url] of a match at the start of a text *)
Definition linkMatch (s : string) : option (string * string) :=
  match JsString.strip_prefix "[" s with
  | Some rest =>
      let '(text, rest) := Message.span (not_char "]") rest in
      if JsString.truthy text then
        match JsString.strip_prefix "](" rest with
        | Some rest =>
            let '(url, rest) := Message.span (not_char ")") rest in
            if JsString.truthy url && JsString.startsWith ")" rest
            then Some (text, url)
            else None
        | None => None
        end
      else None
  | None => None
  end.

Definition isAuthUrl (url : string) : bool :=
  includes "shopify.com/authentication" url &&
  (includes "oauth/authorize" url || includes "authentication" url).

(** the callback of the replacement: what it returns, and
    [window.shopAuthUrl] after it *)
Definition replacer (text url : string) (shopAuthUrl : option string)
    : string * option string :=
  if isAuthUrl url then
    (JSON.dq "<a href='#auth' class='shop-auth-trigger'>" +:+ text +:+ "</a>", Some url)
  else if includes "/cart" url || includes "checkout" url then
    (JSON.dq "<a href='" +:+ url +:+
     JSON.dq "' target='_blank' rel='noopener noreferrer'>click here to proceed to checkout</a>",
     shopAuthUrl)
  else
    (JSON.dq "<a href='" +:+ url +:+
     JSON.dq "' target='_blank' rel='noopener noreferrer'>" +:+ text +:+ "</a>",
     shopAuthUrl).

(** [processedText.replace(markdownLinkRegex, callback)]: the text with its
    links replaced, and [window.shopAuthUrl] after it *)
Fixpoint replaceLinks (skip : nat) (s : string) (shopAuthUrl : option string)
    : string * option string :=
  match s with
  | EmptyString => (EmptyString, shopAuthUrl)
  | String a s' =>
      match skip with
      | S k => replaceLinks k s' shopAuthUrl
      | O =>
          match linkMatch s with
          | Some (text, url) =>
              let '(link, shopAuthUrl) := replacer text url shopAuthUrl in
              let '(rest, shopAuthUrl) :=
                replaceLinks (String.length text + String.length url + 3) s' shopAuthUrl in
              (link +:+ rest, shopAuthUrl)
          | None =>
              let '(rest, shopAuthUrl) := replaceLinks 0 s' shopAuthUrl in
              (String a rest, shopAuthUrl)
          end
      end
  end.

(** ** [convertMarkdownToHtml] *)

(** a code unit that is neither [*] nor [_] *)
Definition no_mark (a : ascii) : bool := not_char "*" a && not_char "_" a.

(** what the lazy group of the pattern of [convertMarkdownToHtml] takes
    before the closing mark: the shortest run of [.] that the mark follows *)
Fixpoint lazy_dots (close s : string) : option string :=
  if JsString.startsWith close s then Some EmptyString
  else
    match s with
    | EmptyString => None
    | String a s' =>
        match starts_with_one lineTerminators s with
        | O => option_map (String a) (lazy_dots close s')
        | S _ => None
        end
    end.

Definition strong_with (mark s : string) : option string :=
  match JsString.strip_prefix mark s with
  | Some rest => lazy_dots mark rest
  | None => None
  end.

(** the pattern of strong text at the start of a text (one of the marks,
    the lazy group, the same mark again): its second group *)
Definition strongMatch (s : string) : option string :=
  match strong_with "**" s with
  | Some inner => Some inner
  | None => strong_with "__" s
  end.

(** [text.replace] with the pattern of strong text and
    ['<strong>$2</strong>'] *)
Fixpoint replaceStrong (skip : nat) (s : string) : string :=
  match s with
  | EmptyString => EmptyString
  | String a s' =>
      match skip with
      | S k => replaceStrong k s'
      | O =>
          match strongMatch s with
          | Some inner =>
              "<strong>" +:+ inner +:+ "</strong>" +:+
              replaceStrong (String.length inner + 3) s'
          | None => String a (replaceStrong 0 s')
          end
      end
  end.

Definition is_digit (a : ascii) : bool := Message.in_range 48 57 a.

(** [unorderedMatch]: white space, [-] or [*], white space (once at least),
    the rest of the line; its second group *)
Definition unorderedMatch (line : string) : option string :=
  match after_space line with
  | String a rest =>
      if (Ascii.eqb a "-" || Ascii.eqb a "*") && starts_with_space rest
      then Some (dots (after_space rest))
      else None
  | EmptyString => None
  end.

(** [orderedMatch]: white space, digits, [.] or [)], white space (once at
    least), the rest of the line; its two groups *)
Definition orderedMatch (line : string) : option (string * string) :=
  let '(digits, rest) := Message.span is_digit (after_space line) in
  if JsString.truthy digits then
    match rest with
    | String a rest =>
        if (Ascii.eqb a "." || Ascii.eqb a ")") && starts_with_space rest
        then Some (digits, dots (after_space rest))
        else None
    | EmptyString => None
    end
  else None.

(** the value of decimal digits *)
Fixpoint digits_value (acc : N) (digits : string) : N :=
  match digits with
  | EmptyString => acc
  | String a digits' => digits_value (10 * acc + (N_of_ascii a - 48)) digits'
  end.

(** [parseInt(digits, 10)], before the engine rounds it *)
Definition parseInt (digits : string) : N := digits_value 0 digits.

Inductive List := ul | ol.

(** the variables of the loop *)
Record Conversion := mkConversion {
  currentList : option List;
  listItems : list string;
  htmlContent : string;
  startNumber : N
}.

Definition join (items : list string) : string := fold_right String.append EmptyString items.

Definition item (text : string) : string := "<li>" +:+ text +:+ "</li>".

Section WithEngine.
Context `{Engine}.

(** [`${startNumber}`] *)
Definition number_text (n : N) : string :=
  if (n <=? 2 ^ 53)%N then pretty n else rounded_text n.

(** the markup of the list that is open *)
Definition list_markup (list : List) (c : Conversion) : string :=
  match list with
  | ul => "<ul>" +:+ join (listItems c) +:+ "</ul>"
  | ol =>
      JSON.dq "<ol start='" +:+ number_text (startNumber c) +:+ JSON.dq "'>" +:+
      join (listItems c) +:+ "</ol>"
  end.

(** the body of the loop, for one line *)
Definition convert_line (c : Conversion) (line : string) : Conversion :=
  match unorderedMatch line, orderedMatch line with
  | Some text, _ =>
      let c :=
        match currentList c with
        | Some ul => c
        | Some ol =>
            mkConversion (Some ul) [] (htmlContent c +:+ list_markup ol c) (startNumber c)
        | None => mkConversion (Some ul) (listItems c) (htmlContent c) (startNumber c)
        end in
      mkConversion (currentList c) (listItems c ++ [item text]) (htmlContent c)
        (startNumber c)
  | None, Some (digits, text) =>
      let c :=
        match currentList c with
        | Some ol => c
        | Some ul =>
            mkConversion (Some ol) [] (htmlContent c +:+ list_markup ul c) (parseInt digits)
        | None => mkConversion (Some ol) (listItems c) (htmlContent c) (parseInt digits)
        end in
      mkConversion (currentList c) (listItems c ++ [item text]) (htmlContent c)
        (startNumber c)
  | None, None =>
      let c :=
        match currentList c with
        | Some list =>
            mkConversion None [] (htmlContent c +:+ list_markup list c) (startNumber c)
        | None => c
        end in
      mkConversion (currentList c) (listItems c)
        (htmlContent c +:+
         (if JsString.truthy (after_space line) then "<p>" +:+ line +:+ "</p>" else "<br>"))
        (startNumber c)
  end.

(** [htmlContent.replace(/<\/p><p>/g, '</p>\n<p>')] *)
Fixpoint replaceBreaks (skip : nat) (s : string) : string :=
  match s with
  | EmptyString => EmptyString
  | String a s' =>
      match skip with
      | S k => replaceBreaks k s'
      | O =>
          if JsString.startsWith "</p><p>" s
          then "</p>" +:+ String JsString.nl ("<p>" +:+ replaceBreaks 6 s')
          else String a (replaceBreaks 0 s')
      end
  end.

Definition convertMarkdownToHtml (text : string) : string :=
  let text := replaceStrong 0 text in
  let lines := JsString.split (String JsString.nl EmptyString) text in
  let c := fold_left convert_line lines (mkConversion None [] EmptyString 1) in
  let htmlContent :=
    match currentList c with
    | Some list => htmlContent c +:+ list_markup list c
    | None => htmlContent c
    end in
  replaceBreaks 0 htmlContent.

(** what [formatMessageContent] assigns to [innerHTML] for a raw text *)
Definition formatMarkdown (rawText : string) : string :=
  convertMarkdownToHtml (fst (replaceLinks 0 rawText None)).

End WithEngine.

(** what [formatMessageContent] stores in [window.shopAuthUrl] for a raw
    text, if it stores something *)
Definition authLink (rawText : string) : option string :=
  snd (replaceLinks 0 rawText None).

End Markdown.
(** * Counting the typing indicators of the chat window *)

Module Typing.

(** whether a child of the messages container is a typing indicator *)
Definition is_indicator (w : World) (id : nat) : bool :=
  from_option (has_class "shop-ai-typing-indicator") false (elements w !! id).

(** the typing indicators the messages container shows *)
Definition shown (w : World) : nat :=
  length (List.filter (is_indicator w) (messagesContainer w)).

(** a text with its capital letters of ASCII made small *)
Fixpoint lower_case (s : string) : string :=
  match s with
  | EmptyString => EmptyString
  | String a s' =>
      String (if Message.in_range 65 90 a then ascii_of_nat (nat_of_ascii a + 32) else a)
        (lower_case s')
  end.

(** a markup in which no element of the class of the typing indicator can
    occur: it holds neither the word [indicator], in whatever case, nor a
    character reference *)
Definition markup_without_indicator (markup : string) : bool :=
  negb (Markdown.includes "indicator" (lower_case markup)) &&
  negb (Markdown.includes "&" markup).

(** no message of the container holds markup in which a typing indicator
    could occur. [messagesContainer.querySelector] searches all descendants
    of the container; on such a page it finds what [UI.querySelector] finds
    among the children. *)
Definition unmarked (w : World) : Prop :=
  Forall (fun id =>
            match body <$> elements w !! id with
            | Some (innerHTML markup) => markup_without_indicator markup = true
            | _ => True
            end) (messagesContainer w).

(** every child of the messages container is an element of the page *)
Definition attached (w : World) : Prop :=
  Forall (fun id => (id < length (elements w))%nat) (messagesContainer w).

(** what an event of a type does to a number of indicators *)
Definition after (type : option json) (n : nat) : nat :=
  if is_string "chunk" type || is_string "message_complete" type
     || is_string "end_turn" type || is_string "error" type
     || is_string "rate_limit_exceeded" type
  then pred n
  else if is_string "new_message" type || is_string "content_block_complete" type
  then S n
  else n.

End Typing.

(** * What a stored history shows *)

Module HistoryView.
Section WithPlatform.
Context `{Platform}.

(** a stored message [Message.add] can show: it is not [null], and its role
    is a token [classList.add] accepts *)
Definition showable (message : json) : bool :=
  match message with
  | JNull => false
  | _ => Message.is_token (Message.text_of (prop "role" message))
  end.

(** the values [Message.add] gets for the blocks of a parsed content: the
    [text] of each block of type [text], up to a [null] block, on which the
    loop throws and the content itself is added instead *)
Fixpoint block_texts (blocks : list json) (content : option json) : list (option json) :=
  match blocks with
  | [] => []
  | JNull :: _ => [content]
  | block :: rest =>
      (if is_string "text" (prop "type" block) then [prop "text" block] else []) ++
      block_texts rest content
  end.

(** the values [Message.add] gets for a stored message *)
Definition texts (message : json) : list (option json) :=
  let content := prop "content" message in
  match JSON_parse (Message.text_of content) with
  | Some (JArray blocks) => block_texts blocks content
  | Some (JString _) => []
  | _ => [content]
  end.

(** the calls of [Message.add] for a stored history, as sender and text *)
Definition shown (messages : list json) : list (option json * option json) :=
  flat_map (fun message =>
              List.map (fun text => (prop "role" message, text)) (texts message))
    messages.

(** adds messages to the chat, one after the other *)
Definition add_all (messages : list (option json * option json)) (w : World) : World :=
  fold_left (fun w message =>
               from_option fst w (Message.add_any (snd message) (fst message) w))
    messages w.

End WithPlatform.
End HistoryView.

(** * A server to run the routes on *)

Module ServerSamples.
Import Server.

(** a stand-in for Node: the base64 text of the password takes the place of
    its digest, and a comparison with a value that is no number is false *)
#[local] Instance node : Node := {|
  sha256_hex := Base64.encode;
  coerced_lt := fun _ _ => false;
  coerced_gt := fun _ _ => false;
  toISOString := pretty
|}.

Definition alice : ChatUser.t :=
  ChatUser.mk "u1" "shop" "alice" (sha256_hex "secret") (Some "Be brief.") true.

(** an account that has been deactivated *)
Definition bob : ChatUser.t :=
  ChatUser.mk "u2" "shop" "bob" (sha256_hex "hunter2") (Some "Be bold.") false.

(** a user who has not set a prompt *)
Definition carol : ChatUser.t :=
  ChatUser.mk "u3" "shop" "carol" (sha256_hex "letmein") None true.

Definition store : Store :=
  mkStore [alice; bob; carol]
    [PromptHistory.mk "h1" "u1" "Be kind." 1 1700000000000;
     PromptHistory.mk "h2" "u2" "Be loud." 1 1700000001000;
     PromptHistory.mk "h3" "u1" "Be clear." 2 1700000002000]
    [].

(** a request of a user with a token made at time 1000 *)
Definition signed (userId : string) (action : option string) (body : option json)
    : Request :=
  mkRequest "POST" (Some "https://shop.example")
    (Some ("Bearer " +:+ ChatAuth.generateToken userId 1000)) action body.

Definition update (prompt : string) : json :=
  JObject [("action", JString "update"); ("prompt", JString prompt)].

Definition restore (historyId : string) : json :=
  JObject [("action", JString "restore"); ("historyId", JString historyId)].

End ServerSamples.

(** * An engine to convert markdown with *)

Module MarkdownSamples.

(** a stand-in for the engine: numbers above 2^53 keep their digits *)
#[local] Instance engine : Engine := {| rounded_text := pretty |}.

(** an authentication URL without [oauth/authorize] *)
Definition signIn : string := "https://shopify.com/authentication/1/login".

End MarkdownSamples.


(** * Properties *)

(** ** Splitting on the frame delimiter *)

Section SplitFacts.
Import JsString Decoder.

Lemma string_pair_ind (P : string -> Prop) :
  P EmptyString ->
  (forall c, P (String c EmptyString)) ->
  (forall c c' s, P s -> P (String c' s) -> P (String c (String c' s))) ->
  forall s, P s.
Proof.
  intros H0 H1 H2 s.
  assert (P s /\ forall c, P (String c s)) as [? _]; [|assumption].
  induction s as [|c' s [IH1 IH2]]; split; auto.
Qed.

Lemma split_nil : split delimiter EmptyString = [EmptyString].
Proof. reflexivity. Qed.

Lemma split_one c : split delimiter (String c EmptyString) = [String c EmptyString].
Proof.
  unfold split, delimiter. cbn [split_from startsWith].
  destruct (Ascii.eqb nl c); reflexivity.
Qed.

Lemma split_two c c' s :
  split delimiter (String c (String c' s)) =
  if (Ascii.eqb nl c && Ascii.eqb nl c') then EmptyString :: split delimiter s
  else cons_head c (split delimiter (String c' s)).
Proof.
  unfold split, delimiter.
  cbn [split_from startsWith String.length Nat.sub].
  destruct (Ascii.eqb nl c), (Ascii.eqb nl c'); reflexivity.
Qed.

Lemma split_not_nil s : split delimiter s <> [].
Proof.
  induction s as [|c|c c' s IH1 IH2] using string_pair_ind.
  - discriminate.
  - rewrite split_one; discriminate.
  - rewrite split_two. destruct ((Ascii.eqb nl c && Ascii.eqb nl c')); [discriminate|].
    destruct (split delimiter (String c' s)); [contradiction|discriminate].
Qed.

(** a text without delimiter is its own single segment *)
Lemma split_single s r : split delimiter s = [r] -> r = s.
Proof.
  revert r.
  induction s as [|c|c c' s IH1 IH2] using string_pair_ind; intros r.
  - rewrite split_nil; congruence.
  - rewrite split_one; congruence.
  - rewrite split_two. destruct ((Ascii.eqb nl c && Ascii.eqb nl c')).
    + intros [= <- E]. exfalso. eapply split_not_nil, E.
    + destruct (split delimiter (String c' s)) as [|h t] eqn:E.
      * exfalso. eapply split_not_nil, E.
      * simpl. intros [= <- ->]. now rewrite (IH2 h eq_refl).
Qed.

Lemma last_cons_head c l :
  l <> [] -> last (cons_head c l) = last l \/ (exists h, l = [h] /\ last (cons_head c l) = Some (String c h)).
Proof.
  destruct l as [|h [|h' t]]; [congruence| |]; intros _.
  - right. exists h. auto.
  - left. reflexivity.
Qed.

(** The decoder's key step: text that arrives after [s] only meets the
    segment of [s] after its last delimiter. *)
Lemma split_app s t :
  split delimiter (s +:+ t) =
  removelast (split delimiter s) ++
  split delimiter (or_empty (last (split delimiter s)) +:+ t).
Proof.
  induction s as [|c|c c' s IH1 IH2] using string_pair_ind.
  - reflexivity.
  - rewrite split_one. reflexivity.
  - rewrite split_two.
    change (String c (String c' s) +:+ t) with (String c (String c' (s +:+ t))).
    rewrite split_two.
    destruct ((Ascii.eqb nl c && Ascii.eqb nl c')) eqn:B.
    + rewrite IH1.
      pose proof (split_not_nil s) as NE.
      destruct (split delimiter s) as [|h l]; [contradiction|].
      reflexivity.
    + change (String c' (s +:+ t)) with (String c' s +:+ t).
      rewrite IH2.
      pose proof (split_not_nil (String c' s)) as NE.
      destruct (split delimiter (String c' s)) as [|h [|h' l]] eqn:E;
        [contradiction| |].
      * apply split_single in E. subst h.
        cbn [removelast last or_empty app cons_head].
        change (String c (String c' s) +:+ t) with (String c (String c' (s +:+ t))).
        rewrite split_two, B.
        change (String c' (s +:+ t)) with (String c' s +:+ t).
        reflexivity.
      * reflexivity.
Qed.


Lemma split_cons c s :
  split delimiter (String c s) =
  if startsWith delimiter (String c s)
  then EmptyString :: split delimiter (slice 1 s)
  else cons_head c (split delimiter s).
Proof.
  destruct s as [|c' s]; [rewrite split_one|rewrite split_two];
    unfold delimiter; cbn [startsWith slice];
    destruct (Ascii.eqb nl c); try reflexivity.
  destruct (Ascii.eqb nl c'); reflexivity.
Qed.

(** the segment after the last delimiter holds no delimiter *)
Lemma split_last_single s :
  split delimiter (or_empty (last (split delimiter s))) =
  [or_empty (last (split delimiter s))].
Proof.
  induction s as [|c|c c' s IH1 IH2] using string_pair_ind.
  - reflexivity.
  - rewrite split_one. cbn [last or_empty]. apply split_one.
  - rewrite split_two. destruct (Ascii.eqb nl c && Ascii.eqb nl c') eqn:B.
    + pose proof (split_not_nil s) as NE.
      destruct (split delimiter s) as [|h l]; [contradiction|]. exact IH1.
    + pose proof (split_not_nil (String c' s)) as NE.
      destruct (split delimiter (String c' s)) as [|h [|h' l]] eqn:E;
        [contradiction| |].
      * pose proof (split_single _ _ E) as ->. cbn [cons_head last or_empty].
        rewrite split_two, B, E. reflexivity.
      * exact IH2.
Qed.

Lemma split_fragment p : Wire.fragment p = true -> split delimiter p = [p].
Proof.
  unfold Wire.fragment. rewrite negb_true_iff.
  induction p as [|c p IH]; [reflexivity|].
  cbn [Wire.has_delimiter]. rewrite orb_false_iff. intros [S D].
  rewrite split_cons, S, (IH D). reflexivity.
Qed.

Lemma append_cons c (a b : string) : String c a +:+ b = String c (a +:+ b).
Proof. reflexivity. Qed.

Lemma append_nil_l (b : string) : EmptyString +:+ b = b.
Proof. reflexivity. Qed.

Lemma startsWith_delimiter_frame c f t :
  startsWith delimiter (String c (f +:+ delimiter +:+ t)) =
  startsWith delimiter (String c (f +:+ String nl EmptyString)).
Proof.
  destruct f as [|c' f]; unfold delimiter; rewrite ?append_cons;
    cbn [startsWith String.append]; now rewrite ?andb_true_r.
Qed.

(** a complete frame followed by the delimiter is the first segment *)
Lemma split_frame f t :
  Wire.complete_frame f = true ->
  split delimiter (f +:+ delimiter +:+ t) = f :: split delimiter t.
Proof.
  unfold Wire.complete_frame. rewrite negb_true_iff.
  induction f as [|c f IH].
  - intros _. change (EmptyString +:+ delimiter +:+ t) with (String nl (String nl t)).
    rewrite split_two, Ascii.eqb_refl. reflexivity.
  - rewrite append_cons. cbn [Wire.has_delimiter].
    rewrite orb_false_iff. intros [S D].
    rewrite append_cons, split_cons, startsWith_delimiter_frame, S.
    rewrite (IH D). reflexivity.
Qed.

Lemma split_serialize frames partial :
  forallb Wire.complete_frame frames = true ->
  Wire.fragment partial = true ->
  split delimiter (Wire.serialize frames partial) = frames ++ [partial].
Proof.
  intros F P. induction frames as [|f frames IH]; cbn [Wire.serialize].
  - now apply split_fragment.
  - cbn [forallb] in F. apply andb_true_iff in F as [Ff F].
    rewrite (split_frame _ _ Ff), (IH F). reflexivity.
Qed.

Lemma string_app_assoc (a b c : string) : (a +:+ b) +:+ c = a +:+ (b +:+ c).
Proof. induction a as [|x a IH]; [reflexivity|]. now rewrite !append_cons, IH. Qed.

Lemma string_app_nil_r (a : string) : a +:+ EmptyString = a.
Proof. induction a as [|x a IH]; [reflexivity|]. now rewrite append_cons, IH. Qed.

(** Split invariance of the decoder: however the text is cut into reads, the
    lines are the segments of the whole text but the last, which stays in the
    buffer. *)
Lemma reads_split values buffer :
  split delimiter buffer = [buffer] ->
  Decoder.reads buffer values =
  (removelast (split delimiter (buffer +:+ Wire.received values)),
   or_empty (last (split delimiter (buffer +:+ Wire.received values)))).
Proof.
  revert buffer. induction values as [|v values IH]; intros buffer Hb.
  - change (Wire.received []) with EmptyString. cbn [Decoder.reads].
    rewrite string_app_nil_r. now rewrite Hb.
  - cbn [Decoder.reads Wire.received]. unfold read, pop.
    rewrite (IH _ (split_last_single (buffer +:+ v))).
    change (Wire.received (v :: values)) with (v +:+ Wire.received values).
    rewrite <- string_app_assoc.
    rewrite (split_app (buffer +:+ v) (Wire.received values)).
    pose proof (split_not_nil
      (or_empty (last (split delimiter (buffer +:+ v))) +:+ Wire.received values)) as NE.
    destruct (split delimiter
      (or_empty (last (split delimiter (buffer +:+ v))) +:+ Wire.received values))
      as [|h l]; [contradiction|].
    f_equal.
    + symmetry. apply removelast_app. discriminate.
    + f_equal. now rewrite last_app_cons.
Qed.

End SplitFacts.

(** ** The stream-read loop *)

Section StreamLoop.
Context `{Platform}.
Import JsString API.

Lemma streamResponse_reads_cons s v values w :
  streamResponse_reads s (v :: values) w =
  let '(w1, s1) := streamResponse_read s (read_value v) w in
  streamResponse_reads s1 values w1.
Proof.
  unfold streamResponse_reads. cbn [fold_left].
  destruct (streamResponse_read s (read_value v) w); reflexivity.
Qed.

Lemma streamResponse_read_value s v w current :
  stream_state s = reading ->
  currentMessageElement s = Some current ->
  streamResponse_read s (read_value v) w =
  let '(lines, buffer') := Decoder.read (buffer s) v in
  let '(w', current') := fold_left (processLine (userMessage s)) lines (w, current) in
  (w', mkStream (userMessage s) (stream_conversationId s) buffer' (Some current') reading).
Proof. intros Hs Hc. unfold streamResponse_read. now rewrite Hs, Hc. Qed.

(** the loop hands the decoder's lines, and nothing else, to [processLine] *)
Lemma streamResponse_reads_lines values : forall s w current,
  stream_state s = reading ->
  currentMessageElement s = Some current ->
  streamResponse_reads s values w =
  let '(lines, buffer') := Decoder.reads (buffer s) values in
  let '(w', current') := fold_left (processLine (userMessage s)) lines (w, current) in
  (w', mkStream (userMessage s) (stream_conversationId s) buffer' (Some current') reading).
Proof.
  induction values as [|v values IH]; intros s w current Hs Hc.
  - destruct s; cbn in *; subst; reflexivity.
  - rewrite streamResponse_reads_cons, (streamResponse_read_value s v w current Hs Hc).
    cbn [Decoder.reads].
    destruct (Decoder.read (buffer s) v) as [lines b1].
    destruct (fold_left (processLine (userMessage s)) lines (w, current))
      as [w1 c1] eqn:F1.
    rewrite (IH (mkStream (userMessage s) (stream_conversationId s) b1 (Some c1) reading)
               w1 c1 eq_refl eq_refl).
    cbn [buffer userMessage stream_conversationId].
    destruct (Decoder.reads b1 values) as [more b2].
    rewrite fold_left_app, F1. reflexivity.
Qed.

(** C1. Split invariance of the frame decoder: when the text of all reads
    is N complete frames, each closed by the delimiter, followed by a
    partial fragment, the loop of [streamResponse] processes exactly these N
    frames, in order, however the text is cut into reads; the buffer then
    holds the fragment, and the end of the stream leaves it unprocessed. *)
Theorem frame_decoder_split_invariance
    (values frames : list string) (partial : string)
    (s : Stream) (current : nat) (w : World) :
  stream_state s = reading ->
  currentMessageElement s = Some current ->
  buffer s = EmptyString ->
  forallb Wire.complete_frame frames = true ->
  Wire.fragment partial = true ->
  Wire.received values = Wire.serialize frames partial ->
  Decoder.reads EmptyString values = (frames, partial) /\
  let '(w', current') := fold_left (processLine (userMessage s)) frames (w, current) in
  let s' := mkStream (userMessage s) (stream_conversationId s) partial
              (Some current') reading in
  streamResponse_reads s values w = (w', s') /\
  streamResponse_read s' read_done w' =
    (w', mkStream (userMessage s) (stream_conversationId s) partial
           (Some current') closed).
Proof.
  intros Hs Hc Hb HF HP HR.
  assert (Decoder.reads EmptyString values = (frames, partial)) as D.
  { rewrite (reads_split values EmptyString eq_refl).
    change (EmptyString +:+ Wire.received values) with (Wire.received values).
    rewrite HR, (split_serialize _ _ HF HP).
    rewrite removelast_last, last_snoc. reflexivity. }
  split; [exact D|].
  pose proof (streamResponse_reads_lines values s w current Hs Hc) as L.
  rewrite Hb, D in L.
  destruct (fold_left (processLine (userMessage s)) frames (w, current)) as [w' c'].
  split; [exact L|reflexivity].
Qed.

End StreamLoop.

(** ** The dispatcher *)

Section Dispatcher.
Context `{Platform}.
Import API.

Lemma list_alter_lookup {A} (f : A -> A) (l : list A) i a :
  l !! i = Some a -> alter f i l = <[i := f a]> l.
Proof.
  intros E. apply list_eq. intros j. destruct (decide (i = j)) as [<-|N].
  - rewrite list_lookup_alter_eq, E, list_lookup_insert_eq;
      [reflexivity|by eapply lookup_lt_Some].
  - by rewrite list_lookup_alter_ne, list_lookup_insert_ne.
Qed.

Lemma list_alter_missing {A} (f : A -> A) (l : list A) i :
  l !! i = None -> alter f i l = l.
Proof.
  intros E. apply list_eq. intros j. destruct (decide (i = j)) as [<-|N].
  - by rewrite list_lookup_alter_eq, E.
  - by rewrite list_lookup_alter_ne.
Qed.

Lemma formatMessageContent_elements current w :
  elements (Formatting.formatMessageContent current w) =
  alter Formatting.formatted current (elements w).
Proof.
  unfold Formatting.formatMessageContent.
  destruct (elements w !! current) as [e|] eqn:E.
  - rewrite (list_alter_lookup Formatting.formatted _ _ _ E).
    unfold Formatting.formatted.
    destruct (rawText e) as [raw|] eqn:R; [destruct (JsString.truthy raw) eqn:T|].
    + destruct (authLink raw); cbn; by rewrite (list_alter_lookup _ _ _ _ E), R.
    + symmetry. by apply list_insert_id.
    + symmetry. by apply list_insert_id.
  - by rewrite list_alter_missing.
Qed.

Lemma formatMessageContent_same current w :
  let w' := Formatting.formatMessageContent current w in
  sessionStorage w' = sessionStorage w /\ messagesContainer w' = messagesContainer w /\
  trace w' = trace w /\ timers w' = timers w.
Proof.
  unfold Formatting.formatMessageContent.
  destruct (elements w !! current) as [e|]; [|done].
  destruct (rawText e) as [raw|]; [|done].
  destruct (JsString.truthy raw); [|done].
  destruct (authLink raw); done.
Qed.

Lemma handle_type_object data t :
  prop "type" data = Some t -> exists fields, data = JObject fields.
Proof. destruct data; try discriminate. eauto. Qed.



Lemma removeTypingIndicator_same w :
  let w' := UI.removeTypingIndicator w in
  sessionStorage w' = sessionStorage w /\ elements w' = elements w /\
  trace w' = trace w /\ timers w' = timers w /\ shopAuthUrl w' = shopAuthUrl w.
Proof.
  unfold UI.removeTypingIndicator.
  destruct (UI.querySelector _ w); done.
Qed.



End Dispatcher.

(** ** The console does not steer the dispatcher *)

Section Erase.
Context `{Platform}.
Import API.







End Erase.

(** ** [auth_required], [tool_use] *)

Section Events.
Context `{Platform}.
Import API.

Lemma add_same text sender w :
  let w' := fst (Message.add text sender w) in
  sessionStorage w' = sessionStorage w /\ trace w' = trace w /\ timers w' = timers w /\
  messagesContainer w' = messagesContainer w ++ [length (elements w)].
Proof.
  unfold Message.add. destruct (String.eqb sender "assistant"); [|done].
  unfold appendChild. cbv zeta. cbn [fst].
  match goal with
  | |- context [Formatting.formatMessageContent ?i ?x] =>
      by destruct (formatMessageContent_same i x) as (-> & -> & -> & ->)
  end.
Qed.

Lemma handleStreamEvent_auth_required data current userMessage w :
  prop "type" data = Some (JString "auth_required") ->
  handleStreamEvent data current userMessage w =
  (setItem "shopAiLastMessage" userMessage w, returned).
Proof.
  intros T. destruct (handle_type_object _ _ T) as [fields ->].
  unfold handleStreamEvent. rewrite T. cbn [is_string String.eqb Ascii.eqb Bool.eqb].
  cbn match. by destruct userMessage.
Qed.

(** C7 (as the code has it). An [auth_required] event makes the dispatcher
    store the user message of the turn in the single pending-replay slot,
    over whatever the slot held, and return: the loop goes on with the next
    line. The dispatcher starts no polling: storage is otherwise unchanged,
    no timer is set and no request is made. Polling starts in
    [Auth.openAuthPopup], when the authentication link is followed while a
    conversation identifier is stored. *)
Theorem auth_required_persists_message
    (data : json) (current : nat) (userMessage : string) (w : World) :
  prop "type" data = Some (JString "auth_required") ->
  let w' := setItem "shopAiLastMessage" userMessage w in
  handleStreamEvent data current userMessage w = (w', returned) /\
  getItem "shopAiLastMessage" w' = Some userMessage /\
  (forall key, key <> "shopAiLastMessage" -> getItem key w' = getItem key w) /\
  timers w' = timers w /\ trace w' = trace w /\
  (forall payload after,
      JSON_parse payload = Some data ->
      fold_left (processLine userMessage) (("data: " +:+ payload) :: after) (w, current) =
      fold_left (processLine userMessage) after (w', current)) /\
  (forall data2 current2 userMessage2,
      prop "type" data2 = Some (JString "auth_required") ->
      getItem "shopAiLastMessage" (fst (handleStreamEvent data2 current2 userMessage2 w'))
      = Some userMessage2) /\
  (forall p url popup now conversationId,
      getItem "shopAiConversationId" w' = Some conversationId ->
      JsString.truthy conversationId = true ->
      let '(w'', P) := Auth.openAuthPopup p url popup now w' in
      P = Some (mkPoller ("polling_" +:+ pretty now) conversationId 0 not_awaiting) /\
      getItem "shopAiTokenPollingId" w'' = Some ("polling_" +:+ pretty now) /\
      getItem "shopAiLastMessage" w'' = Some userMessage /\
      timers w'' = timers w ++ [poll_timer p 2000]).
Proof.
  intros T w'.
  pose proof (handleStreamEvent_auth_required _ current userMessage w T) as E.
  split; [exact E|]. split; [apply lookup_insert_eq|].
  split; [intros key N; by apply lookup_insert_ne|].
  split; [done|]. split; [done|]. split; [|split].
  - intros payload after P. cbn [fold_left]. f_equal.
    unfold processLine. rewrite !append_cons, append_nil_l. cbn.
    by rewrite P, E.
  - intros data2 current2 userMessage2 T2.
    rewrite (handleStreamEvent_auth_required _ _ _ _ T2). apply lookup_insert_eq.
  - intros p url popup now conversationId C Tr.
    unfold Auth.openAuthPopup.
    assert (forall e x, getItem "shopAiConversationId" (emit e x) =
                        getItem "shopAiConversationId" x) as Em by done.
    cbv zeta.
    destruct popup; rewrite !Em, C, Tr; unfold Auth.startTokenPolling; rewrite Tr.
    all: cbv zeta.
    all: match goal with
         | |- context [Message.add ?t ?s ?x] =>
             destruct (add_same t s x) as (S & _ & Tm & _);
             set (wa := fst (Message.add t s x)) in *
         end.
    all: cbv zeta in S, Tm; clearbody wa.
    all: unfold getItem, setItem, setTimeout, emit; cbn.
    all: rewrite S, Tm; cbn.
    all: split; [done|]; split; [apply lookup_insert_eq|].
    all: split; [|done].
    all: rewrite lookup_insert_ne by done; apply lookup_insert_eq.
Qed.


Lemma strip_prefix_app p s : JsString.strip_prefix p (p +:+ s) = Some s.
Proof.
  induction p as [|a p IH]; [done|].
  rewrite append_cons. cbn [JsString.strip_prefix]. by rewrite Ascii.eqb_refl.
Qed.





End Events.

(** ** The stored conversation identifier *)

Section ConversationId.
Context `{Platform}.
Import API ShopAIChat.








Lemma removeTypingIndicator_storage w :
  sessionStorage (UI.removeTypingIndicator w) = sessionStorage w.
Proof. by destruct (removeTypingIndicator_same w) as (-> & _). Qed.

Lemma add_storage text sender w :
  sessionStorage (fst (Message.add text sender w)) = sessionStorage w.
Proof. by destruct (add_same text sender w) as (-> & _). Qed.












Lemma add_any_storage text sender w :
  sessionStorage (from_option fst w (Message.add_any text sender w)) = sessionStorage w.
Proof.
  unfold Message.add_any. destruct (Message.is_token _); [|done].
  cbn [from_option]. destruct (is_string "assistant" sender); [apply add_storage|done].
Qed.

Lemma addContentBlocks_storage blocks role : forall w,
  sessionStorage (fst (addContentBlocks blocks role w)) = sessionStorage w.
Proof.
  induction blocks as [|b blocks IH]; intros w; [done|].
  assert (sessionStorage
            (fst (if is_string "text" (prop "type" b)
                  then match Message.add_any (prop "text" b) role w with
                       | Some (w, _) => addContentBlocks blocks role w
                       | None => (w, true)
                       end
                  else addContentBlocks blocks role w)) = sessionStorage w) as E.
  { destruct (is_string "text" (prop "type" b)); [|apply IH].
    pose proof (add_any_storage (prop "text" b) role w) as S.
    destruct (Message.add_any (prop "text" b) role w) as [[w' id]|]; [|done].
    by rewrite IH. }
  by destruct b.
Qed.

Lemma addHistoryMessage_storage m w :
  sessionStorage (fst (addHistoryMessage m w)) = sessionStorage w.
Proof.
  assert (forall w', sessionStorage w' = sessionStorage w ->
            sessionStorage
              (fst (match Message.add_any (prop "content" m) (prop "role" m) w' with
                    | Some (w, _) => (w, false)
                    | None => (w', true)
                    end)) = sessionStorage w) as Fb.
  { intros w' E. pose proof (add_any_storage (prop "content" m) (prop "role" m) w') as S.
    destruct (Message.add_any _ _ w') as [[w'' id]|]; cbn in *; congruence. }
  assert (sessionStorage
            (fst (match JSON_parse (Message.text_of (prop "content" m)) with
                  | Some (JArray blocks) =>
                      let '(w, threw) := addContentBlocks blocks (prop "role" m) w in
                      if threw
                      then match Message.add_any (prop "content" m) (prop "role" m) w with
                           | Some (w, _) => (w, false)
                           | None => (w, true)
                           end
                      else (w, false)
                  | Some (JString _) => (w, false)
                  | Some _ | None =>
                      match Message.add_any (prop "content" m) (prop "role" m) w with
                      | Some (w, _) => (w, false)
                      | None => (w, true)
                      end
                  end)) = sessionStorage w) as E.
  { destruct (JSON_parse _) as [[| | | |blocks|]|]; try (by apply Fb); try done.
    pose proof (addContentBlocks_storage blocks (prop "role" m) w) as S.
    destruct (addContentBlocks blocks (prop "role" m) w) as [w' []]; cbn [fst] in S;
      [by apply Fb|done]. }
  unfold addHistoryMessage. by destruct m.
Qed.

Lemma addHistoryMessages_storage messages : forall w,
  sessionStorage (fst (addHistoryMessages messages w)) = sessionStorage w.
Proof.
  induction messages as [|m messages IH]; intros w; [done|].
  cbn [addHistoryMessages].
  pose proof (addHistoryMessage_storage m w) as S.
  destruct (addHistoryMessage m w) as [w' []]; cbn [fst] in *; [done|].
  by rewrite IH.
Qed.

Lemma fetchChatHistory_try_storage h data w :
  sessionStorage (fst (fetchChatHistory_try h data w)) = sessionStorage w.
Proof.
  unfold fetchChatHistory_try.
  destruct (existsb _ _); [|done].
  set (w1 := set_messagesContainer _ w).
  assert (sessionStorage
            (fst (if negb (truthy (prop "messages" data)) ||
                     length_is_zero (prop "messages" data)
                  then (fst (Message.add welcomeMessage "assistant" w1), false)
                  else match prop "messages" data with
                       | Some (JArray items) => addHistoryMessages items w1
                       | _ => (w1, true)
                       end)) = sessionStorage w) as E.
  { destruct (_ || _); cbn [fst]; [by rewrite add_storage|].
    destruct (prop "messages" data) as [[| | | |items|]|]; try done.
    by rewrite addHistoryMessages_storage. }
  by destruct data.
Qed.


End ConversationId.

(** ** History retrieval *)

Section HistoryFetch.
Context `{Platform}.
Import API ShopAIChat.

Lemma welcomeMessage_truthy : JsString.truthy welcomeMessage = true.
Proof.
  unfold welcomeMessage. destruct configuredWelcomeMessage as [s|]; [|done].
  by destruct (JsString.truthy s) eqn:T.
Qed.

Lemma add_assistant text w :
  let e := mkElement ["shop-ai-message"; "assistant"] (Some text) (textContent "") in
  let w' := fst (Message.add text "assistant" w) in
  elements w' = elements w ++ [Formatting.formatted e] /\
  messagesContainer w' = messagesContainer w ++ [length (elements w)] /\
  sessionStorage w' = sessionStorage w /\ trace w' = trace w /\ timers w' = timers w.
Proof.
  cbv zeta. destruct (add_same text "assistant" w) as (-> & -> & -> & ->).
  split; [|done]. unfold Message.add.
  change (String.eqb "assistant" "assistant") with true. cbv iota.
  unfold appendChild. cbv zeta. cbn [fst].
  rewrite formatMessageContent_elements. cbn [elements set_messagesContainer set_elements].
  by rewrite (alter_app_r_alt _ _ _ (length (elements w))), Nat.sub_diag by lia.
Qed.

(** what the [catch] block of [fetchChatHistory] leaves *)
Lemma fetchChatHistory_catch_spec w :
  let w' := fetchChatHistory_catch w in
  getItem "shopAiConversationId" w' = None /\
  elements w' = elements w ++ [welcomeElement] /\
  last (messagesContainer w') = Some (length (elements w)) /\
  forall key, key <> "shopAiConversationId" -> getItem key w' = getItem key w.
Proof.
  cbv zeta. unfold fetchChatHistory_catch.
  set (w1 := emit (console_error "Error fetching chat history:") w).
  set (w2 := match UI.querySelector is_assistant_message w1 with
             | Some id => _ | None => w1 end).
  assert (elements w2 = elements w /\ sessionStorage w2 = sessionStorage w) as [E2 S2].
  { subst w2. repeat case_match; done. }
  clearbody w2. clear w1.
  destruct (add_assistant welcomeMessage w2) as (Ea & Ca & Sa & _).
  cbv zeta in Ea, Ca, Sa.
  unfold getItem, removeItem. cbn [sessionStorage set_sessionStorage elements
    messagesContainer].
  rewrite Ea, Ca, Sa, E2, S2, last_snoc.
  split; [apply lookup_delete_eq|]. split; [|split; [done|]].
  - unfold Formatting.formatted, welcomeElement. cbn [rawText classList].
    by rewrite welcomeMessage_truthy.
  - intros key N. by apply lookup_delete_ne.
Qed.


End HistoryFetch.

(** ** The token poller *)

Section Poller.
Context `{Platform}.
Import API ShopAIChat.

Lemma on_nth_Some {A} i (l : list A) f a w :
  l !! i = Some a ->
  on_nth i l f w = (fst (f a w), <[i := snd (f a w)]> l).
Proof. intros E. unfold on_nth. rewrite E. by destruct (f a w). Qed.

Lemma step_poll_timer pg i p d P :
  timers (world pg) !! i = Some (poll_timer p d) ->
  pollers pg !! p = Some P ->
  step pg (timer_fires i) =
  let r := Auth.poll p P (set_timers (delete i) (world pg)) in
  mkPage (fst r) (<[p := snd r]> (pollers pg)) (streams pg) (history pg).
Proof. intros Ht HP. cbn [step]. by rewrite Ht, (on_nth_Some _ _ _ _ _ HP). Qed.













(** once the identifier is gone, a tick of the closure does nothing but log *)
Lemma poll_superseded p P w :
  getItem "shopAiTokenPollingId" w <> Some (pollingId P) ->
  Auth.poll p P w =
  (emit (console_log "Another polling session has started, stopping this one") w, P).
Proof. intros N. unfold Auth.poll. by rewrite bool_decide_eq_false_2. Qed.


End Poller.

(** ** Fencing of polling sessions *)

Section Fencing.
Context `{Platform}.
Import API ShopAIChat.

Lemma fenced_storage id w w' :
  sessionStorage w' = sessionStorage w -> fenced id w -> fenced id w'.
Proof. unfold fenced, getItem. by intros ->. Qed.

Lemma handleStreamEvent_fenced id d c um w :
  fenced id w -> fenced id (fst (handleStreamEvent d c um w)).
Proof.
  destruct w as [ss els mc url tr tm].
  unfold handleStreamEvent.
  destruct d; try done.
  set (ty := prop "type" _).
  repeat (match goal with
          | |- context [if is_string ?a ty then _ else _] => destruct (is_string a ty)
          end).
  all: try done.
  all: unfold fenced, getItem, setItem, emit, UI.removeTypingIndicator,
         UI.showTypingIndicator, Formatting.formatMessageContent,
         UI.displayProductResults, Message.addToolUse, set_textContent,
         UI.querySelector, appendChild, set_elements, set_trace, set_sessionStorage,
         set_messagesContainer, set_shopAuthUrl; cbn.
  all: repeat (first [done | progress (cbn in *; simplify_eq) | case_match]).
  all: by rewrite lookup_insert_ne.
Qed.

Lemma processLines_fenced id um lines : forall st,
  fenced id (fst st) -> fenced id (fst (fold_left (processLine um) lines st)).
Proof.
  induction lines as [|l lines IH]; intros st F; [done|].
  cbn [fold_left]. apply IH. destruct st as [w c]. unfold processLine.
  destruct (JsString.startsWith "data: " l); [|done].
  destruct (JSON_parse (JsString.slice 6 l)) as [d|]; [|done].
  pose proof (handleStreamEvent_fenced id d c um w F) as K.
  by destruct (handleStreamEvent d c um w) as [w' []].
Qed.

Lemma on_nth_fenced {A} id i (l : list A) f w :
  (forall a w, fenced id w -> fenced id (fst (f a w))) ->
  fenced id w -> fenced id (fst (on_nth i l f w)).
Proof.
  intros K F. unfold on_nth. destruct (l !! i) as [a|]; [|done].
  specialize (K a w F). by destruct (f a w).
Qed.

Lemma streamResponse_catch_fenced id s w :
  fenced id w -> fenced id (fst (streamResponse_catch s w)).
Proof.
  apply fenced_storage. unfold streamResponse_catch. cbn [fst].
  by rewrite add_storage, removeTypingIndicator_storage.
Qed.

Lemma catch_fenced id w : fenced id w -> fenced id (fetchChatHistory_catch w).
Proof.
  destruct (fetchChatHistory_catch_spec w) as (_ & _ & _ & K).
  unfold fenced. by rewrite K.
Qed.

(** a task never stores a polling identifier, except the start of a session,
    which stores the one made from its [Date.now()] *)
Lemma step_fenced id pg e :
  (forall popup now, e = click_auth_link popup now -> "polling_" +:+ pretty now <> id) ->
  fenced id (world pg) -> fenced id (world (step pg e)).
Proof.
  intros N F. destruct e as [|um|popup now|i|sid ok|sid r|p r|p r|r|r]; cbn [step].
  - unfold init.
    destruct (getItem "shopAiConversationId" (world pg)) as [c|];
      [destruct (JsString.truthy c)|]; cbn [world].
    + exact F.
    + eapply fenced_storage; [apply add_storage|exact F].
    + eapply fenced_storage; [apply add_storage|exact F].
  - destruct (JsString.truthy um); [|done].
    unfold send, streamResponse. cbv beta iota zeta. cbn [world].
    eapply fenced_storage; [|exact F]. apply add_storage.
  - destruct (shopAuthUrl (world pg)) as [url|]; [|done].
    destruct (JsString.truthy url); [|done].
    unfold Auth.openAuthPopup, Auth.startTokenPolling. cbv zeta.
    specialize (N popup now eq_refl).
    destruct popup; repeat case_match; simplify_eq; cbn [world]; try done.
    all: unfold fenced, getItem, setTimeout, setItem; cbn.
    all: rewrite lookup_insert_eq; congruence.
  - destruct (timers (world pg) !! i) as [[p d|m c d]|]; [| |done].
    + assert (fenced id (fst (on_nth p (pollers pg) (Auth.poll p)
                                (set_timers (delete i) (world pg))))) as K.
      { apply on_nth_fenced; [|done]. intros P w Fw. unfold Auth.poll.
        repeat case_match; done. }
      by destruct (on_nth _ _ _ _).
    + unfold Auth.replay, streamResponse. cbv beta iota zeta. cbn [world].
      eapply (fenced_storage _ (set_timers (delete i) (world pg))); [|exact F].
      unfold UI.showTypingIndicator, appendChild, emit. cbn [fst].
      apply (add_storage _ _ (set_timers (delete i) (world pg))).
  - assert (fenced id (fst (on_nth sid (streams pg)
                              (fun s => streamResponse_response s ok) (world pg)))) as K.
    { apply on_nth_fenced; [|done]. intros s w Fw. unfold streamResponse_response.
      destruct (stream_state s); try done.
      destruct ok; [done|by apply streamResponse_catch_fenced]. }
    by destruct (on_nth _ _ _ _).
  - assert (fenced id (fst (on_nth sid (streams pg)
                              (fun s => streamResponse_read s r) (world pg)))) as K.
    { apply on_nth_fenced; [|done]. intros s w Fw. unfold streamResponse_read.
      destruct (stream_state s); try done.
      destruct (currentMessageElement s) as [c|]; [|done].
      destruct r; [|done|by apply streamResponse_catch_fenced].
      destruct (Decoder.read (buffer s) text) as [lines b].
      pose proof (processLines_fenced id (userMessage s) lines (w, c) Fw).
      by destruct (fold_left _ lines (w, c)). }
    by destruct (on_nth _ _ _ _).
  - assert (fenced id (fst (on_nth p (pollers pg)
                              (fun P => Auth.poll_response p P r) (world pg)))) as K.
    { apply on_nth_fenced; [|done]. intros P w Fw.
      unfold Auth.poll_response, Auth.poll_catch. repeat case_match; done. }
    by destruct (on_nth _ _ _ _).
  - assert (fenced id (fst (on_nth p (pollers pg)
                              (fun P => Auth.poll_json p P r) (world pg)))) as K.
    { apply on_nth_fenced; [|done]. intros P w Fw.
      unfold Auth.poll_json, Auth.poll_catch, fenced, getItem, removeItem, setTimeout,
        emit in *.
      repeat case_match; cbn; rewrite ?lookup_delete_eq; done. }
    by destruct (on_nth _ _ _ _).
  - destruct (history pg) as [h|]; [|done].
    unfold fetchChatHistory_response.
    destruct (history_awaiting h); try done.
    destruct r; cbn [world]; try done; by apply catch_fenced.
  - destruct (history pg) as [h|]; [|done].
    unfold fetchChatHistory_json.
    destruct (history_awaiting h); try done.
    pose proof (catch_fenced id (world pg) F) as Fc.
    destruct r as [|data]; [done|].
    pose proof (fetchChatHistory_try_storage h data (world pg)) as S.
    destruct (fetchChatHistory_try h data (world pg)) as [w' threw].
    cbn [fst world] in *.
    assert (fenced id w') as F' by (by eapply fenced_storage).
    destruct threw; [by apply catch_fenced|done].
Qed.


Lemma run_fenced now events : forall pg,
  forallb (fun e => negb (starts_session_at now e)) events = true ->
  fenced ("polling_" +:+ pretty now) (world pg) ->
  fenced ("polling_" +:+ pretty now) (world (run pg events)).
Proof.
  induction events as [|e events IH]; intros pg Hn F; [done|].
  cbn [forallb] in Hn. apply andb_true_iff in Hn as [He Hn].
  apply (IH (step pg e) Hn). apply step_fenced; [|done].
  intros popup now' -> E. cbn in He. apply negb_true_iff, Z.eqb_neq in He.
  apply He. eapply (inj pretty), (inj (String.append "polling_")), E.
Qed.

(** C2 (as the code has it). Fencing of polling sessions: session B, started
    at a [Date.now()] other than the one session A was started at, stores
    its own identifier; from then on, whatever tasks run, as long as no
    session is started again at A's [Date.now()], every tick of A finds an
    identifier that is not its own and returns at once: it writes one line
    to the console, makes no request, sets no timer and leaves storage, the
    elements and the closures as they are. *)
Theorem superseded_tick_is_noop
    (pg : Page) (url conversationId : string) (popup : bool) (nowA nowB : Z)
    (events : list Event) (a i : nat) (d : Z) (A : Poller) :
  nowA <> nowB ->
  shopAuthUrl (world pg) = Some url -> JsString.truthy url = true ->
  getItem "shopAiConversationId" (world pg) = Some conversationId ->
  JsString.truthy conversationId = true ->
  forallb (fun e => negb (starts_session_at nowA e)) events = true ->
  let pg1 := step pg (click_auth_link popup nowB) in
  let pg2 := run pg1 events in
  pollers pg2 !! a = Some A ->
  pollingId A = "polling_" +:+ pretty nowA ->
  timers (world pg2) !! i = Some (poll_timer a d) ->
  getItem "shopAiTokenPollingId" (world pg1) = Some ("polling_" +:+ pretty nowB) /\
  pollers pg1 =
    pollers pg ++ [mkPoller ("polling_" +:+ pretty nowB) conversationId 0 not_awaiting] /\
  step pg2 (timer_fires i) =
    mkPage (emit (console_log "Another polling session has started, stopping this one")
              (set_timers (delete i) (world pg2)))
      (pollers pg2) (streams pg2) (history pg2).
Proof.
  intros Nab Hu Tu Hc Tc Hn pg1 pg2 HA Hid Hi.
  assert (getItem "shopAiTokenPollingId" (world pg1) = Some ("polling_" +:+ pretty nowB)
          /\ pollers pg1 = pollers pg ++
               [mkPoller ("polling_" +:+ pretty nowB) conversationId 0 not_awaiting])
    as [S1 P1].
  { subst pg1. cbn [step]. rewrite Hu, Tu.
    unfold Auth.openAuthPopup, Auth.startTokenPolling. cbv zeta.
    assert (forall e x, getItem "shopAiConversationId" (emit e x) =
                        getItem "shopAiConversationId" x) as Em by done.
    destruct popup; rewrite !Em, Hc, Tc; cbn [world pollers option_list];
      (split; [apply lookup_insert_eq|done]). }
  split; [exact S1|]. split; [exact P1|].
  assert (fenced ("polling_" +:+ pretty nowA) (world pg2)) as F.
  { apply run_fenced; [exact Hn|]. unfold fenced. rewrite S1. intros [= E].
    change (pretty nowB = pretty nowA) in E. apply Nab. symmetry.
    by apply (inj pretty). }
  rewrite (step_poll_timer _ _ _ _ _ Hi HA). cbv zeta.
  rewrite poll_superseded by (by rewrite Hid). cbn [fst snd].
  by rewrite list_insert_id.
Qed.

End Fencing.

(** ** Base64 *)

Section Base64Facts.
Import Base64.

Lemma string_triple_ind (P : string -> Prop) :
  P EmptyString ->
  (forall a, P (String a EmptyString)) ->
  (forall a b, P (String a (String b EmptyString))) ->
  (forall a b c s, P s -> P (String a (String b (String c s)))) ->
  forall s, P s.
Proof.
  intros H0 H1 H2 H3 s.
  assert (P s /\ (forall a, P (String a s)) /\ forall a b, P (String a (String b s)))
    as [? _]; [|assumption].
  induction s as [|c s (IH0 & IH1 & IH2)]; repeat split; auto.
Qed.

Lemma value_of_char_of x :
  value_of (char_of x) = Some x /\ Ascii.eqb (char_of x) "=" = false.
Proof. by destruct x as [[] [] [] [] [] []]. Qed.

Lemma sextets_char x s : sextets (String (char_of x) s) = x :: sextets s.
Proof.
  destruct (value_of_char_of x) as [V E]. cbn [sextets]. by rewrite E, V.
Qed.

(** decoding what [encode] wrote gives the bytes back *)
Lemma decode_encode bytes : decode (encode bytes) = bytes.
Proof.
  unfold decode.
  induction bytes as [|a|a b|a b c s IH] using string_triple_ind.
  - done.
  - destruct a as [a0 a1 a2 a3 a4 a5 a6 a7]. cbn [encode].
    by rewrite !sextets_char.
  - destruct a as [a0 a1 a2 a3 a4 a5 a6 a7], b as [b0 b1 b2 b3 b4 b5 b6 b7].
    cbn [encode]. by rewrite !sextets_char.
  - destruct a as [a0 a1 a2 a3 a4 a5 a6 a7], b as [b0 b1 b2 b3 b4 b5 b6 b7],
      c as [c0 c1 c2 c3 c4 c5 c6 c7].
    cbn [encode]. rewrite !sextets_char. cbn [bytes_of]. by rewrite IH.
Qed.

End Base64Facts.

(** ** Reading back what [JSON.stringify] prints *)

Section JsonFacts.
Import JSON.

Lemma parse_chars_escape_char a t :
  parse_chars (escape_char a +:+ t) = prepend (String a EmptyString) (parse_chars t).
Proof. destruct a as [[] [] [] [] [] [] [] []]; reflexivity. Qed.

(** a printed string literal reads back as the string *)
Lemma parse_chars_escape s rest :
  parse_chars (escape s +:+ String quote rest) = Some (s, rest).
Proof.
  induction s as [|a s IH].
  - reflexivity.
  - cbn [escape]. rewrite string_app_assoc, parse_chars_escape_char, IH. reflexivity.
Qed.

Lemma digit_of_pretty_N_char d :
  (d < 10)%N -> digit_of (pretty_N_char d) = Some (Z.of_N d).
Proof.
  intros Hd.
  assert (d = 0 \/ d = 1 \/ d = 2 \/ d = 3 \/ d = 4 \/ d = 5 \/ d = 6 \/ d = 7 \/
          d = 8 \/ d = 9)%N as D by lia.
  by repeat (destruct D as [->|D]; [reflexivity|]); subst.
Qed.

Lemma pretty_N_go_app x : forall s t, pretty_N_go x s +:+ t = pretty_N_go x (s +:+ t).
Proof.
  induction (N.lt_wf_0 x) as [x _ IH]; intros s t.
  destruct (decide (x = 0)%N) as [->|Nz]; [by rewrite !pretty_N_go_0|].
  rewrite !(pretty_N_go_step x) by lia.
  rewrite IH by (apply N.div_lt; lia). reflexivity.
Qed.

(** reading the digits of a printed natural number *)
Lemma digits_pretty_N_go x : forall acc count s,
  exists k, digits acc count (pretty_N_go x s) =
            digits (acc * 10 ^ Z.of_nat k + Z.of_N x) (count + k) s /\
            ((0 < x)%N -> (0 < k)%nat).
Proof.
  induction (N.lt_wf_0 x) as [x _ IH]; intros acc count s.
  destruct (decide (x = 0)%N) as [->|Nz].
  - exists 0%nat. rewrite pretty_N_go_0, Nat.add_0_r. split; [|lia].
    change (Z.of_nat 0) with 0. change (Z.of_N 0) with 0.
    by rewrite Z.pow_0_r, Z.mul_1_r, Z.add_0_r.
  - rewrite (pretty_N_go_step x) by lia.
    destruct (IH (x / 10)%N ltac:(apply N.div_lt; lia) acc count
                (String (pretty_N_char (x mod 10)) s)) as (k & -> & _).
    exists (S k). split; [|lia]. cbn [digits].
    rewrite digit_of_pretty_N_char by (apply N.mod_lt; lia).
    f_equal; [|lia].
    rewrite Nat2Z.inj_succ, Z.pow_succ_r by lia.
    rewrite (N.div_mod x 10) at 3 by lia.
    rewrite N2Z.inj_add, N2Z.inj_mul. change (Z.of_N 10) with 10. lia.
Qed.

(** a printed positive number starts with a digit other than 0 *)
Lemma pretty_N_go_head x : forall s,
  (0 < x)%N ->
  exists a rest d, pretty_N_go x s = String a rest /\ digit_of a = Some d /\ 0 < d.
Proof.
  induction (N.lt_wf_0 x) as [x _ IH]; intros s Hx.
  rewrite (pretty_N_go_step x) by lia.
  destruct (decide (x / 10 = 0)%N) as [E|Nz].
  - rewrite E, pretty_N_go_0.
    assert (x < 10)%N as Lt.
    { destruct (N.lt_ge_cases x 10) as [?|Ge]; [done|].
      pose proof (N.Div0.div_le_mono 10 x 10 Ge) as D.
      change (10 / 10)%N with 1%N in D. lia. }
    rewrite N.mod_small by done.
    eexists _, _, _. split; [reflexivity|].
    rewrite digit_of_pretty_N_char by done. split; [reflexivity|lia].
  - apply IH; [apply N.div_lt; lia|by apply N.neq_0_lt_0].
Qed.


Lemma digit_starts_number a d :
  digit_of a = Some d ->
  starts_number a /\ Ascii.eqb "-" a = false /\ (0 < d -> Ascii.eqb "0" a = false).
Proof.
  destruct a as [[] [] [] [] [] [] [] []]; cbn; intros [= <-];
    repeat split; try done; lia.
Qed.

Lemma digits_stop acc count r :
  digits acc count (String "}" r) = (acc, count, String "}" r).
Proof. reflexivity. Qed.

Lemma parse_number_digits (negative : bool) t v k r :
  digits 0 0 t = (v, S k, String "}" r) ->
  starts_with "0" t = false ->
  starts_with "-" t = false ->
  parse_number (if negative then String "-" t else t) =
  Some (if negative then - v else v, 0, String "}" r).
Proof.
  intros Dg Nz Nm. unfold parse_number.
  destruct negative.
  - cbn [starts_with JsString.slice]. change (Ascii.eqb "-" "-") with true. cbv iota.
    by rewrite Dg, Nz.
  - by rewrite Nm, Dg, Nz.
Qed.

Lemma pretty_natural x r :
  (0 < x)%N ->
  let t := pretty_N_go x (String "}" r) in
  (exists k, digits 0 0 t = (Z.of_N x, S k, String "}" r)) /\
  starts_with "0" t = false /\ starts_with "-" t = false /\
  exists a t', t = String a t' /\ starts_number a.
Proof.
  intros Hx t.
  destruct (pretty_N_go_head x (String "}" r) Hx) as (a & t' & d & E & D & Hd).
  destruct (digit_starts_number a d D) as (Sn & Nm & Nz). specialize (Nz Hd).
  destruct (digits_pretty_N_go x 0 0%nat (String "}" r)) as (k & Dg & Hk).
  specialize (Hk Hx). rewrite digits_stop in Dg.
  split; [|subst t; rewrite E; cbn [starts_with]; eauto 6].
  destruct k as [|k]; [lia|]. exists k. subst t. rewrite Dg.
  by rewrite Z.mul_0_l, Z.add_0_l.
Qed.

(** a printed integer reads back as the integer, before a closing brace *)
Lemma parse_number_pretty z r :
  parse_number (pretty z +:+ String "}" r) = Some (z, 0, String "}" r) /\
  exists a t, pretty z +:+ String "}" r = String a t /\ starts_number a.
Proof.
  destruct z as [|p|p].
  - split; [reflexivity|]. eexists _, _. split; [reflexivity|]. by repeat split.
  - unfold pretty, pretty_Z, pretty_positive, pretty, pretty_N.
    destruct (decide (N.pos p = 0)%N) as [?|_]; [done|].
    rewrite pretty_N_go_app, append_nil_l.
    destruct (pretty_natural (N.pos p) r eq_refl) as ((k & Dg) & Nz & Nm & Hd).
    split; [|exact Hd]. exact (parse_number_digits false _ _ _ _ Dg Nz Nm).
  - unfold pretty, pretty_Z, pretty_positive, pretty, pretty_N.
    destruct (decide (N.pos p = 0)%N) as [?|_]; [done|].
    rewrite !append_cons, append_nil_l, pretty_N_go_app, append_nil_l.
    split; [|eexists _, _; split; [reflexivity|by repeat split]].
    destruct (pretty_natural (N.pos p) r eq_refl) as ((k & Dg) & Nz & Nm & _).
    exact (parse_number_digits true _ _ _ _ Dg Nz Nm).
Qed.

(** a printed integer is read as a number value *)
Lemma parse_value_pretty fuel z r :
  parse_value (S fuel) (pretty z +:+ String "}" r) = Some (JNumber z 0, String "}" r).
Proof.
  destruct (parse_number_pretty z r) as (Pn & a & t & E & Sw & S1 & S2 & S3 & S4 & S5 & S6).
  cbn [parse_value]. rewrite E in *. cbn [skip_ws].
  by rewrite Sw, S1, S2, S3, S4, S5, S6, Pn.
Qed.

(** a printed string literal is read as a string value *)
Lemma parse_value_string fuel s rest :
  parse_value (S fuel) (String quote (escape s +:+ String quote rest)) =
  Some (JString s, rest).
Proof.
  cbn [parse_value skip_ws].
  change (is_ws quote) with false. cbv iota.
  change (Ascii.eqb quote "{") with false.
  change (Ascii.eqb quote "[") with false.
  change (Ascii.eqb quote quote) with true. cbv iota.
  by rewrite parse_chars_escape.
Qed.

Lemma parse_members_last fuel key text v rest :
  parse_value fuel text = Some (v, String "}" rest) ->
  parse_members (S fuel) (String quote (escape key +:+ String quote (String ":" text))) =
  Some ([(key, v)], rest).
Proof.
  intros V. cbn [parse_members skip_ws].
  change (is_ws quote) with false. cbv iota.
  change (Ascii.eqb quote quote) with true. cbv iota.
  rewrite parse_chars_escape. cbn [skip_ws].
  change (is_ws ":") with false. cbv iota. cbn [starts_with].
  change (Ascii.eqb ":" ":") with true. cbv iota. cbn [JsString.slice].
  rewrite V. cbn [skip_ws].
  change (is_ws "}") with false. cbv iota. cbn [starts_with].
  change (Ascii.eqb "," "}") with false. change (Ascii.eqb "}" "}") with true.
  reflexivity.
Qed.

Lemma parse_members_more fuel key text v rest :
  parse_value fuel text = Some (v, String "," (String quote rest)) ->
  parse_members (S fuel) (String quote (escape key +:+ String quote (String ":" text))) =
  match parse_members fuel (String quote rest) with
  | Some (fields, rest') => Some ((key, v) :: fields, rest')
  | None => None
  end.
Proof.
  intros V. cbn [parse_members skip_ws].
  change (is_ws quote) with false. cbv iota.
  change (Ascii.eqb quote quote) with true. cbv iota.
  rewrite parse_chars_escape. cbn [skip_ws].
  change (is_ws ":") with false. cbv iota. cbn [starts_with].
  change (Ascii.eqb ":" ":") with true. cbv iota. cbn [JsString.slice].
  rewrite V. cbn [skip_ws].
  change (is_ws ",") with false. cbv iota. cbn [starts_with].
  change (Ascii.eqb "," ",") with true. cbv iota. cbn [JsString.slice].
  reflexivity.
Qed.

Lemma stringify_payload userId exp :
  stringify (JObject [("userId", JString userId); ("exp", JNumber exp 0)]) =
  String "{" (String quote (escape "userId" +:+ String quote
    (String ":" (String quote (escape userId +:+ String quote
      (String "," (String quote (escape "exp" +:+ String quote
        (String ":" (pretty exp +:+ String "}" EmptyString)))))))))).
Proof.
  cbn [stringify List.map join fst snd]. unfold quoted, number_text.
  change (0 =? 0) with true. cbv iota.
  repeat (rewrite ?string_app_assoc, ?append_cons, ?append_nil_l). reflexivity.
Qed.

(** [JSON.parse] reads the token payload back from its [JSON.stringify] *)
Lemma parse_stringify_payload userId exp :
  let payload := JObject [("userId", JString userId); ("exp", JNumber exp 0)] in
  parse (stringify payload) = Some payload.
Proof.
  cbv zeta. unfold parse. rewrite stringify_payload.
  set (members := String quote _).
  assert (exists n, String.length (String "{" members) = S (S (S n))) as [n ->].
  { subst members. change (escape "userId") with "userId".
    rewrite !append_cons. cbn [String.length]. eauto. }
  assert (parse_members (S (S (S n))) members =
          Some ([("userId", JString userId); ("exp", JNumber exp 0)], EmptyString)) as M.
  { subst members.
    rewrite (parse_members_more _ _ _ (JString userId)
               (escape "exp" +:+ String quote
                  (String ":" (pretty exp +:+ String "}" EmptyString))))
      by apply parse_value_string.
    rewrite (parse_members_last _ _ _ (JNumber exp 0) EmptyString)
      by apply parse_value_pretty.
    reflexivity. }
  cbn [parse_value skip_ws]. 
  change (is_ws "{") with false. cbv iota.
  change (Ascii.eqb "{" "{") with true. cbv iota.
  assert (starts_with "}" (skip_ws members) = false) as -> by reflexivity.
  by rewrite M.
Qed.

End JsonFacts.

(** ** The token helpers *)

Section Tokens.
Import ChatAuth.

(** C10 (as the code has it). A token reads back until its expiry is over:
    [parseToken] gives the payload of [generateToken], with the user
    identifier, at every time up to and including the recorded expiry,
    seven days after the token was made; it gives [null] at every later
    time; and it gives [null], without throwing, on every text whose base64
    decoding [JSON.parse] rejects. *)
Theorem token_round_trip
    (coerced_lt : json -> Z -> bool) (userId : string) (issued now : Z) :
  let token := generateToken userId issued in
  let payload := JObject [("userId", JString userId);
                          ("exp", JNumber (issued + sevenDays) 0)] in
  (now <= issued + sevenDays ->
   parseToken coerced_lt token now = Some payload /\
   prop "userId" payload = Some (JString userId)) /\
  (issued + sevenDays < now -> parseToken coerced_lt token now = None) /\
  (forall text,
      JSON.parse (Base64.decode text) = None -> parseToken coerced_lt text now = None).
Proof.
  cbv zeta. unfold parseToken, generateToken.
  rewrite decode_encode, parse_stringify_payload.
  assert (prop "exp" (JObject [("userId", JString userId);
                               ("exp", JNumber (issued + sevenDays) 0)]) =
          Some (JNumber (issued + sevenDays) 0)) as -> by reflexivity.
  cbn [lt_now]. change (0 <=? 0) with true. cbv iota.
  rewrite Z.pow_0_r, Z.mul_1_r.
  split; [|split].
  - intros Le. destruct (Z.ltb_spec (issued + sevenDays) now); [lia|done].
  - intros Lt. destruct (Z.ltb_spec (issued + sevenDays) now); [done|lia].
  - by intros text ->.
Qed.

End Tokens.

(** * The properties at sample inputs *)

Section AtSamples.
Import JSON API ShopAIChat Samples.
#[local] Existing Instance Browser.browser.

(** C1 at the two sample reads *)
Lemma frame_decoder_split_invariance_witness :
  Decoder.reads EmptyString values = (frames, "da") /\
  snd (streamResponse_reads turn_stream values (world turn)) =
  mkStream "hi" (Some "conv_1") "da" (Some 2%nat) reading.
Proof.
  pose proof (frame_decoder_split_invariance values frames "da" turn_stream 2
                (world turn) eq_refl eq_refl eq_refl eq_refl eq_refl eq_refl) as [D W].
  split; [exact D|].
  destruct (fold_left (processLine (userMessage turn_stream)) frames (world turn, 2%nat))
    as [w' c'] eqn:F.
  destruct W as [W _]. rewrite W.
  apply (f_equal snd) in F. vm_compute in F. subst c'. reflexivity.
Defined.




(** C7 at the sample turn *)
Lemma auth_required_persists_message_witness :
  handleStreamEvent (event "auth_required") 2 "hi" (world turn) =
  (setItem "shopAiLastMessage" "hi" (world turn), returned).
Proof.
  exact (proj1 (auth_required_persists_message (event "auth_required") 2 "hi"
                  (world turn) eq_refl)).
Defined.

(** C7 as stated fails: after the dispatcher has handled [auth_required],
    the message is stored, but no polling session exists, no timer is
    pending and no polling identifier is stored; the stream is still read *)
Lemma auth_required_starts_no_polling :
  let pg := step turn (stream_read 0 (read_value (line "{'type':'auth_required'}" +:+
                                                  Decoder.delimiter))) in
  getItem "shopAiLastMessage" (world pg) = Some "hi" /\
  pollers pg = [] /\ timers (world pg) = [] /\
  getItem "shopAiTokenPollingId" (world pg) = None /\
  stream_state <$> streams pg !! 0%nat = Some reading.
Proof. vm_compute. repeat split. Qed.




(** C2 at two sessions started four seconds apart *)
Lemma superseded_tick_is_noop_witness :
  let pgA := step linked (click_auth_link true 1000) in
  let pgB := run (step pgA (click_auth_link true 5000)) [] in
  step pgB (timer_fires 0) =
  mkPage (emit (console_log "Another polling session has started, stopping this one")
            (set_timers (delete 0%nat) (world pgB)))
    (pollers pgB) (streams pgB) (history pgB).
Proof.
  intros pgA pgB.
  assert (1000 <> 5000) as N by lia.
  assert (shopAuthUrl (world pgA) = Some authUrl) as H1 by (vm_compute; reflexivity).
  assert (getItem "shopAiConversationId" (world pgA) = Some "conv_1") as H2
    by (vm_compute; reflexivity).
  assert (pollers pgB !! 0%nat = Some (mkPoller "polling_1000" "conv_1" 0 not_awaiting))
    as H3 by (vm_compute; reflexivity).
  assert (timers (world pgB) !! 0%nat = Some (poll_timer 0 2000)) as H4
    by (vm_compute; reflexivity).
  assert ("polling_1000" = "polling_" +:+ pretty 1000) as H5 by (vm_compute; reflexivity).
  pose proof (superseded_tick_is_noop pgA authUrl "conv_1" true 1000 5000 []
                0 0 2000 (mkPoller "polling_1000" "conv_1" 0 not_awaiting)
                N H1 eq_refl H2 eq_refl eq_refl H3 H5 H4) as W.
  exact (proj2 (proj2 W)).
Defined.

(** C2 as stated fails. Session A awaits its response when session B
    starts: when the response says [authorized], A clears the pending
    message and the polling identifier, which by then is B's, and schedules
    the replay. And two sessions started within one millisecond share their
    identifier: the first one's next tick sends its request. *)
Lemma session_in_flight_still_mutates :
  let pgA := run linked [click_auth_link true 1000; timer_fires 0] in
  let pgB := step pgA (click_auth_link true 5000) in
  let pg := run pgB [token_response 0 response_ok;
                     token_json 0 (Auth.json_value authorized)] in
  let twins := run linked [click_auth_link true 1000; click_auth_link true 1000;
                           timer_fires 0] in
  (getItem "shopAiTokenPollingId" (world pgB) = Some "polling_5000" /\
   getItem "shopAiLastMessage" (world pgB) = Some "hi" /\
   timers (world pgB) = [poll_timer 1 2000] /\
   getItem "shopAiTokenPollingId" (world pg) = None /\
   getItem "shopAiLastMessage" (world pg) = None /\
   timers (world pg) = [poll_timer 1 2000; replay_timer "hi" "conv_1" 500]) /\
  (pollers twins =
     [mkPoller "polling_1000" "conv_1" 1 awaiting_fetch;
      mkPoller "polling_1000" "conv_1" 0 not_awaiting] /\
   last (trace (world twins)) = Some (fetch_token_status "conv_1")).
Proof. vm_compute. repeat split. Qed.





(** C10 at a token read one second after it was made *)
Lemma token_round_trip_witness :
  ChatAuth.parseToken (fun _ _ => false)
    (ChatAuth.generateToken "user_1" 1700000000000) 1700000001000 =
  Some (JObject [("userId", JString "user_1"); ("exp", JNumber 1700604800000 0)]).
Proof.
  refine (proj1 (proj1 (token_round_trip (fun _ _ => false) "user_1" 1700000000000
                          1700000001000) _)).
  vm_compute. discriminate.
Defined.

(** C10 as stated fails: at the recorded expiry time itself the token is
    still read *)
Lemma token_valid_at_expiry :
  ChatAuth.parseToken (fun _ _ => false)
    (ChatAuth.generateToken "user_1" 1700000000000)
    (1700000000000 + ChatAuth.sevenDays) =
  Some (JObject [("userId", JString "user_1"); ("exp", JNumber 1700604800000 0)]).
Proof. vm_compute. reflexivity. Qed.

End AtSamples.


(** * The server routes *)

Section ServerFacts.
Context `{Node}.
Import Server.

Lemma truthy_of_length s n : (S n <= utf16_length s)%nat -> JsString.truthy s = true.
Proof. destruct s; cbn; [lia|done]. Qed.

Lemma lt_length s n :
  AuthRoute.lt (dot_length (Some (JString s))) n = (Z.of_nat (utf16_length s) <? n).
Proof.
  unfold AuthRoute.lt. cbn [dot_length length_of ChatAuth.lt_now].
  change (0 <=? 0) with true. cbv iota. by rewrite Z.pow_0_r, Z.mul_1_r.
Qed.

Lemma gt_length s n :
  AuthRoute.gt (dot_length (Some (JString s))) n = (n <? Z.of_nat (utf16_length s)).
Proof.
  unfold AuthRoute.gt. cbn [dot_length length_of].
  change (0 <=? 0) with true. cbv iota. by rewrite Z.pow_0_r, Z.mul_1_r.
Qed.

(** what [action] does with well-formed credentials: the handler of the
    action runs *)
Lemma action_credentials now newId o a h kind username password shopId :
  JsString.truthy shopId = true ->
  (2 <= utf16_length username <= 50)%nat ->
  (4 <= utf16_length password)%nat ->
  let request := mkRequest "POST" o a h
                   (Some (User.credentials kind username password shopId)) in
  AuthRoute.action now newId request =
  if String.eqb kind "register" then
    AuthRoute.handleRegister now newId (Some (JString shopId)) (Some (JString username))
      (Some (JString password)) request
  else if String.eqb kind "login" then
    AuthRoute.handleLogin now (Some (JString shopId)) (Some (JString username))
      (Some (JString password)) request
  else ret (jsonResponse (error "无效的操作") 400 request).
Proof.
  intros Ts Lu Lp request. unfold AuthRoute.action.
  change (String.eqb (method request) "OPTIONS") with false. cbv iota.
  change (json_body request) with (Some (User.credentials kind username password shopId)).
  unfold User.credentials. cbv iota.
  change (prop "username" _) with (Some (JString username)).
  change (prop "password" _) with (Some (JString password)).
  change (prop "shopId" _) with (Some (JString shopId)).
  change (prop "action" _) with (Some (JString kind)).
  cbn [Json.truthy]. rewrite Ts, (truthy_of_length username 1), (truthy_of_length password 3) by lia.
  cbn [negb orb]. rewrite !lt_length, gt_length.
  destruct (Z.ltb_spec (Z.of_nat (utf16_length username)) 2); [lia|].
  destruct (Z.ltb_spec 50 (Z.of_nat (utf16_length username))); [lia|].
  destruct (Z.ltb_spec (Z.of_nat (utf16_length password)) 4); [lia|].
  cbn [orb is_string]. reflexivity.
Qed.

End ServerFacts.

Section AuthRouteFacts.
Context `{Node}.
Import Server.

Lemma parseToken_generateToken userId issued now :
  now <= issued + ChatAuth.sevenDays ->
  AuthRoute.parseToken (ChatAuth.generateToken userId issued) now =
  Some (JObject [("userId", JString userId);
                 ("exp", JNumber (issued + ChatAuth.sevenDays) 0)]).
Proof.
  intros Le. unfold AuthRoute.parseToken, ChatAuth.parseToken, ChatAuth.generateToken.
  rewrite decode_encode, parse_stringify_payload.
  assert (prop "exp" (JObject [("userId", JString userId);
                               ("exp", JNumber (issued + ChatAuth.sevenDays) 0)]) =
          Some (JNumber (issued + ChatAuth.sevenDays) 0)) as -> by reflexivity.
  cbn [ChatAuth.lt_now]. change (0 <=? 0) with true. cbv iota.
  rewrite Z.pow_0_r, Z.mul_1_r.
  by destruct (Z.ltb_spec (issued + ChatAuth.sevenDays) now); [lia|].
Qed.

Lemma bearer_token token :
  AuthRoute.bearer (Some ("Bearer " +:+ token)) = Some token.
Proof. reflexivity. Qed.

Lemma find_app_new {A} (f : A -> bool) l x :
  List.find f l = None -> f x = true -> List.find f (l ++ [x]) = Some x.
Proof.
  induction l as [|y l IH]; cbn; intros N T; [by rewrite T|].
  destruct (f y); [done|]. by apply IH.
Qed.

Lemma find_none_existsb {A} (f : A -> bool) l :
  existsb f l = false -> List.find f l = None.
Proof.
  induction l as [|y l IH]; cbn; [done|]. destruct (f y); [done|]. exact IH.
Qed.

Lemma existsb_find_none {A} (f : A -> bool) l :
  List.find f l = None -> existsb f l = false.
Proof.
  induction l as [|y l IH]; cbn; [done|]. destruct (f y); [done|]. exact IH.
Qed.

(** a registration with well-formed credentials, a free name and a fresh
    identifier *)
Lemma action_register_fresh st now newId shopId username password o a h :
  JsString.truthy shopId = true ->
  (2 <= utf16_length username <= 50)%nat ->
  (4 <= utf16_length password)%nat ->
  existsb (Db.has_id newId) (chatUser st) = false ->
  List.find (Db.same_user shopId username) (chatUser st) = None ->
  let request := mkRequest "POST" o a h
                   (Some (User.credentials "register" username password shopId)) in
  AuthRoute.action now newId request st =
  (value (jsonResponse
            (JObject [("success", JBool true); ("userId", JString newId);
                      ("username", JString username);
                      ("token", JString (ChatAuth.generateToken newId now))])
            201 request),
   mkStore (chatUser st ++ [ChatUser.mk newId shopId username (sha256_hex password) None true])
     (promptHistory st) (console st)).
Proof.
  intros Ts Lu Lp Fresh Free request.
  unfold request. rewrite action_credentials by done.
  change (String.eqb "register" "register") with true. cbv iota.
  unfold AuthRoute.handleRegister, Db.getChatUserByUsername, Db.createChatUser,
    AuthRoute.hashPassword, Db.chatUser_create, bind, try_catch, ret.
  cbn [as_string]. rewrite Free, Fresh, (existsb_find_none _ _ Free). reflexivity.
Qed.

(** the [check] with an unexpired token of [generateToken] for a stored,
    active user *)
Lemma loader_check_token st issued now o user :
  List.find (Db.has_id (ChatUser.id user)) (chatUser st) = Some user ->
  ChatUser.isActive user = true ->
  now <= issued + ChatAuth.sevenDays ->
  let check := mkRequest "GET" o
                 (Some ("Bearer " +:+ ChatAuth.generateToken (ChatUser.id user) issued))
                 (Some "check") None in
  AuthRoute.loader now check st =
  (value (jsonResponse
            (JObject [("authenticated", JBool true);
                      ("userId", JString (ChatUser.id user));
                      ("username", JString (ChatUser.username user));
                      ("currentPrompt", of_option_string (ChatUser.currentPrompt user))])
            200 check), st).
Proof.
  intros F A Le check. unfold AuthRoute.loader.
  change (String.eqb (method check) "OPTIONS") with false. cbv iota.
  change (action_param check) with (Some "check").
  rewrite bool_decide_eq_true_2 by done.
  change (authorization check) with
    (Some ("Bearer " +:+ ChatAuth.generateToken (ChatUser.id user) issued)).
  rewrite bearer_token, parseToken_generateToken by done.
  cbn [Json.truthy].
  change (prop "userId" _) with (Some (JString (ChatUser.id user))).
  unfold Db.getChatUserById, bind, try_catch, ret. cbn [as_string].
  by rewrite F, A.
Qed.

Lemma find_registered st newId shopId username passwordHash :
  existsb (Db.has_id newId) (chatUser st) = false ->
  let row := ChatUser.mk newId shopId username passwordHash None true in
  List.find (Db.has_id newId) (chatUser st ++ [row]) = Some row.
Proof.
  intros Fresh row. apply find_app_new; [by apply find_none_existsb|].
  unfold Db.has_id, row. cbn. apply String.eqb_refl.
Qed.

(** X1. Registration gives a token that authenticates: with well-formed
    credentials, a user name that is free in the shop and a fresh identifier,
    [action] stores one active user under the hash of the password and
    answers 201 with a token; at any time up to seven days later the
    [check] of [loader] accepts this token and names the user. *)
Theorem register_then_check
    (st : Store) (now later : Z) (newId shopId username password : string)
    (o : option string) :
  JsString.truthy shopId = true ->
  (2 <= utf16_length username <= 50)%nat ->
  (4 <= utf16_length password)%nat ->
  existsb (Db.has_id newId) (chatUser st) = false ->
  List.find (Db.same_user shopId username) (chatUser st) = None ->
  later <= now + ChatAuth.sevenDays ->
  let token := ChatAuth.generateToken newId now in
  let row := ChatUser.mk newId shopId username (sha256_hex password) None true in
  let st' := mkStore (chatUser st ++ [row]) (promptHistory st) (console st) in
  let register := mkRequest "POST" o None None
                    (Some (User.credentials "register" username password shopId)) in
  let check := mkRequest "GET" o (Some ("Bearer " +:+ token)) (Some "check") None in
  AuthRoute.action now newId register st =
    (value (jsonResponse
              (JObject [("success", JBool true); ("userId", JString newId);
                        ("username", JString username); ("token", JString token)])
              201 register), st') /\
  AuthRoute.loader later check st' =
    (value (jsonResponse
              (JObject [("authenticated", JBool true); ("userId", JString newId);
                        ("username", JString username); ("currentPrompt", JNull)])
              200 check), st').
Proof.
  intros Ts Lu Lp Fresh Free Le token row st' register check. split.
  - by apply action_register_fresh.
  - apply (loader_check_token st' now later o row); [|done|done].
    by apply find_registered.
Qed.

End AuthRouteFacts.

Section AuthRouteLogin.
Context `{Node}.
Import Server.

(** X2. Logging in: with well-formed credentials, [action] answers 200 with
    a token exactly when the user name is registered in the shop, the hash
    of the password is the stored one and the account is active; an unknown
    user name and a wrong password get the same response, status 401; and
    no login changes the store. *)
Theorem login_outcomes
    (st : Store) (now : Z) (newId shopId username password : string)
    (o a h : option string) :
  JsString.truthy shopId = true ->
  (2 <= utf16_length username <= 50)%nat ->
  (4 <= utf16_length password)%nat ->
  let request := mkRequest "POST" o a h
                   (Some (User.credentials "login" username password shopId)) in
  let found := List.find (Db.same_user shopId username) (chatUser st) in
  let refused := jsonResponse (error "用户名或密码错误") 401 request in
  exists response,
    AuthRoute.action now newId request st = (value response, st) /\
    (found = None -> response = refused) /\
    (forall user, found = Some user ->
       ChatUser.passwordHash user <> sha256_hex password -> response = refused) /\
    (forall user, found = Some user ->
       ChatUser.passwordHash user = sha256_hex password ->
       ChatUser.isActive user = false ->
       response = jsonResponse (error "账户已被禁用") 403 request) /\
    (forall user, found = Some user ->
       ChatUser.passwordHash user = sha256_hex password ->
       ChatUser.isActive user = true ->
       response =
       jsonResponse
         (JObject [("success", JBool true);
                   ("userId", JString (ChatUser.id user));
                   ("username", JString (ChatUser.username user));
                   ("currentPrompt", of_option_string (ChatUser.currentPrompt user));
                   ("token", JString (ChatAuth.generateToken (ChatUser.id user) now))])
         200 request) /\
    (status response = 200 ->
     exists user, found = Some user /\
       ChatUser.passwordHash user = sha256_hex password /\ ChatUser.isActive user = true).
Proof.
  intros Ts Lu Lp request found refused.
  unfold request. rewrite action_credentials by done.
  change (String.eqb "login" "register") with false.
  change (String.eqb "login" "login") with true. cbv iota.
  unfold AuthRoute.handleLogin, Db.getChatUserByUsername, AuthRoute.hashPassword,
    bind, try_catch, ret.
  cbn [as_string]. fold request. fold found.
  destruct found as [user|] eqn:F.
  - destruct (String.eqb_spec (ChatUser.passwordHash user) (sha256_hex password)) as [E|N];
      cbn [negb]; [destruct (ChatUser.isActive user) eqn:A; cbn [negb]|].
    all: eexists; (split; [reflexivity|]).
    all: repeat split; intros; simplify_eq; cbn in *; try done; try congruence; eauto.
  - eexists. split; [reflexivity|].
    repeat split; intros; simplify_eq; cbn in *; try done.
Qed.

(** X3. A taken user name is never overwritten: when the shop already has a
    user of that name, a registration with well-formed credentials is
    answered with status 409, whatever the password, and the store is left
    as it is. *)
Theorem register_conflict
    (st : Store) (now : Z) (newId shopId username password : string)
    (o a h : option string) (user : ChatUser.t) :
  JsString.truthy shopId = true ->
  (2 <= utf16_length username <= 50)%nat ->
  (4 <= utf16_length password)%nat ->
  List.find (Db.same_user shopId username) (chatUser st) = Some user ->
  let request := mkRequest "POST" o a h
                   (Some (User.credentials "register" username password shopId)) in
  AuthRoute.action now newId request st =
  (value (jsonResponse (error "用户名已存在") 409 request), st).
Proof.
  intros Ts Lu Lp F request.
  unfold request. rewrite action_credentials by done.
  change (String.eqb "register" "register") with true. cbv iota.
  unfold AuthRoute.handleRegister, Db.getChatUserByUsername, bind, try_catch, ret.
  cbn [as_string]. by rewrite F.
Qed.

End AuthRouteLogin.

Section AuthRouteGuard.
Context `{Node}.
Import Server.

Lemma as_string_Some v s : as_string v = Some s -> v = Some (JString s).
Proof. destruct v as [[]|]; cbn; congruence. Qed.

Lemma handleRegister_tables now newId shopId username password request st :
  let '(completion, st') :=
    AuthRoute.handleRegister now newId shopId username password request st in
  promptHistory st' = promptHistory st /\
  (chatUser st' = chatUser st \/
   exists s u p,
     shopId = Some (JString s) /\ username = Some (JString u) /\
     password = Some (JString p) /\
     List.find (Db.same_user s u) (chatUser st) = None /\
     existsb (Db.has_id newId) (chatUser st) = false /\
     chatUser st' = chatUser st ++ [ChatUser.mk newId s u (sha256_hex p) None true] /\
     exists response, completion = value response /\ status response = 201).
Proof.
  unfold AuthRoute.handleRegister, Db.getChatUserByUsername, Db.createChatUser,
    AuthRoute.hashPassword, Db.chatUser_create, bind, try_catch, ret, throw, console_error.
  destruct (as_string shopId) as [s|] eqn:Es; [destruct (as_string username) as [u|] eqn:Eu|].
  - destruct (List.find (Db.same_user s u) (chatUser st)) eqn:F; [by auto|].
    destruct (as_string password) as [p|] eqn:Ep; [|by auto].
    destruct (existsb (Db.has_id newId) (chatUser st)) eqn:Ei; cbn [orb]; [by auto|].
    rewrite (existsb_find_none _ _ F). cbn [promptHistory chatUser].
    split; [done|]. right. exists s, u, p.
    rewrite (as_string_Some _ _ Es), (as_string_Some _ _ Eu), (as_string_Some _ _ Ep).
    repeat split; try done. eauto.
  - cbn. destruct (as_string password); cbn; auto.
  - cbn. destruct (as_string password); cbn; auto.
Qed.

Lemma handleLogin_tables now shopId username password request st :
  let '(completion, st') := AuthRoute.handleLogin now shopId username password request st in
  promptHistory st' = promptHistory st /\ chatUser st' = chatUser st.
Proof.
  unfold AuthRoute.handleLogin, Db.getChatUserByUsername, AuthRoute.hashPassword,
    bind, try_catch, ret, throw, console_error.
  destruct (as_string shopId) as [s|]; [destruct (as_string username) as [u|]|]; cbn.
  2, 3: done.
  destruct (List.find (Db.same_user s u) (chatUser st)); [|done].
  destruct (as_string password); [|done].
  destruct (negb _); [done|]. by destruct (negb _).
Qed.

(** X4. Only valid registrations reach the table of users: whatever the
    request, [action] leaves the prompt histories alone and either leaves
    the users alone or adds exactly one active user, without a prompt, under
    the hash of the password; the latter only when the body asks to
    [register] with strings for the shop, the user name (2 to 50 code units,
    free in that shop) and the password (4 code units or more), and then the
    answer has status 201. *)
Theorem action_stores_valid_users_only
    (st : Store) (now : Z) (newId : string) (request : Request) :
  let '(completion, st') := AuthRoute.action now newId request st in
  promptHistory st' = promptHistory st /\
  (chatUser st' = chatUser st \/
   exists body shopId username password,
     json_body request = Some body /\
     prop "action" body = Some (JString "register") /\
     prop "shopId" body = Some (JString shopId) /\
     prop "username" body = Some (JString username) /\
     prop "password" body = Some (JString password) /\
     JsString.truthy shopId = true /\
     (2 <= utf16_length username <= 50)%nat /\
     (4 <= utf16_length password)%nat /\
     List.find (Db.same_user shopId username) (chatUser st) = None /\
     chatUser st' =
       chatUser st ++ [ChatUser.mk newId shopId username (sha256_hex password) None true] /\
     exists response, completion = value response /\ status response = 201).
Proof.
  unfold AuthRoute.action.
  destruct (String.eqb (method request) "OPTIONS"); [by cbn; auto|].
  destruct (json_body request) as [body|] eqn:B; [|by cbn; auto].
  assert (forall m, (let '(completion, st') := (console_error m ;;; ret
                       (jsonResponse (error "服务器错误") 500 request)) st in
          promptHistory st' = promptHistory st /\
          (chatUser st' = chatUser st \/ False)) ) as Err by (intros; cbn; auto).
  destruct (Json.truthy (prop "username" body)) eqn:Tu; cbn [negb orb].
  2: { destruct body; cbn; auto. }
  destruct (Json.truthy (prop "password" body)) eqn:Tp; cbn [negb orb].
  2: { destruct body; cbn; auto. }
  destruct (Json.truthy (prop "shopId" body)) eqn:Ts; cbn [negb orb].
  2: { destruct body; cbn; auto. }
  destruct (AuthRoute.lt (dot_length (prop "username" body)) 2) eqn:L2; cbn [orb].
  { destruct body; cbn; auto. }
  destruct (AuthRoute.gt (dot_length (prop "username" body)) 50) eqn:G50; cbn [orb].
  { destruct body; cbn; auto. }
  destruct (AuthRoute.lt (dot_length (prop "password" body)) 4) eqn:L4.
  { destruct body; cbn; auto. }
  destruct (is_string "register" (prop "action" body)) eqn:R.
  - assert (match body with JNull => False | _ => True end) as NN
      by (destruct body; cbn in Tu; done).
    pose proof (handleRegister_tables now newId (prop "shopId" body)
                  (prop "username" body) (prop "password" body) request st) as HR.
    destruct (AuthRoute.handleRegister _ _ _ _ _ _ _) as [c st'] eqn:E.
    assert ((match body with
             | JNull => AuthRoute.serverError request
             | _ => AuthRoute.handleRegister now newId (prop "shopId" body)
                      (prop "username" body) (prop "password" body) request
             end) st = (c, st')) as -> by (destruct body; done).
    destruct HR as [Hh [Hu|(s & u & p & Es & Eu & Ep & F & I & Hc & r & -> & St)]];
      [by auto|].
    split; [done|]. right. exists body, s, u, p.
    rewrite Es in Ts. rewrite Eu in L2, G50. rewrite Ep in L4.
    rewrite lt_length in L2, L4. rewrite gt_length in G50.
    cbn in Ts.
    destruct (prop "action" body) as [[]|]; cbn in R; try done.
    apply String.eqb_eq in R as ->.
    repeat split; try done; try lia. eauto.
  - destruct (is_string "login" (prop "action" body)) eqn:Lg.
    + pose proof (handleLogin_tables now (prop "shopId" body)
                    (prop "username" body) (prop "password" body) request st) as HL.
      destruct (AuthRoute.handleLogin _ _ _ _ _ _) as [c st'] eqn:E.
      assert ((match body with
               | JNull => AuthRoute.serverError request
               | _ => AuthRoute.handleLogin now (prop "shopId" body)
                        (prop "username" body) (prop "password" body) request
               end) st = (c, st')) as ->
          by (destruct body; cbn in Tu; done).
      destruct HL; auto.
    + destruct body; cbn; auto.
Qed.

End AuthRouteGuard.

Section Cors.
Context `{Node}.
Import Server.

Lemma cors_ret request data status :
  answers_with_cors request (ret (jsonResponse data status request)).
Proof. by intros st. Qed.

Lemma cors_preflight request : answers_with_cors request (ret (preflight request)).
Proof. by intros st. Qed.

Lemma cors_throw request : answers_with_cors request throw.
Proof. by intros st. Qed.

Lemma cors_bind {A} request (m : M A) k :
  (forall a, answers_with_cors request (k a)) ->
  answers_with_cors request (bind m k).
Proof.
  intros K st. unfold bind. destruct (m st) as [[a|] st']; [apply K|done].
Qed.

Lemma cors_try_catch request m handler :
  answers_with_cors request m -> answers_with_cors request handler ->
  answers_with_cors request (try_catch m handler).
Proof.
  intros Hm Hh st. unfold try_catch. specialize (Hm st).
  destruct (m st) as [[a|] st']; [exact Hm|apply Hh].
Qed.

(** X5. Every answer reflects the origin: whatever the request and the
    store, a response of one of the four route handlers (preflight, success
    or error) carries as [Access-Control-Allow-Origin] the [Origin] header
    of its request, or [*] when the request has none or an empty one. *)
Theorem responses_reflect_origin
    (now : Z) (newId : string) (createdAt : Z) (request : Request) :
  answers_with_cors request (AuthRoute.loader now request) /\
  answers_with_cors request (AuthRoute.action now newId request) /\
  answers_with_cors request (PromptRoute.loader now request) /\
  answers_with_cors request (PromptRoute.action now newId createdAt request) /\
  corsHeaders request =
    match origin request with
    | Some o => if decide (o = EmptyString) then "*" else o
    | None => "*"
    end.
Proof.
  repeat split.
  1-4: unfold AuthRoute.loader, AuthRoute.action, AuthRoute.handleRegister,
         AuthRoute.handleLogin, PromptRoute.loader, PromptRoute.action.
  1-4: repeat first
      [ apply cors_ret | apply cors_preflight | apply cors_throw
      | apply cors_bind; intros | apply cors_try_catch
      | progress unfold AuthRoute.unauthenticated, PromptRoute.unauthorized,
          PromptRoute.updated, AuthRoute.serverError
      | case_match ].
  - unfold corsHeaders. destruct (origin request) as [[|]|]; done.
Qed.

End Cors.

Section Tokens2.
Context `{Node}.
Import Server.

Lemma startsWith_slice p : forall s,
  JsString.startsWith p s = true -> s = p +:+ JsString.slice (String.length p) s.
Proof.
  induction p as [|a p IH]; intros s; [done|].
  destruct s as [|b s]; cbn [JsString.startsWith]; [done|].
  intros [E S]%andb_prop. apply Ascii.eqb_eq in E as ->.
  rewrite append_cons. cbn [String.length JsString.slice]. f_equal. by apply IH.
Qed.

Lemma bearer_Some header token :
  AuthRoute.bearer header = Some token -> header = Some ("Bearer " +:+ token).
Proof.
  unfold AuthRoute.bearer. destruct header as [h|]; [|done].
  destruct (JsString.truthy h); cbn [andb]; [|done].
  destruct (JsString.startsWith "Bearer " h) eqn:S; [|done].
  intros [= <-]. f_equal. exact (startsWith_slice "Bearer " h S).
Qed.

(** the user [authenticateRequest] and the [check] of [loader] find for a
    request *)
Lemma authenticateRequest_spec now request st :
  PromptRoute.authenticateRequest now request st =
  match AuthRoute.bearer (authorization request) with
  | None => (value None, st)
  | Some token =>
      match AuthRoute.parseToken token now with
      | Some payload =>
          if Json.truthy (Some payload) then
            match as_string (prop "userId" payload) with
            | Some userId =>
                match List.find (Db.has_id userId) (chatUser st) with
                | Some user =>
                    (value (if ChatUser.isActive user then Some user else None), st)
                | None => (value None, st)
                end
            | None =>
                (value None,
                 mkStore (chatUser st) (promptHistory st)
                   (console st ++ ["Error getting chat user by id:"]))
            end
          else (value None, st)
      | None => (value None, st)
      end
  end.
Proof.
  unfold PromptRoute.authenticateRequest.
  destruct (AuthRoute.bearer _); [|done].
  destruct (AuthRoute.parseToken _ _) as [payload|]; [|done].
  destruct (Json.truthy _); [|done].
  unfold Db.getChatUserById, bind, try_catch, ret, throw, console_error.
  destruct (as_string _); [|done].
  destruct (List.find _ _) as [user|]; [|done].
  by destruct (ChatUser.isActive user).
Qed.

Lemma parse_stringify_userId userId :
  let payload := JObject [("userId", JString userId)] in
  JSON.parse (JSON.stringify payload) = Some payload.
Proof.
  cbv zeta. unfold JSON.parse.
  assert (JSON.stringify (JObject [("userId", JString userId)]) =
          String "{" (String JSON.quote (JSON.escape "userId" +:+ String JSON.quote
            (String ":" (String JSON.quote (JSON.escape userId +:+ String JSON.quote
              (String "}" EmptyString))))))) as ->.
  { cbn [JSON.stringify List.map JSON.join fst snd]. unfold JSON.quoted.
    repeat (rewrite ?string_app_assoc, ?append_cons, ?append_nil_l). reflexivity. }
  set (members := String JSON.quote _).
  assert (exists n, String.length (String "{" members) = S (S (S n))) as [n ->].
  { subst members. change (JSON.escape "userId") with "userId".
    rewrite !append_cons. cbn [String.length]. eauto. }
  assert (JSON.parse_members (S (S (S n))) members =
          Some ([("userId", JString userId)], EmptyString)) as M.
  { subst members.
    by rewrite (parse_members_last _ _ _ (JString userId) EmptyString)
      by apply parse_value_string. }
  cbn [JSON.parse_value JSON.skip_ws].
  change (JSON.is_ws "{") with false. cbv iota.
  change (Ascii.eqb "{" "{") with true. cbv iota.
  assert (JSON.starts_with "}" (JSON.skip_ws members) = false) as -> by reflexivity.
  by rewrite M.
Qed.

(** X6. The [check] vouches only for stored, active users: when [loader]
    answers [authenticated: true], the request carried a header [Bearer
    <token>] whose token [parseToken] accepts at that time, the payload of
    the token names a user of the store, this user is active, and the answer
    gives the identifier, name and prompt of this very user; the store is
    left as it is. *)
Theorem check_vouches_for_active_users
    (st st' : Store) (now : Z) (request : Request) (response : Response) (data : json) :
  AuthRoute.loader now request st = (value response, st') ->
  body response = Some data ->
  prop "authenticated" data = Some (JBool true) ->
  exists token payload user,
    authorization request = Some ("Bearer " +:+ token) /\
    AuthRoute.parseToken token now = Some payload /\
    prop "userId" payload = Some (JString (ChatUser.id user)) /\
    List.find (Db.has_id (ChatUser.id user)) (chatUser st) = Some user /\
    ChatUser.isActive user = true /\
    data = JObject [("authenticated", JBool true);
                    ("userId", JString (ChatUser.id user));
                    ("username", JString (ChatUser.username user));
                    ("currentPrompt", of_option_string (ChatUser.currentPrompt user))] /\
    st' = st.
Proof.
  unfold AuthRoute.loader.
  destruct (String.eqb _ _); [by intros [= <- <-] [= <-]|].
  destruct (bool_decide _); [|by intros [= <- <-] [= <-]].
  destruct (AuthRoute.bearer _) as [token|] eqn:B; [|by intros [= <- <-] [= <-]].
  destruct (AuthRoute.parseToken _ _) as [payload|] eqn:P; [|by intros [= <- <-] [= <-]].
  destruct (Json.truthy _); [|by intros [= <- <-] [= <-]].
  unfold Db.getChatUserById, bind, try_catch, ret, throw, console_error.
  destruct (as_string _) as [userId|] eqn:U; [|by intros [= <- <-] [= <-]].
  destruct (List.find _ _) as [user|] eqn:F; [|by intros [= <- <-] [= <-]].
  destruct (ChatUser.isActive user) eqn:A; [|by intros [= <- <-] [= <-]].
  intros [= <- <-] [= <-] _.
  assert (ChatUser.id user = userId) as <-.
  { apply find_some in F as [_ E]. by apply String.eqb_eq in E. }
  exists token, payload, user.
  repeat split; try done.
  - by apply bearer_Some.
  - by apply as_string_Some.
Qed.

(** X7. Tokens are not signed: for every active user of the store, the
    base64 text of the JSON object that holds nothing but the user's
    identifier is a token [loader] and [authenticateRequest] accept at
    every time; it has no expiry, and making it takes no secret. *)
Theorem unsigned_token_accepted
    (st : Store) (now : Z) (o : option string) (user : ChatUser.t) :
  List.find (Db.has_id (ChatUser.id user)) (chatUser st) = Some user ->
  ChatUser.isActive user = true ->
  let token :=
    Base64.encode (JSON.stringify (JObject [("userId", JString (ChatUser.id user))])) in
  let check := mkRequest "GET" o (Some ("Bearer " +:+ token)) (Some "check") None in
  AuthRoute.loader now check st =
    (value (jsonResponse
              (JObject [("authenticated", JBool true);
                        ("userId", JString (ChatUser.id user));
                        ("username", JString (ChatUser.username user));
                        ("currentPrompt", of_option_string (ChatUser.currentPrompt user))])
              200 check), st) /\
  PromptRoute.authenticateRequest now check st = (value (Some user), st).
Proof.
  intros F A token check.
  assert (AuthRoute.parseToken token now =
          Some (JObject [("userId", JString (ChatUser.id user))])) as P.
  { unfold AuthRoute.parseToken, ChatAuth.parseToken, token.
    by rewrite decode_encode, parse_stringify_userId. }
  split.
  - unfold AuthRoute.loader.
    change (String.eqb (method check) "OPTIONS") with false. cbv iota.
    change (action_param check) with (Some "check").
    rewrite bool_decide_eq_true_2 by done.
    change (authorization check) with (Some ("Bearer " +:+ token)).
    rewrite bearer_token, P. cbn [Json.truthy].
    change (prop "userId" _) with (Some (JString (ChatUser.id user))).
    unfold Db.getChatUserById, bind, try_catch, ret. cbn [as_string].
    by rewrite F, A.
  - rewrite authenticateRequest_spec.
    change (authorization check) with (Some ("Bearer " +:+ token)).
    rewrite bearer_token, P. cbn [Json.truthy].
    change (prop "userId" _) with (Some (JString (ChatUser.id user))).
    cbn [as_string]. by rewrite F, A.
Qed.

(** X8. Deactivation takes effect at once: a token that names a user whose
    account is not active, be it unexpired, is refused everywhere: the
    [check] answers [authenticated: false], both handlers of the prompt
    route answer 401, and the store is left as it is. *)
Theorem inactive_user_locked_out
    (st : Store) (now : Z) (newId : string) (createdAt : Z) (request : Request)
    (token : string) (payload : json) (user : ChatUser.t) :
  method request <> "OPTIONS" ->
  authorization request = Some ("Bearer " +:+ token) ->
  AuthRoute.parseToken token now = Some payload ->
  prop "userId" payload = Some (JString (ChatUser.id user)) ->
  List.find (Db.has_id (ChatUser.id user)) (chatUser st) = Some user ->
  ChatUser.isActive user = false ->
  (action_param request = Some "check" ->
   AuthRoute.loader now request st = (value (AuthRoute.unauthenticated request), st)) /\
  PromptRoute.loader now request st = (value (PromptRoute.unauthorized request), st) /\
  PromptRoute.action now newId createdAt request st =
    (value (PromptRoute.unauthorized request), st).
Proof.
  intros Mt Au P U F A.
  assert (Json.truthy (Some payload) = true) as T by (by destruct payload).
  assert (PromptRoute.authenticateRequest now request st = (value None, st)) as R.
  { rewrite authenticateRequest_spec, Au, bearer_token, P, T, U. cbn [as_string].
    by rewrite F, A. }
  apply String.eqb_neq in Mt.
  split; [|split].
  - intros C. unfold AuthRoute.loader. rewrite Mt, C, bool_decide_eq_true_2 by done.
    rewrite Au, bearer_token, P, T, U.
    unfold Db.getChatUserById, bind, try_catch, ret. cbn [as_string].
    by rewrite F, A.
  - unfold PromptRoute.loader. rewrite Mt. unfold bind. by rewrite R.
  - unfold PromptRoute.action. rewrite Mt. unfold bind. by rewrite R.
Qed.

End Tokens2.

Section PromptRouteFacts.
Context `{Node}.
Import Server.

Lemma find_existsb {A} (f : A -> bool) l x : List.find f l = Some x -> existsb f l = true.
Proof.
  induction l as [|y l IH]; cbn; [done|]. destruct (f y); [done|]. exact IH.
Qed.

Lemma find_has_id userId l user :
  List.find (Db.has_id userId) l = Some user -> ChatUser.id user = userId.
Proof. intros [_ E]%find_some. by apply String.eqb_eq in E. Qed.

Lemma authenticateRequest_Some now request st st' user :
  PromptRoute.authenticateRequest now request st = (value (Some user), st') ->
  st' = st /\
  List.find (Db.has_id (ChatUser.id user)) (chatUser st) = Some user /\
  ChatUser.isActive user = true.
Proof.
  rewrite authenticateRequest_spec.
  destruct (AuthRoute.bearer _); [|done].
  destruct (AuthRoute.parseToken _ _) as [payload|]; [|done].
  destruct (Json.truthy _); [|done].
  destruct (as_string _) as [userId|]; [|done].
  destruct (List.find _ _) as [u|] eqn:F; [|done].
  destruct (ChatUser.isActive u) eqn:A; [|done].
  intros [= <- <-]. by rewrite (find_has_id _ _ _ F).
Qed.

(** the users once [chatUser.update] has run *)
Lemma find_update userId prompt l user :
  List.find (Db.has_id userId) l = Some user ->
  List.find (Db.has_id userId)
    (List.map (fun u => if Db.has_id userId u then Db.set_currentPrompt prompt u else u) l) =
  Some (Db.set_currentPrompt prompt user).
Proof.
  induction l as [|y l IH]; cbn; [done|].
  destruct (Db.has_id userId y) eqn:E.
  - intros [= <-]. unfold Db.has_id in *. cbn. by rewrite E.
  - rewrite E. exact IH.
Qed.


Lemma newVersion_succ last : Db.newVersion last = from_option id 0 last + 1.
Proof. destruct last as [v|]; cbn; [|done]. by destruct (Z.eqb_spec v 0) as [->|]. Qed.

Lemma lastVersion_bound userId rows :
  forall h, In h rows -> PromptHistory.userId h = userId ->
  exists v, Db.lastVersion userId rows = Some v /\ PromptHistory.version h <= v.
Proof.
  induction rows as [|x rows IH]; intros h; [done|].
  intros [->|I] U; cbn [Db.lastVersion].
  - rewrite U, String.eqb_refl.
    destruct (Db.lastVersion userId rows) as [v|]; eexists; (split; [done|lia]).
  - destruct (IH h I U) as (v & -> & Le).
    destruct (String.eqb _ _); eexists; (split; [done|lia]).
Qed.

(** the version [updateUserPrompt] gives a new row is above the versions of
    all rows of the user *)
Lemma newVersion_above userId rows h :
  In h rows -> PromptHistory.userId h = userId ->
  PromptHistory.version h < Db.newVersion (Db.lastVersion userId rows).
Proof.
  intros I U. destruct (lastVersion_bound userId rows h I U) as (v & -> & Le).
  rewrite newVersion_succ. cbn. lia.
Qed.


End PromptRouteFacts.

Section PromptUpdates.
Context `{Node}.
Import Server.

Lemma authenticateRequest_header now request request' st :
  authorization request' = authorization request ->
  PromptRoute.authenticateRequest now request' st =
  PromptRoute.authenticateRequest now request st.
Proof. intros E. by rewrite !authenticateRequest_spec, E. Qed.

(** [updateUserPrompt] on a user whose prompt is not empty *)
Lemma updateUserPrompt_archives newId createdAt prompt old user st :
  List.find (Db.has_id (ChatUser.id user)) (chatUser st) = Some user ->
  ChatUser.currentPrompt user = Some old -> JsString.truthy old = true ->
  existsb (Db.has_history_id newId) (promptHistory st) = false ->
  Db.updateUserPrompt newId createdAt (ChatUser.id user) prompt st =
  (value (Db.set_currentPrompt prompt user),
   mkStore
     (List.map (fun u => if Db.has_id (ChatUser.id user) u
                         then Db.set_currentPrompt prompt u else u) (chatUser st))
     (promptHistory st ++
      [PromptHistory.mk newId (ChatUser.id user) old
         (Db.newVersion (Db.lastVersion (ChatUser.id user) (promptHistory st))) createdAt])
     (console st)).
Proof.
  intros F C T Fresh.
  unfold Db.updateUserPrompt, try_catch, bind, ret.
  rewrite F, C, T. unfold Db.promptHistory_create.
  cbn [PromptHistory.id PromptHistory.userId].
  rewrite Fresh, (find_existsb _ _ _ F). cbn [orb negb].
  unfold Db.chatUser_update. cbn [chatUser promptHistory console]. by rewrite F.
Qed.

(** [updateUserPrompt] on a user without a prompt *)
Lemma updateUserPrompt_first newId createdAt prompt user st :
  List.find (Db.has_id (ChatUser.id user)) (chatUser st) = Some user ->
  from_option JsString.truthy false (ChatUser.currentPrompt user) = false ->
  Db.updateUserPrompt newId createdAt (ChatUser.id user) prompt st =
  (value (Db.set_currentPrompt prompt user),
   mkStore
     (List.map (fun u => if Db.has_id (ChatUser.id user) u
                         then Db.set_currentPrompt prompt u else u) (chatUser st))
     (promptHistory st) (console st)).
Proof.
  intros F C.
  unfold Db.updateUserPrompt, try_catch, bind, ret.
  rewrite F. destruct (ChatUser.currentPrompt user) as [old|]; cbn in C; [rewrite C|].
  all: unfold Db.chatUser_update; by rewrite F.
Qed.



(** X10. A first prompt leaves no history: for an authenticated user who has
    no prompt, or an empty one, an [update] request stores the new prompt
    and adds no history row. *)
Theorem first_prompt_not_archived
    (st : Store) (now : Z) (newId : string) (createdAt : Z) (request : Request)
    (user : ChatUser.t) (data : json) (prompt : string) :
  method request <> "OPTIONS" ->
  PromptRoute.authenticateRequest now request st = (value (Some user), st) ->
  json_body request = Some data ->
  prop "action" data = Some (JString "update") ->
  prop "prompt" data = Some (JString prompt) ->
  from_option JsString.truthy false (ChatUser.currentPrompt user) = false ->
  PromptRoute.action now newId createdAt request st =
    (value (jsonResponse (JObject [("success", JBool true);
                                   ("currentPrompt", JString prompt)]) 200 request),
     mkStore
       (List.map (fun u => if Db.has_id (ChatUser.id user) u
                           then Db.set_currentPrompt prompt u else u) (chatUser st))
       (promptHistory st) (console st)).
Proof.
  intros Mt R B A P C.
  destruct (authenticateRequest_Some _ _ _ _ _ R) as (_ & F & Act).
  unfold PromptRoute.action, bind. apply String.eqb_neq in Mt. rewrite Mt, R, B.
  unfold try_catch, bind.
  destruct data; try done.
  all: rewrite A, P; cbn [is_string]; change (String.eqb "update" "update") with true;
    cbv iota.
  all: cbv beta; by rewrite updateUserPrompt_first.
Qed.

End PromptUpdates.

Section PromptRestore.
Context `{Node}.
Import Server.

(** X11. A history entry of another user cannot be restored: when the
    identifier of a [restore] request names no history row, or a row of
    another user, the answer is the server error 500 and both tables are
    left as they are; only the console gets the two error lines. *)
Theorem restore_refuses_foreign_history
    (st : Store) (now : Z) (newId : string) (createdAt : Z) (request : Request)
    (user : ChatUser.t) (data : json) (historyId : string) :
  method request <> "OPTIONS" ->
  PromptRoute.authenticateRequest now request st = (value (Some user), st) ->
  json_body request = Some data ->
  prop "action" data = Some (JString "restore") ->
  prop "historyId" data = Some (JString historyId) ->
  JsString.truthy historyId = true ->
  (forall h, List.find (Db.has_history_id historyId) (promptHistory st) = Some h ->
             PromptHistory.userId h <> ChatUser.id user) ->
  PromptRoute.action now newId createdAt request st =
  (value (jsonResponse (error "服务器错误") 500 request),
   mkStore (chatUser st) (promptHistory st)
     (console st ++ ["Error restoring prompt from history:"; "Prompt API error:"])).
Proof.
  intros Mt R B A P T Foreign.
  unfold PromptRoute.action, bind. apply String.eqb_neq in Mt. rewrite Mt, R, B.
  unfold try_catch, bind.
  destruct data; try done.
  all: rewrite A, P; cbn [is_string Json.truthy]; rewrite T.
  all: change (String.eqb "restore" "update") with false;
    change (String.eqb "restore" "restore") with true; cbn [negb]; cbv iota beta.
  all: unfold Db.restorePromptFromHistory, Db.promptHistory_findUnique, try_catch, bind,
         throw, console_error, ret; cbn [as_string].
  all: destruct (List.find _ _) as [h|] eqn:F;
    [specialize (Foreign h eq_refl); apply String.eqb_neq in Foreign; rewrite Foreign|].
  all: cbn [chatUser promptHistory console]; by rewrite <- app_assoc.
Qed.

(** X12. Restoring is updating with the stored text: for an authenticated
    user, a [restore] request that names a history row of this user does
    what an [update] request with the content of that row does, history row
    for the replaced prompt included, and gets the same answer. *)
Theorem restore_is_update_with_content
    (st : Store) (now : Z) (newId : string) (createdAt : Z) (request : Request)
    (user : ChatUser.t) (data : json) (historyId : string) (h : PromptHistory.t) :
  method request <> "OPTIONS" ->
  PromptRoute.authenticateRequest now request st = (value (Some user), st) ->
  json_body request = Some data ->
  prop "action" data = Some (JString "restore") ->
  prop "historyId" data = Some (JString historyId) ->
  JsString.truthy historyId = true ->
  List.find (Db.has_history_id historyId) (promptHistory st) = Some h ->
  PromptHistory.userId h = ChatUser.id user ->
  existsb (Db.has_history_id newId) (promptHistory st) = false ->
  let update :=
    mkRequest (method request) (origin request) (authorization request)
      (action_param request)
      (Some (JObject [("action", JString "update");
                      ("prompt", JString (PromptHistory.content h))])) in
  PromptRoute.action now newId createdAt request st =
  PromptRoute.action now newId createdAt update st /\
  exists st',
    PromptRoute.action now newId createdAt request st =
    (value (jsonResponse (JObject [("success", JBool true);
                                   ("currentPrompt", JString (PromptHistory.content h))])
              200 request), st') /\
    In h (promptHistory st').
Proof.
  intros Mt R B A P T F U Fresh update.
  destruct (authenticateRequest_Some _ _ _ _ _ R) as (_ & Fu & Act).
  assert (PromptRoute.authenticateRequest now update st = (value (Some user), st)) as R'
    by (by rewrite (authenticateRequest_header now request update st eq_refl)).
  assert (exists st',
    Db.updateUserPrompt newId createdAt (ChatUser.id user) (PromptHistory.content h) st =
    (value (Db.set_currentPrompt (PromptHistory.content h) user), st') /\
    In h (promptHistory st')) as (st' & Up & I).
  { destruct (ChatUser.currentPrompt user) as [old|] eqn:C;
      [destruct (JsString.truthy old) eqn:To|].
    - eexists. split; [by apply (updateUserPrompt_archives _ _ _ old)|].
      cbn [promptHistory]. apply in_or_app. left. by apply find_some in F as [? _].
    - eexists. split; [apply updateUserPrompt_first; [done|by rewrite C]|].
      by apply find_some in F as [? _].
    - eexists. split; [apply updateUserPrompt_first; [done|by rewrite C]|].
      by apply find_some in F as [? _]. }
  assert (PromptRoute.action now newId createdAt request st =
          (value (jsonResponse (JObject [("success", JBool true);
                    ("currentPrompt", JString (PromptHistory.content h))]) 200 request),
           st')) as E.
  { unfold PromptRoute.action, bind. apply String.eqb_neq in Mt. rewrite Mt, R, B.
    unfold try_catch, bind.
    destruct data; try done.
    all: rewrite A, P; cbn [is_string Json.truthy]; rewrite T.
    all: change (String.eqb "restore" "update") with false;
      change (String.eqb "restore" "restore") with true; cbn [negb]; cbv iota beta.
    all: unfold Db.restorePromptFromHistory, Db.promptHistory_findUnique, try_catch, bind;
      cbn [as_string].
    all: rewrite F; apply String.eqb_eq in U; rewrite U, Up; reflexivity. }
  split; [|by eauto].
  rewrite E. unfold PromptRoute.action, bind.
  change (method update) with (method request).
  apply String.eqb_neq in Mt. rewrite Mt, R'.
  change (json_body update) with
    (Some (JObject [("action", JString "update");
                    ("prompt", JString (PromptHistory.content h))])).
  unfold try_catch, bind. cbv iota.
  change (prop "action" _) with (Some (JString "update")).
  change (prop "prompt" _) with (Some (JString (PromptHistory.content h))).
  cbn [is_string]. change (String.eqb "update" "update") with true. cbv iota beta.
  rewrite Up. reflexivity.
Qed.

End PromptRestore.

Section HistoryVersions.
Context `{Node}.
Import Server.

Lemma insert_desc_perm h : forall l, Permutation (Db.insert_desc h l) (h :: l).
Proof.
  induction l as [|x l IH]; cbn; [done|].
  destruct (_ <=? _); [done|]. rewrite IH. apply perm_swap.
Qed.

Lemma orderBy_perm rows : Permutation (Db.orderBy_version_desc rows) rows.
Proof.
  induction rows as [|h rows IH]; cbn; [done|].
  rewrite insert_desc_perm. by constructor.
Qed.

Lemma insert_desc_sorted h : forall l,
  StronglySorted (fun a b => PromptHistory.version b <= PromptHistory.version a) l ->
  StronglySorted (fun a b => PromptHistory.version b <= PromptHistory.version a)
    (Db.insert_desc h l).
Proof.
  induction l as [|x l IH]; cbn; intros S.
  - repeat constructor.
  - apply StronglySorted_inv in S as [S Hx].
    destruct (Z.leb_spec (PromptHistory.version x) (PromptHistory.version h)).
    + constructor; [by constructor|]. constructor; [done|].
      eapply Forall_impl; [exact Hx|]. cbn. intros; lia.
    + constructor; [by apply IH|].
      eapply Permutation_Forall; [symmetry; apply insert_desc_perm|].
      constructor; [lia|done].
Qed.

Lemma orderBy_sorted rows :
  StronglySorted (fun a b => PromptHistory.version b <= PromptHistory.version a)
    (Db.orderBy_version_desc rows).
Proof.
  induction rows as [|h rows IH]; cbn; [constructor|]. by apply insert_desc_sorted.
Qed.

Lemma sorted_strict (l : list PromptHistory.t) :
  StronglySorted (fun a b => PromptHistory.version b <= PromptHistory.version a) l ->
  NoDup (List.map PromptHistory.version l) ->
  StronglySorted (fun a b => PromptHistory.version b < PromptHistory.version a) l.
Proof.
  induction l as [|x l IH]; cbn; intros S N; [constructor|].
  apply StronglySorted_inv in S as [S Hx]. apply NoDup_cons in N as [Nx N].
  constructor; [by apply IH|].
  rewrite Forall_forall in Hx |- *. intros y I.
  specialize (Hx y I).
  assert (PromptHistory.version y <> PromptHistory.version x); [|lia].
  intros E. apply Nx. rewrite <- E. apply list_elem_of_In, in_map.
  by apply list_elem_of_In.
Qed.

(** what [updateUserPrompt] does to the table of histories *)
Lemma updateUserPrompt_history newId createdAt userId prompt st :
  let st' := snd (Db.updateUserPrompt newId createdAt userId prompt st) in
  promptHistory st' = promptHistory st \/
  exists old,
    promptHistory st' =
    promptHistory st ++
    [PromptHistory.mk newId userId old
       (Db.newVersion (Db.lastVersion userId (promptHistory st))) createdAt].
Proof.
  cbv zeta.
  unfold Db.updateUserPrompt, try_catch, bind, ret, throw, console_error,
    Db.promptHistory_create, Db.chatUser_update. cbv beta.
  destruct (List.find (Db.has_id userId) (chatUser st)) as [user|] eqn:F;
    [|rewrite F; by left].
  destruct (ChatUser.currentPrompt user) as [old|]; [|rewrite F; by left].
  destruct (JsString.truthy old); [|rewrite F; by left].
  cbn [PromptHistory.id PromptHistory.userId].
  destruct (_ || _); [by left|].
  cbn [chatUser promptHistory]. rewrite F. right. by exists old.
Qed.

Lemma action_history now newId createdAt request st c st' :
  PromptRoute.action now newId createdAt request st = (c, st') ->
  promptHistory st' = promptHistory st \/
  exists userId old,
    promptHistory st' =
    promptHistory st ++
    [PromptHistory.mk newId userId old
       (Db.newVersion (Db.lastVersion userId (promptHistory st))) createdAt].
Proof.
  unfold PromptRoute.action.
  destruct (String.eqb _ _); [intros [= <- <-]; by left|].
  unfold bind at 1. rewrite authenticateRequest_spec.
  destruct (AuthRoute.bearer _); [|intros [= <- <-]; by left].
  destruct (AuthRoute.parseToken _ _) as [payload|]; [|intros [= <- <-]; by left].
  destruct (Json.truthy _); [|intros [= <- <-]; by left].
  destruct (as_string _); [|intros [= <- <-]; by left].
  destruct (List.find _ _) as [user|]; [|intros [= <- <-]; by left].
  destruct (ChatUser.isActive user); [|intros [= <- <-]; by left].
  assert (forall prompt u st1,
    Db.updateUserPrompt newId createdAt (ChatUser.id user) prompt st = (u, st1) ->
    promptHistory st1 = promptHistory st \/
    exists userId old,
      promptHistory st1 =
      promptHistory st ++
      [PromptHistory.mk newId userId old
         (Db.newVersion (Db.lastVersion userId (promptHistory st))) createdAt]) as Up.
  { intros prompt u st1 E.
    pose proof (updateUserPrompt_history newId createdAt (ChatUser.id user) prompt st) as U.
    cbv zeta in U. rewrite E in U. cbn [snd] in U.
    destruct U as [U|[old U]]; [by left|right; by eauto]. }
  unfold try_catch, bind, ret, throw, console_error.
  destruct (json_body request) as [body|]; [|intros [= <- <-]; by left].
  destruct body; try (intros [= <- <-]; by left).
  cbv zeta.
  destruct (is_string "update" _).
  { destruct (prop "prompt" _) as [[| | |prompt| |]|]; try (intros [= <- <-]; by left).
    destruct (Db.updateUserPrompt _ _ _ _ st) as [[u|] st1] eqn:U;
      intros [= <- <-]; exact (Up _ _ _ U). }
  destruct (is_string "restore" _); [|intros [= <- <-]; by left].
  destruct (negb _); [intros [= <- <-]; by left|].
  unfold Db.restorePromptFromHistory, Db.promptHistory_findUnique, try_catch, bind,
    throw, console_error, ret.
  destruct (as_string _); [|intros [= <- <-]; by left].
  destruct (List.find _ _) as [h|]; [|intros [= <- <-]; by left].
  destruct (String.eqb _ _); [|intros [= <- <-]; by left].
  destruct (Db.updateUserPrompt _ _ _ _ st) as [[u|] st1] eqn:U;
    intros [= <- <-]; exact (Up _ _ _ U).
Qed.

Lemma versions_distinct_add rows newId userId old createdAt :
  Db.versions_distinct rows ->
  Db.versions_distinct
    (rows ++ [PromptHistory.mk newId userId old
                (Db.newVersion (Db.lastVersion userId rows)) createdAt]).
Proof.
  intros D u. rewrite List.filter_app, List.map_app. cbn [List.filter].
  unfold Db.of_user at 2. cbn [PromptHistory.userId].
  destruct (String.eqb_spec userId u) as [<-|]; [|by rewrite app_nil_r].
  cbn [List.map PromptHistory.version].
  apply NoDup_app. split; [apply D|]. split; [|apply NoDup_singleton].
  intros v [h [<- [I U]%filter_In]]%list_elem_of_In%in_map_iff.
  apply String.eqb_eq in U.
  pose proof (newVersion_above userId rows h I U). rewrite list_elem_of_singleton. lia.
Qed.

(** X13. Versions stay distinct and the history reads newest first: if the
    history rows of each user have pairwise different versions, they still
    have after any request to the prompt route; and then the [history]
    read of an authenticated user lists exactly the rows of this user, by
    strictly decreasing version. *)
Theorem history_versions_distinct_and_listed_newest_first
    (st : Store) (now : Z) (newId : string) (createdAt : Z) (request : Request) :
  Db.versions_distinct (promptHistory st) ->
  Db.versions_distinct
    (promptHistory (snd (PromptRoute.action now newId createdAt request st))) /\
  (forall user,
      method request <> "OPTIONS" ->
      action_param request = Some "history" ->
      PromptRoute.authenticateRequest now request st = (value (Some user), st) ->
      exists rows,
        PromptRoute.loader now request st =
        (value (jsonResponse
                  (JObject [("history", JArray (List.map PromptRoute.history_entry rows))])
                  200 request), st) /\
        Permutation rows
          (List.filter (Db.of_user (ChatUser.id user)) (promptHistory st)) /\
        StronglySorted
          (fun a b => PromptHistory.version b < PromptHistory.version a) rows).
Proof.
  intros D. split.
  - destruct (PromptRoute.action now newId createdAt request st) as [c st'] eqn:E.
    cbn [snd].
    destruct (action_history _ _ _ _ _ _ _ E) as [->|(u & old & ->)];
      [done|by apply versions_distinct_add].
  - intros user Mt%String.eqb_neq Ap R.
    eexists. split; [|split].
    + unfold PromptRoute.loader, bind. rewrite Mt, R, Ap, bool_decide_eq_true_2 by done.
      unfold Db.getPromptHistory, ret. reflexivity.
    + apply orderBy_perm.
    + apply sorted_strict; [apply orderBy_sorted|].
      rewrite (Permutation_map PromptHistory.version (orderBy_perm _)).
      apply (D (ChatUser.id user)).
Qed.

End HistoryVersions.

(** * The login state of the client *)

Section UserFacts.
Context `{Platform}.
(** [String(s)] and ['Bearer ' + s] leave a string as it is; [String(undefined)]
    is the text [undefined] *)
Hypothesis ToString_string : forall s, ToString (Some (JString s)) = s.
Hypothesis ToString_undefined : ToString None = "undefined".

(** [saveUserData] on a response that holds strings *)
Lemma saveUserData_strings st data userId username token :
  prop "userId" data = Some (JString userId) ->
  prop "username" data = Some (JString username) ->
  prop "token" data = Some (JString token) ->
  exists storage prompt,
    User.saveUserData data st =
    Some (User.mkState (Some (JString userId)) (Some (JString username))
            (Some (JString token)) prompt storage (User.userButton st)) /\
    storage !! "shopChatUserId" = Some userId /\
    storage !! "shopChatUsername" = Some username /\
    storage !! "shopChatToken" = Some token.
Proof using ToString_string.
  intros U N T. unfold User.saveUserData.
  destruct data; try done.
  rewrite U, N, T, !ToString_string.
  eexists _, _. split; [reflexivity|].
  destruct (Json.truthy (prop "currentPrompt" _)).
  all: by repeat (rewrite ?lookup_insert_eq, ?lookup_insert_ne by done).
Qed.

(** X14. A login survives a reload: after [saveUserData] on a response that
    holds strings for the user identifier, the name and the token (the first
    and the last not empty), the user is logged in and the header is [Bearer
    <token>]; a page loaded afterwards on the same [localStorage] reads the
    same identifier, name and token back in [User.init], and is logged in
    with the same header. *)
Theorem login_survives_reload
    (st : User.State) (data : json) (userId username token : string)
    (button : option User.Button) :
  prop "userId" data = Some (JString userId) ->
  prop "username" data = Some (JString username) ->
  prop "token" data = Some (JString token) ->
  JsString.truthy userId = true -> JsString.truthy token = true ->
  exists st',
    User.saveUserData data st = Some st' /\
    User.isLoggedIn st' = true /\
    User.getAuthHeader st' = Some ("Bearer " +:+ token) /\
    let reloaded := User.init (User.loaded (User.localStorage st') button) in
    User.userId reloaded = Some (JString userId) /\
    User.username reloaded = Some (JString username) /\
    User.token reloaded = Some (JString token) /\
    User.isLoggedIn reloaded = true /\
    User.getAuthHeader reloaded = Some ("Bearer " +:+ token).
Proof using ToString_string.
  intros U N T Tu Tt.
  destruct (saveUserData_strings st data userId username token U N T)
    as (storage & prompt & -> & Su & Sn & St).
  eexists. split; [reflexivity|].
  unfold User.isLoggedIn, User.getAuthHeader, User.init, User.getItem;
    cbn [User.userId User.username User.token User.localStorage User.loaded Json.truthy].
  rewrite Su, Sn, St. cbn [Json.truthy]. by rewrite Tu, Tt, ToString_string.
Qed.

(** X15. A response without a token logs in after a reload: [saveUserData]
    stores a missing field as the text [undefined]; on a response that
    holds neither identifier nor token the user is not logged in, but the
    page loaded afterwards on the same [localStorage] is, with the header
    [Bearer undefined]. *)
Theorem missing_token_logs_in_after_reload
    (st : User.State) (fields : list (string * json)) (button : option User.Button) :
  prop "userId" (JObject fields) = None ->
  prop "token" (JObject fields) = None ->
  exists st',
    User.saveUserData (JObject fields) st = Some st' /\
    User.isLoggedIn st' = false /\
    let reloaded := User.init (User.loaded (User.localStorage st') button) in
    User.isLoggedIn reloaded = true /\
    User.getAuthHeader reloaded = Some "Bearer undefined".
Proof using ToString_string ToString_undefined.
  intros U T. unfold User.saveUserData.
  eexists; split; [reflexivity|].
  rewrite U, T, !ToString_undefined.
  unfold User.isLoggedIn, User.getAuthHeader, User.init, User.getItem;
    cbn [User.userId User.username User.token User.localStorage User.loaded Json.truthy].
  destruct (Json.truthy (prop "currentPrompt" _)).
  all: repeat (rewrite ?lookup_insert_eq, ?lookup_insert_ne by done).
  all: cbn [Json.truthy JsString.truthy andb]; by rewrite ToString_string.
Qed.

(** X16. Logging out clears the login: after [logout] the user is not
    logged in and there is no authorization header, the four keys of the
    login are gone from [localStorage] and every other key is as before, the
    user button, if the page has one, has lost its class [logged-in], and a
    page loaded afterwards is not logged in either. *)
Theorem logout_clears_login (st : User.State) (button : option User.Button) :
  let st' := User.logout st in
  User.isLoggedIn st' = false /\
  User.getAuthHeader st' = None /\
  (forall key,
      User.localStorage st' !! key =
      if bool_decide (key ∈ ["shopChatUserId"; "shopChatUsername"; "shopChatToken";
                             "shopChatCurrentPrompt"])
      then None else User.localStorage st !! key) /\
  (forall b, User.userButton st' = Some b -> User.logged_in b = false) /\
  (User.userButton st' = None <-> User.userButton st = None) /\
  User.isLoggedIn (User.init (User.loaded (User.localStorage st') button)) = false.
Proof.
  cbv zeta. unfold User.logout, User.updateUserButton.
  cbn [User.userButton].
  assert (forall b : option User.Button,
    let s := User.mkState (Some JNull) (Some JNull) (Some JNull) (Some JNull)
               (delete "shopChatCurrentPrompt"
                  (delete "shopChatToken"
                     (delete "shopChatUsername"
                        (delete "shopChatUserId" (User.localStorage st))))) b in
    User.isLoggedIn s = false /\ User.getAuthHeader s = None /\
    (forall key,
      User.localStorage s !! key =
      if bool_decide (key ∈ ["shopChatUserId"; "shopChatUsername"; "shopChatToken";
                             "shopChatCurrentPrompt"])
      then None else User.localStorage st !! key) /\
    User.isLoggedIn (User.init (User.loaded (User.localStorage s) button)) = false) as K.
  { intros b s. repeat split.
    - intros key. cbn [s User.localStorage].
      destruct (decide (key = "shopChatCurrentPrompt")) as [->|N1];
        [by rewrite lookup_delete_eq|rewrite lookup_delete_ne by done].
      destruct (decide (key = "shopChatToken")) as [->|N2];
        [by rewrite lookup_delete_eq|rewrite lookup_delete_ne by done].
      destruct (decide (key = "shopChatUsername")) as [->|N3];
        [by rewrite lookup_delete_eq|rewrite lookup_delete_ne by done].
      destruct (decide (key = "shopChatUserId")) as [->|N4];
        [by rewrite lookup_delete_eq|rewrite lookup_delete_ne by done].
      rewrite bool_decide_eq_false_2; [done|].
      rewrite !elem_of_cons, elem_of_nil. intuition congruence.
    - unfold User.isLoggedIn, User.init, User.getItem.
      cbn [s User.userId User.token User.localStorage User.loaded].
      by rewrite lookup_delete_ne, lookup_delete_ne, lookup_delete_ne, lookup_delete_eq. }
  destruct (User.userButton st) as [b0|] eqn:B.
  - destruct (K (Some (User.mkButton false "ÁôªÂΩï"))) as (K1 & K2 & K3 & K4).
    change (User.isLoggedIn (User.mkState (Some JNull) (Some JNull) (Some JNull)
             (Some JNull) _ (Some b0))) with false. cbv iota.
    repeat split; try done.
    + by intros b [= <-].
  - destruct (K None) as (K1 & K2 & K3 & K4). repeat split; done.
Qed.

End UserFacts.

Section EndToEnd.
Context `{Node} `{Platform}.
Hypothesis ToString_string : forall s, ToString (Some (JString s)) = s.
Import Server.

(** X17. Registering from the chat client authenticates the client: the
    body [User.register] posts, with well-formed credentials and a free user
    name, is answered 201; [User.register] stores the answer; a page loaded
    afterwards is logged in, and at any time up to seven days after the
    registration the [check] of the server accepts the header
    [getAuthHeader] builds on that page and names the registered user. *)
Theorem registered_client_is_authenticated
    (st : Store) (client : User.State) (now : Z)
    (newId shopId username password : string) (o : option string)
    (button : option User.Button) :
  JsString.truthy shopId = true ->
  (2 <= utf16_length username <= 50)%nat ->
  (4 <= utf16_length password)%nat ->
  JsString.truthy newId = true ->
  existsb (Db.has_id newId) (chatUser st) = false ->
  List.find (Db.same_user shopId username) (chatUser st) = None ->
  let register := mkRequest "POST" o None None
                    (Some (User.credentials "register" username password shopId)) in
  exists response st' client',
    AuthRoute.action now newId register st = (value response, st') /\
    status response = 201 /\
    User.receive true (body response) client = Some client' /\
    let reloaded := User.init (User.loaded (User.localStorage client') button) in
    User.isLoggedIn reloaded = true /\
    User.userId reloaded = Some (JString newId) /\
    forall later, later <= now + ChatAuth.sevenDays ->
      let check := mkRequest "GET" o (User.getAuthHeader reloaded) (Some "check") None in
      AuthRoute.loader later check st' =
      (value (jsonResponse
                (JObject [("authenticated", JBool true); ("userId", JString newId);
                          ("username", JString username); ("currentPrompt", JNull)])
                200 check), st').
Proof using ToString_string.
  intros Ts Lu Lp Ti Fresh Free register.
  set (token := ChatAuth.generateToken newId now).
  assert (JsString.truthy token = true) as Tt.
  { unfold token, ChatAuth.generateToken.
    cbn [JSON.stringify List.map JSON.join fst snd]. by rewrite append_cons. }
  set (data := JObject [("success", JBool true); ("userId", JString newId);
                        ("username", JString username); ("token", JString token)]).
  destruct (saveUserData_strings ToString_string client data newId username token)
    as (storage & prompt & Sv & Su & Sn & St'); try done.
  eexists (jsonResponse data 201 register), _, _.
  split; [by apply action_register_fresh|].
  split; [done|]. split; [exact Sv|].
  unfold User.isLoggedIn, User.getAuthHeader, User.init, User.getItem;
    cbn [User.userId User.username User.token User.localStorage User.loaded Json.truthy].
  rewrite Su, St'. cbn [Json.truthy]. rewrite Ti, Tt, ToString_string.
  split; [done|]. split; [done|].
  intros later Le.
  apply (loader_check_token _ now later o
           (ChatUser.mk newId shopId username (sha256_hex password) None true));
    [|done|done].
  by apply find_registered.
Qed.

End EndToEnd.

Section PromptRoundTrip.
Context `{Node} `{Platform}.
Hypothesis ToString_string : forall s, ToString (Some (JString s)) = s.
Import Server.

(** an [update] request of an authenticated user is answered with the new
    prompt, which is then the prompt of the user's row *)
Lemma action_update_stores now newId createdAt request st user prompt :
  method request <> "OPTIONS" ->
  PromptRoute.authenticateRequest now request st = (value (Some user), st) ->
  json_body request = Some (User.savePrompt_body prompt) ->
  existsb (Db.has_history_id newId) (promptHistory st) = false ->
  exists st',
    PromptRoute.action now newId createdAt request st =
    (value (jsonResponse (JObject [("success", JBool true);
                                   ("currentPrompt", JString prompt)]) 200 request), st') /\
    List.find (Db.has_id (ChatUser.id user)) (chatUser st') =
    Some (Db.set_currentPrompt prompt user).
Proof.
  intros Mt R B Fresh.
  destruct (authenticateRequest_Some _ _ _ _ _ R) as (_ & F & Act).
  unfold PromptRoute.action, bind. apply String.eqb_neq in Mt. rewrite Mt, R, B.
  unfold try_catch, bind, User.savePrompt_body.
  change (is_string "update" _) with true. cbv iota.
  change (prop "prompt" _) with (Some (JString prompt)). cbv iota beta.
  destruct (ChatUser.currentPrompt user) as [old|] eqn:C.
  - destruct (JsString.truthy old) eqn:T.
    + rewrite (updateUserPrompt_archives _ _ _ old) by done.
      eexists. split; [reflexivity|]. by apply find_update.
    + rewrite updateUserPrompt_first by (by rewrite ?C; cbn; rewrite ?T).
      eexists. split; [reflexivity|]. by apply find_update.
  - rewrite updateUserPrompt_first by (by rewrite ?C).
    eexists. split; [reflexivity|]. by apply find_update.
Qed.

(** X24. A saved prompt is the prompt of the server: when the server
    authenticates the header [getAuthHeader] builds, the request
    [Settings.savePrompt] posts is answered 200, the prompt is then the
    current prompt of the user's row, and once the response has arrived it
    is the current prompt of the chat client and of a page loaded afterwards;
    the login of the client is as it was. *)
Theorem saved_prompt_agrees_with_server
    (st : Store) (client : User.State) (now : Z) (newId : string) (createdAt : Z)
    (o : option string) (user : ChatUser.t) (prompt : string)
    (button : option User.Button) :
  let request := mkRequest "POST" o (User.getAuthHeader client) None
                   (Some (User.savePrompt_body prompt)) in
  PromptRoute.authenticateRequest now request st = (value (Some user), st) ->
  existsb (Db.has_history_id newId) (promptHistory st) = false ->
  exists response st' client',
    PromptRoute.action now newId createdAt request st = (value response, st') /\
    status response = 200 /\
    ChatUser.currentPrompt <$> List.find (Db.has_id (ChatUser.id user)) (chatUser st') =
      Some (Some prompt) /\
    User.promptReceived true (body response) client = Some client' /\
    User.currentPrompt client' = Some (JString prompt) /\
    User.currentPrompt (User.init (User.loaded (User.localStorage client') button)) =
      Some (JString prompt) /\
    User.isLoggedIn client' = User.isLoggedIn client /\
    User.getAuthHeader client' = User.getAuthHeader client.
Proof using ToString_string.
  intros request R Fresh.
  destruct (action_update_stores now newId createdAt request st user prompt)
    as (st' & -> & F); [done..|].
  eexists _, st', _. split; [reflexivity|]. split; [reflexivity|].
  rewrite F. split; [reflexivity|].
  cbn [body jsonResponse User.promptReceived].
  change (prop "currentPrompt" _) with (Some (JString prompt)).
  split; [reflexivity|]. split; [reflexivity|].
  split; [|done].
  unfold User.init, User.getItem. cbn [User.currentPrompt User.localStorage User.loaded].
  rewrite lookup_insert_eq, ToString_string. cbn [Json.truthy]. by destruct prompt.
Qed.

End PromptRoundTrip.

(** * More on the chat client *)

Section PatternFacts.

Lemma strip_prefix_Some p : forall s t,
  JsString.strip_prefix p s = Some t -> s = p +:+ t.
Proof.
  induction p as [|a p IH]; intros s t; cbn [JsString.strip_prefix].
  - by intros [= ->].
  - destruct s as [|b s]; [done|].
    destruct (Ascii.eqb_spec a b) as [<-|]; [|done].
    intros E. rewrite append_cons. f_equal. by apply IH.
Qed.

Lemma span_spec p : forall s l r,
  Message.span p s = (l, r) ->
  s = l +:+ r /\ JsString.all_chars p l = true /\
  match r with
  | EmptyString => True
  | String a _ => p a = false
  end.
Proof.
  induction s as [|a s IH]; intros l r; cbn [Message.span].
  - by intros [= <- <-].
  - destruct (p a) eqn:Pa.
    + destruct (Message.span p s) as [l' r'] eqn:E. intros [= <- <-].
      destruct (IH l' r' eq_refl) as (-> & A & R).
      rewrite append_cons. cbn [JsString.all_chars]. by rewrite Pa, A.
    + intros [= <- <-]. by rewrite append_nil_l.
Qed.

Lemma span_dot_spec : forall s l r,
  Message.span_dot s = (l, r) ->
  s = l +:+ r /\ JsString.all_chars Message.is_dot l = true /\
  match r with
  | EmptyString => True
  | String a _ => Message.is_dot a = false \/ LineSeparator.starts r = true
  end.
Proof.
  induction s as [|a s IH]; intros l r; cbn [Message.span_dot].
  - by intros [= <- <-].
  - destruct (Message.is_dot a) eqn:Pa; cbn [andb].
    + destruct (LineSeparator.starts (String a s)) eqn:St; cbn [negb].
      * intros [= <- <-]. rewrite append_nil_l. auto.
      * destruct (Message.span_dot s) as [l' r'] eqn:E. intros [= <- <-].
        destruct (IH l' r' eq_refl) as (-> & A & R).
        rewrite append_cons. cbn [JsString.all_chars]. by rewrite Pa, A.
    + intros [= <- <-]. rewrite append_nil_l. auto.
Qed.

Lemma match_here_sound s name args :
  Message.match_here s = Some (name, args) ->
  exists post,
    s = "Calling tool: " +:+ name +:+ " with arguments: " +:+ args +:+ post /\
    name <> EmptyString /\ JsString.all_chars Message.is_word name = true /\
    args <> EmptyString /\ JsString.all_chars Message.is_dot args = true /\
    match post with
    | EmptyString => True
    | String a _ => Message.is_dot a = false \/ LineSeparator.starts post = true
    end.
Proof.
  unfold Message.match_here.
  destruct (JsString.strip_prefix "Calling tool: " s) as [s1|] eqn:P1; [|done].
  destruct (Message.span Message.is_word s1) as [n s2] eqn:S1.
  destruct (JsString.truthy n) eqn:Tn; [|done].
  destruct (JsString.strip_prefix " with arguments: " s2) as [s3|] eqn:P2; [|done].
  destruct (Message.span_dot s3) as [a post] eqn:S2.
  destruct (JsString.truthy a) eqn:Ta; [|done].
  intros [= <- <-]. exists post.
  apply strip_prefix_Some in P1 as ->. apply strip_prefix_Some in P2 as ->.
  apply span_spec in S1 as (-> & W & _). apply span_dot_spec in S2 as (-> & D & R).
  repeat split; try done.
  - by destruct n.
  - by destruct a.
Qed.

Lemma startsWith_app p : forall s t,
  JsString.startsWith p s = true -> JsString.startsWith p (s +:+ t) = true.
Proof.
  induction p as [|a p IH]; intros s t; cbn [JsString.startsWith]; [done|].
  destruct s as [|b s]; [done|]. rewrite append_cons.
  intros [-> E]%andb_true_iff. by rewrite (IH _ t E).
Qed.

Lemma occurs_app_l s t :
  LineSeparator.occurs (s +:+ t) = false -> LineSeparator.occurs s = false.
Proof.
  induction s as [|a s IH]; [done|]. rewrite append_cons. cbn [LineSeparator.occurs].
  rewrite <- append_cons.
  intros [[L P]%orb_false_iff O]%orb_false_iff. rewrite (IH O), orb_false_r.
  apply orb_false_iff. split; apply not_true_is_false; intros E.
  - by rewrite (startsWith_app _ _ t E) in L.
  - by rewrite (startsWith_app _ _ t E) in P.
Qed.

Lemma occurs_app_r s t :
  LineSeparator.occurs (s +:+ t) = false -> LineSeparator.occurs t = false.
Proof.
  induction s as [|a s IH]; [by rewrite append_nil_l|]. rewrite append_cons.
  cbn [LineSeparator.occurs]. by intros [_ O]%orb_false_iff; apply IH.
Qed.

(** X18. What the tool pattern extracts: when the pattern of [addToolUse]
    matches a message that holds no line separator U+2028 or U+2029, the
    message holds, somewhere, the text [Calling tool: ] followed by the
    name, [ with arguments: ] and the arguments; the name is a non-empty run
    of word characters; the arguments are not empty, hold no line terminator
    and run up to the end of the message or of its line. *)
Theorem tool_pattern_sound (toolMessage name args : string) :
  LineSeparator.occurs toolMessage = false ->
  Message.match_pattern toolMessage = Some (name, args) ->
  exists pre post,
    toolMessage =
      pre +:+ "Calling tool: " +:+ name +:+ " with arguments: " +:+ args +:+ post /\
    name <> EmptyString /\ JsString.all_chars Message.is_word name = true /\
    args <> EmptyString /\ JsString.all_chars Message.is_dot args = true /\
    LineSeparator.occurs args = false /\
    match post with
    | EmptyString => True
    | String a _ => a = JsString.nl \/ a = JsString.cr
    end.
Proof.
  intros O M.
  assert (exists pre post,
    toolMessage =
      pre +:+ "Calling tool: " +:+ name +:+ " with arguments: " +:+ args +:+ post /\
    name <> EmptyString /\ JsString.all_chars Message.is_word name = true /\
    args <> EmptyString /\ JsString.all_chars Message.is_dot args = true /\
    match post with
    | EmptyString => True
    | String a _ => Message.is_dot a = false \/ LineSeparator.starts post = true
    end) as (pre & post & E & Hn & W & Ha & D & R).
  { clear O. revert M.
    induction toolMessage as [|c s IH]; cbn [Message.match_pattern].
    - change (Message.match_here EmptyString) with (@None (string * string)). done.
    - destruct (Message.match_here (String c s)) as [[n a]|] eqn:M.
      + intros [= <- <-].
        destruct (match_here_sound _ _ _ M) as (post & E & Hn & W & Ha & D & R).
        exists EmptyString, post. by rewrite append_nil_l.
      + intros E. destruct (IH E) as (pre & post & -> & H).
        exists (String c pre), post. by rewrite append_cons. }
  exists pre, post. rewrite E in O.
  do 4 apply occurs_app_r in O.
  repeat split; try done.
  - by apply occurs_app_l in O.
  - apply occurs_app_r in O.
    destruct post as [|x post]; [done|]. destruct R as [R|R].
    + unfold Message.is_dot in R.
      apply negb_false_iff, orb_true_iff in R as [R|R]; apply Ascii.eqb_eq in R; auto.
    + cbn [LineSeparator.occurs] in O. unfold LineSeparator.starts in R.
      apply orb_false_iff in O as [O _]. congruence.
Qed.

End PatternFacts.

Section Chunks.
Context `{Platform}.
Import API.



End Chunks.

Section TypingIndicators.
Context `{Platform}.
Import API.

Lemma filter_ext_Forall {A} (f g : A -> bool) (P : A -> Prop) l :
  Forall P l -> (forall x, P x -> f x = g x) -> List.filter f l = List.filter g l.
Proof.
  induction 1 as [|x l Px F IH]; intros E; cbn; [done|].
  by rewrite (E x Px), IH.
Qed.

(** a change of elements that keeps the classes keeps the indicators *)
Lemma is_indicator_alter f i w id :
  (forall e, classList (f e) = classList e) ->
  Typing.is_indicator (set_elements (alter f i) w) id = Typing.is_indicator w id.
Proof.
  intros C. unfold Typing.is_indicator, set_elements. cbn [elements].
  destruct (decide (i = id)) as [<-|N].
  - rewrite list_lookup_alter_eq. destruct (elements w !! i) as [e|]; [|done].
    cbn. unfold has_class. by rewrite C.
  - by rewrite list_lookup_alter_ne.
Qed.

Lemma shown_alter f i w :
  (forall e, classList (f e) = classList e) ->
  Typing.shown (set_elements (alter f i) w) = Typing.shown w /\
  (Typing.attached w -> Typing.attached (set_elements (alter f i) w)).
Proof.
  intros C. split.
  - unfold Typing.shown. f_equal. cbn [messagesContainer set_elements].
    apply filter_ext. intros id. by apply is_indicator_alter.
  - unfold Typing.attached, set_elements. cbn [elements messagesContainer].
    by rewrite length_alter.
Qed.

Lemma shown_appendChild e w :
  Typing.attached w ->
  let w' := fst (appendChild e w) in
  Typing.shown w' =
    (Typing.shown w + if has_class "shop-ai-typing-indicator" e then 1 else 0)%nat /\
  Typing.attached w'.
Proof.
  intros A. unfold appendChild, Typing.shown, Typing.attached.
  cbn [fst elements messagesContainer set_elements set_messagesContainer]. split.
  - rewrite List.filter_app, length_app. f_equal.
    + f_equal. apply (filter_ext_Forall _ _ _ _ A). intros id L.
      unfold Typing.is_indicator, set_messagesContainer, set_elements. cbn [elements].
      by rewrite lookup_app_l.
    + cbn [List.filter]. unfold Typing.is_indicator at 1.
      unfold set_messagesContainer, set_elements. cbn [elements].
      rewrite lookup_app_r, Nat.sub_diag by done. cbn.
      by destruct (has_class _ e).
  - rewrite length_app. cbn [length]. apply Forall_app. split.
    + eapply Forall_impl; [exact A|]. cbn. intros; lia.
    + repeat constructor. lia.
Qed.

Lemma filter_remove_first (f : nat -> bool) : forall l x,
  List.find f l = Some x ->
  length (List.filter f (UI.remove_first x l)) = pred (length (List.filter f l)).
Proof.
  induction l as [|y l IH]; intros x; cbn [List.find]; [done|].
  destruct (f y) eqn:Fy.
  - intros [= ->]. cbn [UI.remove_first List.filter]. by rewrite Nat.eqb_refl, Fy.
  - intros E. cbn [UI.remove_first List.filter]. rewrite Fy.
    destruct (Nat.eqb_spec y x) as [->|N].
    + apply find_some in E as [_ Fx]. congruence.
    + cbn [List.filter]. rewrite Fy. by apply IH.
Qed.

Lemma Forall_remove_first (P : nat -> Prop) x : forall l,
  Forall P l -> Forall P (UI.remove_first x l).
Proof.
  induction 1 as [|y l Py F IH]; cbn; [done|].
  destruct (Nat.eqb y x); [done|]. by constructor.
Qed.

Lemma find_none_filter {A} (f : A -> bool) l :
  List.find f l = None -> List.filter f l = [].
Proof.
  induction l as [|y l IH]; cbn; [done|]. destruct (f y); [done|]. exact IH.
Qed.

Lemma shown_removeTypingIndicator w :
  let w' := UI.removeTypingIndicator w in
  Typing.shown w' = pred (Typing.shown w) /\
  (Typing.attached w -> Typing.attached w').
Proof.
  unfold UI.removeTypingIndicator, UI.querySelector.
  fold (Typing.is_indicator w).
  destruct (List.find _ _) as [id|] eqn:F; cbv zeta.
  - unfold Typing.shown, Typing.attached, set_messagesContainer.
    cbn [messagesContainer elements]. split.
    + rewrite <- (filter_remove_first _ _ _ F). done.
    + apply Forall_remove_first.
  - split; [|done]. unfold Typing.shown. by rewrite (find_none_filter _ _ F).
Qed.

(** changes of storage, trace and the stored link keep the indicators *)
Lemma shown_same w w' :
  elements w' = elements w -> messagesContainer w' = messagesContainer w ->
  Typing.shown w' = Typing.shown w /\ (Typing.attached w -> Typing.attached w').
Proof.
  intros E C. unfold Typing.shown, Typing.attached, Typing.is_indicator.
  by rewrite E, C.
Qed.

Lemma shown_formatMessageContent current w :
  let w' := Formatting.formatMessageContent current w in
  Typing.shown w' = Typing.shown w /\ (Typing.attached w -> Typing.attached w').
Proof.
  cbv zeta.
  assert (forall e, classList (Formatting.formatted e) = classList e) as C.
  { intros e. unfold Formatting.formatted.
    destruct (rawText e) as [raw|]; [|done]. by destruct (JsString.truthy raw). }
  destruct (shown_alter Formatting.formatted current w C) as [S A].
  destruct (formatMessageContent_same current w) as (_ & Hc & _). cbv zeta in Hc.
  pose proof (formatMessageContent_elements current w) as He.
  unfold Typing.shown, Typing.attached, Typing.is_indicator in *.
  cbn [elements messagesContainer set_elements] in S, A.
  by rewrite He, Hc.
Qed.

Lemma shown_set_textContent current text w :
  let w' := set_textContent current text w in
  Typing.shown w' = Typing.shown w /\ (Typing.attached w -> Typing.attached w').
Proof. by apply shown_alter. Qed.

End TypingIndicators.

Section TypingAccounting.
Context `{Platform}.
Import API.

Lemma shown_add text sender w :
  Typing.attached w ->
  String.eqb sender "shop-ai-typing-indicator" = false ->
  let w' := fst (Message.add text sender w) in
  Typing.shown w' = Typing.shown w /\ Typing.attached w'.
Proof.
  intros A S. unfold Message.add.
  assert (forall raw body,
    has_class "shop-ai-typing-indicator" (mkElement ["shop-ai-message"; sender] raw body)
    = false) as C.
  { intros. unfold has_class. cbn [classList existsb].
    rewrite String.eqb_sym in S. by rewrite S. }
  destruct (String.eqb sender "assistant").
  - pose proof (shown_appendChild
                  (mkElement ["shop-ai-message"; sender] (Some text) (textContent "")) w A)
      as [S1 A1]. cbv zeta in S1, A1. rewrite C, Nat.add_0_r in S1.
    destruct (appendChild _ w) as [w1 id]. cbn [fst] in *.
    destruct (shown_formatMessageContent id w1) as [S2 A2]. cbv zeta in S2, A2.
    split; [congruence|auto].
  - pose proof (shown_appendChild
                  (mkElement ["shop-ai-message"; sender] None (textContent text)) w A)
      as [S1 A1]. cbv zeta in S1, A1. by rewrite C, Nat.add_0_r in S1.
Qed.

Lemma shown_emit e w :
  Typing.shown (emit e w) = Typing.shown w /\
  (Typing.attached w -> Typing.attached (emit e w)).
Proof. by apply shown_same. Qed.

Lemma shown_setItem k v w :
  Typing.shown (setItem k v w) = Typing.shown w /\
  (Typing.attached w -> Typing.attached (setItem k v w)).
Proof. by apply shown_same. Qed.

Lemma shown_chunk_alter raw current w :
  let w' := set_elements
              (alter (fun e => mkElement (classList e) (Some raw) (textContent raw)) current)
              w in
  Typing.shown w' = Typing.shown w /\ (Typing.attached w -> Typing.attached w').
Proof. by apply shown_alter. Qed.

Lemma shown_showTypingIndicator w :
  Typing.attached w ->
  Typing.shown (UI.showTypingIndicator w) = S (Typing.shown w) /\
  Typing.attached (UI.showTypingIndicator w).
Proof.
  intros A. destruct (shown_appendChild UI.typingIndicator w A) as [S1 A1].
  cbv zeta in S1, A1. unfold UI.showTypingIndicator. split; [|done].
  rewrite S1. change (has_class _ UI.typingIndicator) with true. cbv iota. lia.
Qed.

Lemma shown_addToolUse toolMessage w :
  Typing.attached w ->
  Typing.shown (Message.addToolUse toolMessage w) = Typing.shown w /\
  Typing.attached (Message.addToolUse toolMessage w).
Proof.
  intros A. unfold Message.addToolUse.
  destruct (Message.match_pattern toolMessage) as [[toolName argsString]|].
  all: match goal with
       | |- context [appendChild ?e _] =>
           destruct (shown_appendChild e w A) as [S1 A1]
       end.
  all: cbv zeta in S1, A1; split; [|done]; rewrite S1.
  all: match goal with
       | |- context [has_class ?c ?e] => change (has_class c e) with false
       end; cbv iota; lia.
Qed.

Lemma shown_displayProductResults products w :
  Typing.attached w ->
  Typing.shown (fst (UI.displayProductResults products w)) = Typing.shown w /\
  Typing.attached (fst (UI.displayProductResults products w)).
Proof.
  intros A. unfold UI.displayProductResults.
  destruct (match products with
            | Some (JArray (p :: rest)) => UI.createCards (p :: rest)
            | _ => ([], false)
            end) as [cards thrown].
  cbn [fst].
  destruct (shown_appendChild
              (mkElement ["shop-ai-product-section"] None (productSection cards)) w A)
    as [S1 A1].
  cbv zeta in S1, A1. split; [|done]. rewrite S1.
  change (has_class _ _) with false. cbv iota. lia.
Qed.

(** X20. The typing indicators add up, on a page where no message of the
    container holds markup in which an element of the class of the indicator
    could occur (the markup of a formatted message holds neither the word
    [indicator], in whatever case, nor a character reference; without this,
    [messagesContainer.querySelector], which searches all descendants, can
    find such an element inside an earlier message and remove it in place
    of the indicator): [showTypingIndicator] adds one indicator and
    [removeTypingIndicator] removes one at most. So an event of the stream
    of type [chunk], [message_complete], [end_turn], [error] or
    [rate_limit_exceeded] lowers the number of indicators the container
    shows by one (if there is one), [new_message] and
    [content_block_complete] raise it by one, every other event leaves it as
    it is, and sending a message raises it by one. *)
Theorem typing_indicators_add_up
    (data : json) (current : nat) (userMessage : string) (w : World) :
  Typing.attached w ->
  Typing.unmarked w ->
  let w' := fst (handleStreamEvent data current userMessage w) in
  let sent := fst (ShopAIChat.send userMessage w) in
  Typing.attached w' /\
  Typing.shown w' = Typing.after (prop "type" data) (Typing.shown w) /\
  Typing.attached sent /\
  Typing.shown sent = S (Typing.shown w).
Proof.
  intros A _ w' sent.
  assert (Typing.attached sent /\ Typing.shown sent = S (Typing.shown w)) as Sent.
  { unfold sent, ShopAIChat.send, streamResponse. cbn [fst].
    destruct (shown_add userMessage "user" w A eq_refl) as [S1 A1]. cbv zeta in S1, A1.
    destruct (shown_showTypingIndicator _ A1) as [S2 A2].
    destruct (shown_emit (fetch_chat userMessage (getItem "shopAiConversationId" w))
                (UI.showTypingIndicator (fst (Message.add userMessage "user" w))))
      as [S3 A3].
    split; [by apply A3|]. by rewrite S3, S2, S1. }
  cut (Typing.attached w' /\
       Typing.shown w' = Typing.after (prop "type" data) (Typing.shown w));
    [tauto|]. clear Sent sent.
  unfold w'. clear w'.
  destruct (shown_removeTypingIndicator w) as [Sr Ar]. cbv zeta in Sr, Ar.
  specialize (Ar A).
  unfold handleStreamEvent.
  destruct data as [| | | | |fields]; try (by split).
  set (type := prop "type" (JObject fields)).
  unfold Typing.after.
  destruct type as [[| | |t| |]|]; try (by split). cbn [is_string].
  destruct (String.eqb_spec t "id") as [->|N1].
  { cbn. destruct (truthy _); [|by split].
    destruct (shown_setItem "shopAiConversationId"
                (ToString (prop "conversation_id" (JObject fields))) w) as [S1 A1].
    by split; [apply A1|]. }
  destruct (String.eqb_spec t "chunk") as [->|N2].
  { cbn [orb fst].
    destruct (elements (UI.removeTypingIndicator w) !! current) as [e|]; cbn [fst].
    - destruct (shown_chunk_alter
                  (concat_undefined (rawText e)
                     (ToString (prop "chunk" (JObject fields))))
                  current (UI.removeTypingIndicator w)) as [S1 A1].
      cbv zeta in S1, A1. split; [by apply A1|congruence].
    - by split. }
  destruct (String.eqb_spec t "message_complete") as [->|N3].
  { cbn [orb fst].
    destruct (shown_formatMessageContent current (UI.removeTypingIndicator w)) as [S1 A1].
    cbv zeta in S1, A1. split; [by apply A1|congruence]. }
  destruct (String.eqb_spec t "end_turn") as [->|N4].
  { cbn [orb fst]. by split. }
  destruct (String.eqb_spec t "error") as [->|N5].
  { cbn [orb fst].
    destruct (shown_emit (console_error "Stream error:") w) as [S0 A0].
    destruct (shown_removeTypingIndicator (emit (console_error "Stream error:") w))
      as [S1 A1]. cbv zeta in S1, A1.
    destruct (elements _ !! current); cbn [fst].
    - destruct (shown_set_textContent current streamError
                  (UI.removeTypingIndicator (emit (console_error "Stream error:") w)))
        as [S2 A2]. cbv zeta in S2, A2.
      split; [by apply A2, A1, A0|congruence].
    - split; [by apply A1, A0|congruence]. }
  destruct (String.eqb_spec t "rate_limit_exceeded") as [->|N6].
  { cbn [orb fst].
    destruct (shown_emit (console_error "Rate limit exceeded:") w) as [S0 A0].
    destruct (shown_removeTypingIndicator (emit (console_error "Rate limit exceeded:") w))
      as [S1 A1]. cbv zeta in S1, A1.
    destruct (elements _ !! current); cbn [fst].
    - destruct (shown_set_textContent current rateLimitError
                  (UI.removeTypingIndicator
                     (emit (console_error "Rate limit exceeded:") w)))
        as [S2 A2]. cbv zeta in S2, A2.
      split; [by apply A2, A1, A0|congruence].
    - split; [by apply A1, A0|congruence]. }
  cbn [orb].
  destruct (String.eqb_spec t "auth_required") as [->|N7].
  { cbn [fst String.eqb Ascii.eqb Bool.eqb orb].
    destruct (shown_setItem "shopAiLastMessage"
                (if JsString.truthy userMessage then userMessage else "") w) as [S1 A1].
    by split; [apply A1|]. }
  destruct (String.eqb_spec t "product_results") as [->|N8].
  { cbn [String.eqb Ascii.eqb Bool.eqb orb].
    destruct (shown_displayProductResults (prop "products" (JObject fields)) w A)
      as [S1 A1].
    destruct (UI.displayProductResults _ w) as [w1 threw]. by cbn [fst] in *. }
  destruct (String.eqb_spec t "tool_use") as [->|N9].
  { cbn [String.eqb Ascii.eqb Bool.eqb orb].
    destruct (truthy _); [|by split].
    destruct (prop "tool_use_message" (JObject fields)) as [[| | |m| |]|];
      try (by split).
    cbn [fst]. destruct (shown_addToolUse m w A). by split. }
  destruct (String.eqb_spec t "new_message") as [->|N10].
  { cbn [String.eqb Ascii.eqb Bool.eqb orb].
    destruct (shown_formatMessageContent current w) as [S1 A1]. cbv zeta in S1, A1.
    destruct (shown_showTypingIndicator _ (A1 A)) as [S2 A2].
    destruct (shown_appendChild assistantFrame _ A2) as [S3 A3]. cbv zeta in S3, A3.
    destruct (appendChild assistantFrame _) as [w3 id]. cbn [fst] in *.
    split; [done|]. rewrite S3, S2, S1.
    change (has_class _ assistantFrame) with false. cbv iota. lia. }
  destruct (String.eqb_spec t "content_block_complete") as [->|N11].
  { cbn [String.eqb Ascii.eqb Bool.eqb orb fst].
    destruct (shown_showTypingIndicator _ A) as [S2 A2]. by split. }
  cbn [orb fst]. by split.
Qed.

End TypingAccounting.

Section IdlePoller.
Context `{Platform}.
Import API ShopAIChat.



End IdlePoller.

Section HistoryRendering.
Context `{Platform}.
Import API.

Lemma add_all_app a b w :
  HistoryView.add_all (a ++ b) w = HistoryView.add_all b (HistoryView.add_all a w).
Proof. unfold HistoryView.add_all. apply fold_left_app. Qed.

Lemma add_elements text sender w :
  length (elements (fst (Message.add text sender w))) = S (length (elements w)).
Proof.
  unfold Message.add. destruct (String.eqb sender "assistant").
  - unfold appendChild. cbv zeta. cbn [fst].
    rewrite formatMessageContent_elements, length_alter.
    cbn [elements set_messagesContainer set_elements]. rewrite length_app. cbn. lia.
  - unfold appendChild. cbn. rewrite length_app. cbn. lia.
Qed.

(** [Message.add] on a role that is a class token: it does not throw, and
    adds one element to the page and to the container *)
Lemma add_any_token text role w :
  Message.is_token (Message.text_of role) = true ->
  exists w' id,
    Message.add_any text role w = Some (w', id) /\
    length (elements w') = S (length (elements w)) /\
    length (messagesContainer w') = S (length (messagesContainer w)) /\
    sessionStorage w' = sessionStorage w.
Proof.
  intros T. unfold Message.add_any. rewrite T.
  destruct (is_string "assistant" role).
  - destruct (Message.add (Message.text_of text) "assistant" w) as [w' id] eqn:E.
    exists w', id. split; [done|].
    pose proof (add_elements (Message.text_of text) "assistant" w) as L.
    destruct (add_same (Message.text_of text) "assistant" w) as (Sa & _ & _ & Ca).
    cbv zeta in Sa, Ca. rewrite E in L, Sa, Ca. cbn [fst] in L, Sa, Ca.
    rewrite L, Ca, Sa, length_app. cbn [length]. repeat split; lia.
  - eexists _, _. split; [reflexivity|].
    unfold appendChild. cbn. rewrite !length_app. cbn. repeat split; lia.
Qed.

Lemma add_all_lengths messages : forall w,
  Forall (fun message => Message.is_token (Message.text_of (fst message)) = true) messages ->
  let w' := HistoryView.add_all messages w in
  length (elements w') = (length (elements w) + length messages)%nat /\
  length (messagesContainer w') = (length (messagesContainer w) + length messages)%nat /\
  sessionStorage w' = sessionStorage w.
Proof.
  induction messages as [|[role text] messages IH]; intros w F; cbv zeta.
  - cbn. by rewrite !Nat.add_0_r.
  - apply Forall_cons in F as [T F]. cbn [fst] in T.
    cbn [HistoryView.add_all fold_left fst snd].
    destruct (add_any_token text role w T) as (w1 & id & -> & E1 & C1 & S1).
    cbn [from_option fst].
    destruct (IH w1 F) as (E & C & S). cbv zeta in E, C, S.
    unfold HistoryView.add_all in E, C, S. rewrite E, C, S, E1, C1, S1.
    cbn [length]. repeat split; lia.
Qed.

Lemma add_all_one role text w :
  HistoryView.add_all [(role, text)] w = from_option fst w (Message.add_any text role w).
Proof. done. Qed.

(** the [catch] block of the callback of [forEach] on a role that is a
    class token: it adds the content and does not throw *)
Lemma fallback_token content role w :
  Message.is_token (Message.text_of role) = true ->
  match Message.add_any content role w with
  | Some (w', _) => (w', false)
  | None => (w, true)
  end = (HistoryView.add_all [(role, content)] w, false).
Proof.
  intros T. rewrite add_all_one.
  by destruct (add_any_token content role w T) as (w' & id & -> & _).
Qed.

Lemma addContentBlocks_texts role content blocks :
  Message.is_token (Message.text_of role) = true ->
  forall w,
  (let '(w', threw) := addContentBlocks blocks role w in
   if threw
   then match Message.add_any content role w' with
        | Some (w', _) => (w', false)
        | None => (w', true)
        end
   else (w', false)) =
  (HistoryView.add_all (List.map (fun text => (role, text))
                          (HistoryView.block_texts blocks content)) w, false).
Proof.
  intros T. induction blocks as [|block blocks IH]; intros w; [done|].
  assert (forall w0,
    (let '(w', threw) :=
       (if is_string "text" (prop "type" block)
        then match Message.add_any (prop "text" block) role w0 with
             | Some (w1, _) => addContentBlocks blocks role w1
             | None => (w0, true)
             end
        else addContentBlocks blocks role w0) in
     if threw
     then match Message.add_any content role w' with
          | Some (w', _) => (w', false)
          | None => (w', true)
          end
     else (w', false)) =
    (HistoryView.add_all
       (List.map (fun text => (role, text))
          ((if is_string "text" (prop "type" block)
            then [prop "text" block] else []) ++
           HistoryView.block_texts blocks content)) w0, false)) as Step.
  { intros w0. rewrite List.map_app, add_all_app.
    destruct (is_string "text" (prop "type" block)).
    - cbn [List.map]. rewrite add_all_one.
      destruct (add_any_token (prop "text" block) role w0 T) as (w1 & id & -> & _).
      cbn [from_option fst]. apply IH.
    - apply IH. }
  destruct block; try exact (Step w).
  cbn [addContentBlocks HistoryView.block_texts List.map].
  by apply fallback_token.
Qed.

Lemma addHistoryMessage_texts message w :
  HistoryView.showable message = true ->
  addHistoryMessage message w =
  (HistoryView.add_all (List.map (fun text => (prop "role" message, text))
                          (HistoryView.texts message)) w, false).
Proof.
  intros Sh.
  assert (Message.is_token (Message.text_of (prop "role" message)) = true) as T
    by by destruct message.
  assert (addHistoryMessage message w =
          match JSON_parse (Message.text_of (prop "content" message)) with
          | Some (JArray blocks) =>
              let '(w', threw) := addContentBlocks blocks (prop "role" message) w in
              if threw
              then match Message.add_any (prop "content" message) (prop "role" message) w' with
                   | Some (w', _) => (w', false)
                   | None => (w', true)
                   end
              else (w', false)
          | Some (JString _) => (w, false)
          | _ => match Message.add_any (prop "content" message) (prop "role" message) w with
                 | Some (w', _) => (w', false)
                 | None => (w, true)
                 end
          end) as ->.
  { destruct message; [done| | | | |];
      unfold addHistoryMessage;
      by destruct (JSON_parse _) as [[]|]. }
  unfold HistoryView.texts.
  destruct (JSON_parse _) as [[| | | |blocks|]|]; cbv zeta;
    try (by apply fallback_token); [done|].
  by apply addContentBlocks_texts.
Qed.

Lemma addHistoryMessages_shown messages : forall w,
  forallb HistoryView.showable messages = true ->
  addHistoryMessages messages w =
  (HistoryView.add_all (HistoryView.shown messages) w, false).
Proof.
  induction messages as [|m messages IH]; intros w Sh; [done|].
  cbn [forallb] in Sh. apply andb_prop in Sh as [Sm Sh].
  cbn [addHistoryMessages HistoryView.shown flat_map].
  rewrite (addHistoryMessage_texts m w Sm), add_all_app. by apply IH.
Qed.

Lemma shown_tokens messages :
  forallb HistoryView.showable messages = true ->
  Forall (fun message => Message.is_token (Message.text_of (fst message)) = true)
    (HistoryView.shown messages).
Proof.
  induction messages as [|m messages IH]; intros Sh; [constructor|].
  cbn [forallb] in Sh. apply andb_prop in Sh as [Sm Sh].
  cbn [HistoryView.shown flat_map]. apply Forall_app. split; [|by apply IH].
  assert (Message.is_token (Message.text_of (prop "role" m)) = true) as T
    by by destruct m.
  apply List.Forall_forall. intros [role text] In.
  apply in_map_iff in In as (t & E & _). by injection E as <- _.
Qed.

(** X22. A stored history is shown in order, text blocks only: when the
    history arrives as an array of messages that is not empty, none of them
    [null] and each with a role [classList.add] accepts as a class (its
    text is not empty and holds no white space), the loading message leaves the container and [Message.add] is called, in
    the order of the history and on the role of the message, with the [text]
    of each block of type [text] of a content that is the JSON text of an
    array, up to a [null] block, at which the content itself is added and
    the message is left, and with the content itself when it is no JSON
    text, or the JSON text of a number, a boolean, an object or [null];
    blocks of other types add nothing, nor does a content that is the JSON
    text of a string. Each call adds one message; for a role other than
    [assistant] a text that is [undefined] or [null] shows as the empty
    text. The stored conversation identifier is kept. *)
Theorem history_shows_text_blocks_in_order
    (h : History) (data : json) (messages : list json) (w : World) :
  history_awaiting h = awaiting_json ->
  existsb (Nat.eqb (loadingMessage h)) (messagesContainer w) = true ->
  prop "messages" data = Some (JArray messages) ->
  messages <> [] ->
  forallb HistoryView.showable messages = true ->
  let w' := fst (fetchChatHistory_json h (history_data data) w) in
  let shown := HistoryView.shown messages in
  w' = HistoryView.add_all shown
         (set_messagesContainer (UI.remove_first (loadingMessage h)) w) /\
  length (elements w') = (length (elements w) + length shown)%nat /\
  S (length (messagesContainer w')) = (length (messagesContainer w) + length shown)%nat /\
  sessionStorage w' = sessionStorage w /\
  (forall message text,
      JSON_parse (Message.text_of (prop "content" message)) = Some (JString text) ->
      HistoryView.texts message = []) /\
  (forall message,
      JSON_parse (Message.text_of (prop "content" message)) = None ->
      HistoryView.texts message = [prop "content" message]) /\
  (forall text role w0,
      Message.is_token (Message.text_of role) = true ->
      is_string "assistant" role = false ->
      HistoryView.add_all [(role, text)] w0 =
      fst (appendChild
             (mkElement ["shop-ai-message"; Message.text_of role] None
                (textContent match text with
                             | None | Some JNull => EmptyString
                             | _ => Message.text_of text
                             end)) w0)).
Proof.
  intros Aw Ld Pm Ne Sh w' shown.
  assert (w' = HistoryView.add_all shown
                 (set_messagesContainer (UI.remove_first (loadingMessage h)) w)) as E.
  { unfold w', fetchChatHistory_json, fetchChatHistory_try. rewrite Aw, Ld.
    destruct messages as [|m messages]; [done|].
    assert (forall w0 : World,
      (if negb (truthy (prop "messages" data)) || length_is_zero (prop "messages" data)
       then (fst (Message.add welcomeMessage "assistant" w0), false)
       else match prop "messages" data with
            | Some (JArray items) => addHistoryMessages items w0
            | _ => (w0, true)
            end) = (HistoryView.add_all shown w0, false)) as Step.
    { intros w0. rewrite Pm. cbn [truthy negb length_is_zero orb].
      by apply addHistoryMessages_shown. }
    destruct data; try done; by rewrite Step. }
  split; [exact E|].
  destruct (add_all_lengths shown
              (set_messagesContainer (UI.remove_first (loadingMessage h)) w)
              (shown_tokens messages Sh))
    as (El & Cl & St). cbv zeta in El, Cl, St.
  rewrite E, El, Cl, St.
  cbn [elements messagesContainer sessionStorage set_messagesContainer].
  split; [done|]. split.
  - assert (forall l x, existsb (Nat.eqb x) l = true ->
                        S (length (UI.remove_first x l)) = length l) as R.
    { induction l as [|y l IH]; intros x; cbn; [done|].
      rewrite Nat.eqb_sym. destruct (Nat.eqb y x); cbn; [done|].
      intros Ex. by rewrite IH. }
    rewrite <- (R _ _ Ld). lia.
  - split; [done|]. split; [|split].
    + intros message text P. unfold HistoryView.texts. by rewrite P.
    + intros message P. unfold HistoryView.texts. by rewrite P.
    + intros text role w0 T NA. rewrite add_all_one.
      unfold Message.add_any. by rewrite T, NA.
Qed.

(** X23. An [id] event replaces the conversation: an [id] event that
    carries a conversation identifier stores it over whatever identifier was
    stored, and the next message is sent on this conversation; an [id] event
    without identifier changes nothing. *)
Theorem id_event_replaces_conversation
    (data : json) (current : nat) (userMessage : string) (w : World) :
  prop "type" data = Some (JString "id") ->
  let id := prop "conversation_id" data in
  let w' := fst (handleStreamEvent data current userMessage w) in
  (truthy id = true ->
   getItem "shopAiConversationId" w' = Some (ToString id) /\
   forall next,
     let '(sent, s) := ShopAIChat.send next w' in
     stream_conversationId s = Some (ToString id) /\
     last (trace sent) = Some (fetch_chat next (Some (ToString id)))) /\
  (truthy id = false -> w' = w).
Proof.
  intros T id w'.
  destruct (handle_type_object _ _ T) as [fields ->].
  unfold w', handleStreamEvent. rewrite T.
  cbn [is_string String.eqb Ascii.eqb Bool.eqb]. cbv iota.
  fold id. split.
  - intros ->. cbn [fst]. split; [apply lookup_insert_eq|].
    intros next. unfold ShopAIChat.send, streamResponse.
    assert (getItem "shopAiConversationId"
              (setItem "shopAiConversationId" (ToString id) w) = Some (ToString id)) as ->
      by apply lookup_insert_eq.
    split; [done|]. unfold emit. cbn [trace set_trace]. apply last_snoc.
  - by intros ->.
Qed.

End HistoryRendering.

(** * The markup of a message *)

Section MarkdownLinks.
Import Markdown.

Lemma span_stop p a c b :
  JsString.all_chars p a = true -> p c = false ->
  Message.span p (a +:+ String c b) = (a, String c b).
Proof.
  intros A C. induction a as [|x a IH].
  - rewrite append_nil_l. cbn [Message.span]. by rewrite C.
  - cbn [JsString.all_chars] in A. apply andb_true_iff in A as [X A].
    rewrite append_cons. cbn [Message.span]. by rewrite X, (IH A).
Qed.

Lemma length_app (a b : string) :
  String.length (a +:+ b) = (String.length a + String.length b)%nat.
Proof. induction a as [|x a IH]; [done|]. rewrite append_cons. cbn. by rewrite IH. Qed.

Lemma startsWith_prefix p s : JsString.startsWith p (p +:+ s) = true.
Proof.
  induction p as [|a p IH]; [done|].
  rewrite append_cons. cbn [JsString.startsWith]. by rewrite Ascii.eqb_refl.
Qed.

Lemma startsWith_split p s : JsString.startsWith p s = true -> exists r, s = p +:+ r.
Proof.
  revert s. induction p as [|a p IH]; intros s; cbn [JsString.startsWith].
  - intros _. by exists s.
  - destruct s as [|b s]; [done|].
    intros [->%Ascii.eqb_eq [r ->]%IH]%andb_true_iff. by exists r.
Qed.

Lemma includes_app p a b : includes p b = true -> includes p (a +:+ b) = true.
Proof.
  intros I. induction a as [|x a IH]; [done|].
  rewrite append_cons. cbn [includes]. rewrite IH. apply orb_true_r.
Qed.

Lemma includes_prefix p s : includes p (p +:+ s) = true.
Proof. destruct (p +:+ s) eqn:E; cbn [includes]; by rewrite <- E, startsWith_prefix. Qed.

(** a match of the pattern at a link *)
Lemma linkMatch_link text url post :
  text <> EmptyString -> JsString.all_chars (not_char "]") text = true ->
  url <> EmptyString -> JsString.all_chars (not_char ")") url = true ->
  linkMatch ("[" +:+ text +:+ "](" +:+ url +:+ ")" +:+ post) = Some (text, url).
Proof.
  intros Nt At Nu Au. unfold linkMatch.
  change ("[" +:+ text +:+ "](" +:+ url +:+ ")" +:+ post)
    with (String "[" (text +:+ String "]" (String "(" (url +:+ String ")" post)))).
  cbn [JsString.strip_prefix]. change (Ascii.eqb "[" "[") with true. cbv iota.
  rewrite (span_stop _ _ _ _ At) by done.
  destruct text as [|t text]; [done|]. cbn [JsString.truthy JsString.strip_prefix].
  change (Ascii.eqb "]" "]") with true. change (Ascii.eqb "(" "(") with true. cbv iota.
  rewrite (span_stop _ _ _ _ Au) by done.
  by destruct url.
Qed.

(** the scan passes what holds no [[] *)
Lemma replaceLinks_plain pre s shopAuthUrl :
  JsString.all_chars (not_char "[") pre = true ->
  replaceLinks 0 (pre +:+ s) shopAuthUrl =
  (pre +:+ fst (replaceLinks 0 s shopAuthUrl), snd (replaceLinks 0 s shopAuthUrl)).
Proof.
  intros A. induction pre as [|c pre IH].
  - rewrite !append_nil_l. by destruct (replaceLinks 0 s shopAuthUrl).
  - cbn [JsString.all_chars] in A. apply andb_true_iff in A as [C A].
    rewrite append_cons. cbn [replaceLinks].
    assert (linkMatch (String c (pre +:+ s)) = None) as ->.
    { unfold linkMatch. cbn [JsString.strip_prefix].
      unfold not_char in C. apply negb_true_iff in C.
      rewrite Ascii.eqb_sym in C. by rewrite C. }
    rewrite (IH A). by rewrite append_cons.
Qed.

Lemma replaceLinks_skip m s shopAuthUrl :
  replaceLinks (String.length m) (m +:+ s) shopAuthUrl = replaceLinks 0 s shopAuthUrl.
Proof.
  induction m as [|c m IH]; [done|]. rewrite append_cons. exact IH.
Qed.

(** the scan at a link: the callback, then the scan of what follows *)
Lemma replaceLinks_link text url post shopAuthUrl :
  text <> EmptyString -> JsString.all_chars (not_char "]") text = true ->
  url <> EmptyString -> JsString.all_chars (not_char ")") url = true ->
  replaceLinks 0 ("[" +:+ text +:+ "](" +:+ url +:+ ")" +:+ post) shopAuthUrl =
  (fst (replacer text url shopAuthUrl) +:+
   fst (replaceLinks 0 post (snd (replacer text url shopAuthUrl))),
   snd (replaceLinks 0 post (snd (replacer text url shopAuthUrl)))).
Proof.
  intros Nt At Nu Au.
  pose proof (linkMatch_link text url post Nt At Nu Au) as M.
  change ("[" +:+ text +:+ "](" +:+ url +:+ ")" +:+ post)
    with (String "[" (text +:+ "](" +:+ url +:+ ")" +:+ post)) in *.
  cbn [replaceLinks]. rewrite M.
  destruct (replacer text url shopAuthUrl) as [link a1]. cbn [fst snd].
  replace (text +:+ "](" +:+ url +:+ ")" +:+ post)
    with ((text +:+ "](" +:+ url +:+ ")") +:+ post)
    by (by rewrite !string_app_assoc).
  replace (String.length text + String.length url + 3)%nat
    with (String.length (text +:+ "](" +:+ url +:+ ")"))
    by (rewrite !length_app; cbn; lia).
  rewrite replaceLinks_skip. by destruct (replaceLinks 0 post a1).
Qed.

(** the scan never clears [window.shopAuthUrl] *)
Lemma replaceLinks_keeps s : forall skip url,
  exists last, snd (replaceLinks skip s (Some url)) = Some last.
Proof.
  induction s as [|c s IH]; intros skip url; [by eexists|].
  cbn [replaceLinks]. destruct skip as [|k]; [|apply IH].
  destruct (linkMatch (String c s)) as [[text u]|].
  - unfold replacer.
    destruct (isAuthUrl u); [|destruct (_ || _)].
    all: match goal with
         | |- context [replaceLinks ?k _ (Some ?x)] =>
             destruct (IH k x) as [last E]; destruct (replaceLinks k _ (Some x)); by exists last
         end.
  - destruct (IH 0%nat url) as [last E]. destruct (replaceLinks 0 s (Some url)). by exists last.
Qed.

Lemma replaceLinks_none s shopAuthUrl :
  JsString.all_chars (not_char "[") s = true ->
  replaceLinks 0 s shopAuthUrl = (s, shopAuthUrl).
Proof.
  intros A. rewrite <- (string_app_nil_r s) at 1.
  rewrite (replaceLinks_plain s EmptyString _ A). cbn [replaceLinks fst snd].
  by rewrite string_app_nil_r.
Qed.

(** an URL that holds [shopify.com/authentication] is an authentication
    URL: the second test of the callback adds nothing *)
Lemma isAuthUrl_includes url :
  isAuthUrl url = includes "shopify.com/authentication" url.
Proof.
  unfold isAuthUrl. destruct (includes "shopify.com/authentication" url) eqn:I; [|done].
  cbn [andb]. apply orb_true_iff. right.
  clear -I. induction url as [|c url IH]; [done|].
  cbn [includes] in I. apply orb_true_iff in I as [S|I].
  - apply startsWith_split in S as [r ->].
    change ("shopify.com/authentication" +:+ r)
      with ("shopify.com/" +:+ ("authentication" +:+ r)).
    apply includes_app, includes_prefix.
  - cbn [includes]. rewrite (IH I). apply orb_true_r.
Qed.

(** X25. An authentication link hides its URL: for a markdown link whose
    URL holds [shopify.com/authentication] (be [oauth/authorize] in it or
    not), after a text without [[], the markup is the anchor [#auth] of class
    [shop-auth-trigger] around the link text, which does not hold the URL;
    the URL is stored in [window.shopAuthUrl], where it stays unless a later
    authentication link of the message replaces it; the scan goes on with
    what follows the link. *)
Theorem auth_link_hides_url
    (pre text url post : string) (shopAuthUrl : option string) :
  JsString.all_chars (not_char "[") pre = true ->
  text <> EmptyString -> JsString.all_chars (not_char "]") text = true ->
  url <> EmptyString -> JsString.all_chars (not_char ")") url = true ->
  includes "shopify.com/authentication" url = true ->
  let raw := pre +:+ "[" +:+ text +:+ "](" +:+ url +:+ ")" +:+ post in
  let '(rest, last) := replaceLinks 0 post (Some url) in
  replaceLinks 0 raw shopAuthUrl =
    (pre +:+ JSON.dq "<a href='#auth' class='shop-auth-trigger'>" +:+ text +:+ "</a>" +:+ rest,
     last) /\
  authLink raw = last /\
  (exists stored, last = Some stored) /\
  (JsString.all_chars (not_char "[") post = true -> rest = post /\ last = Some url).
Proof.
  intros Ap Nt At Nu Au I raw.
  assert (forall a, replaceLinks 0 raw a =
            (pre +:+ JSON.dq "<a href='#auth' class='shop-auth-trigger'>" +:+ text +:+
             "</a>" +:+ fst (replaceLinks 0 post (Some url)),
             snd (replaceLinks 0 post (Some url)))) as R.
  { intros a. unfold raw. rewrite (replaceLinks_plain _ _ _ Ap).
    rewrite (replaceLinks_link _ _ _ _ Nt At Nu Au).
    unfold replacer. rewrite isAuthUrl_includes, I. cbn [fst snd].
    by rewrite !string_app_assoc. }
  pose proof (replaceLinks_keeps post 0 url) as K.
  pose proof (replaceLinks_none post (Some url)) as P.
  unfold authLink. rewrite !R.
  destruct (replaceLinks 0 post (Some url)) as [rest last]. cbn [fst snd] in *.
  split; [done|]. split; [done|]. split; [exact K|].
  intros A. by injection (P A) as -> ->.
Qed.

(** X26. Other links keep their URL as it is: for a markdown link whose URL
    is no authentication URL, after a text without [[], the markup is an
    anchor whose [href] is the URL, copied without any escaping, that opens
    in a new tab; its text is the link text, or [click here to proceed to
    checkout] when the URL holds [/cart] or [checkout]; [window.shopAuthUrl]
    is left to the other links of the message. *)
Theorem other_link_keeps_url
    (pre text url post : string) (shopAuthUrl : option string) :
  JsString.all_chars (not_char "[") pre = true ->
  text <> EmptyString -> JsString.all_chars (not_char "]") text = true ->
  url <> EmptyString -> JsString.all_chars (not_char ")") url = true ->
  includes "shopify.com/authentication" url = false ->
  let raw := pre +:+ "[" +:+ text +:+ "](" +:+ url +:+ ")" +:+ post in
  let shown :=
    if includes "/cart" url || includes "checkout" url
    then "click here to proceed to checkout" else text in
  let '(rest, last) := replaceLinks 0 post shopAuthUrl in
  replaceLinks 0 raw shopAuthUrl =
    (pre +:+ JSON.dq "<a href='" +:+ url +:+
     JSON.dq "' target='_blank' rel='noopener noreferrer'>" +:+ shown +:+ "</a>" +:+ rest,
     last) /\
  (JsString.all_chars (not_char "[") post = true -> rest = post /\ last = shopAuthUrl).
Proof.
  intros Ap Nt At Nu Au I raw shown.
  pose proof (replaceLinks_none post shopAuthUrl) as P.
  assert (replaceLinks 0 raw shopAuthUrl =
            (pre +:+ JSON.dq "<a href='" +:+ url +:+
             JSON.dq "' target='_blank' rel='noopener noreferrer'>" +:+ shown +:+ "</a>" +:+
             fst (replaceLinks 0 post shopAuthUrl),
             snd (replaceLinks 0 post shopAuthUrl))) as R.
  { unfold raw. rewrite (replaceLinks_plain _ _ _ Ap).
    rewrite (replaceLinks_link _ _ _ _ Nt At Nu Au).
    unfold replacer, shown. rewrite isAuthUrl_includes, I.
    destruct (includes "/cart" url || includes "checkout" url); cbn [fst snd].
    all: by rewrite !string_app_assoc. }
  rewrite R. destruct (replaceLinks 0 post shopAuthUrl) as [rest last]. cbn [fst snd] in *.
  split; [done|]. intros A. by injection (P A) as -> ->.
Qed.

End MarkdownLinks.

Section MarkdownConversion.
Context `{Engine}.
Import Markdown.

Lemma strip_prefix_None p : forall s,
  JsString.startsWith p s = false -> JsString.strip_prefix p s = None.
Proof.
  induction p as [|a p IH]; intros s; cbn [JsString.startsWith JsString.strip_prefix];
    [done|].
  destruct s as [|b s]; [done|]. destruct (Ascii.eqb a b); [apply IH|done].
Qed.

(** without two marks in a row, nothing is strong *)
Lemma replaceStrong_id s :
  includes "**" s = false -> includes "__" s = false -> replaceStrong 0 s = s.
Proof.
  induction s as [|c s IH]; [done|]. cbn [includes].
  intros [S1 I1]%orb_false_iff [S2 I2]%orb_false_iff.
  cbn [replaceStrong]. unfold strongMatch, strong_with.
  rewrite (strip_prefix_None _ _ S1), (strip_prefix_None _ _ S2).
  by rewrite (IH I1 I2).
Qed.

Lemma split_from_not_nil sep s : forall skip, JsString.split_from sep skip s <> [].
Proof.
  induction s as [|c s IH]; intros skip; cbn [JsString.split_from]; [done|].
  destruct skip as [|k]; [|apply IH].
  destruct (JsString.startsWith sep (String c s)); [done|].
  pose proof (IH 0%nat) as N. by destruct (JsString.split_from sep 0 s).
Qed.

(** a text without line feed is one line *)
Lemma split_one_line s :
  JsString.all_chars (not_char JsString.nl) s = true ->
  JsString.split (String JsString.nl EmptyString) s = [s].
Proof.
  unfold JsString.split. induction s as [|c s IH]; [done|].
  cbn [JsString.all_chars]. intros [C A]%andb_true_iff.
  cbn [JsString.split_from JsString.startsWith].
  unfold not_char in C. apply negb_true_iff in C. rewrite Ascii.eqb_sym in C.
  rewrite C. cbn [andb]. by rewrite (IH A).
Qed.

Lemma replaceBreaks_id s : includes "</p><p>" s = false -> replaceBreaks 0 s = s.
Proof.
  induction s as [|c s IH]; [done|]. cbn [includes].
  intros [S I]%orb_false_iff. cbn [replaceBreaks]. by rewrite S, (IH I).
Qed.

(** a pattern that starts in a text and ends beyond it *)
Lemma startsWith_app_inv p : forall s t,
  JsString.startsWith p (s +:+ t) = true ->
  JsString.startsWith p s = true \/
  exists y, p = s +:+ y /\ JsString.startsWith y t = true.
Proof.
  induction p as [|a p IH]; intros s t; [by left|].
  destruct s as [|b s].
  - rewrite append_nil_l. intros S. right. by exists (String a p).
  - rewrite append_cons. cbn [JsString.startsWith].
    intros [->%Ascii.eqb_eq S]%andb_true_iff. rewrite Ascii.eqb_refl. cbn [andb].
    destruct (IH _ _ S) as [L|(y & -> & Y)]; [by left|].
    right. by exists y.
Qed.

(** the closing tag of a paragraph completes no [</p><p>] *)
Lemma no_break_at_end s :
  includes "</p><p>" s = false -> includes "</p><p>" (s +:+ "</p>") = false.
Proof.
  induction s as [|c s IH]; [done|]. cbn [includes].
  intros [S I]%orb_false_iff. rewrite append_cons. cbn [includes].
  rewrite (IH I), orb_false_r.
  apply not_true_is_false. intros T.
  rewrite <- append_cons in T.
  apply startsWith_app_inv in T as [T|(y & E & Y)]; [congruence|].
  rewrite append_cons in E. injection E as <- E.
  do 6 (destruct s as [|? s];
        [rewrite append_nil_l in E; subst y; by cbn in Y
        |rewrite append_cons in E; injection E as <- E]).
  destruct s; [by cbn in S|done].
Qed.

Lemma no_break_in_paragraph s :
  includes "</p><p>" s = false -> includes "</p><p>" ("<p>" +:+ s +:+ "</p>") = false.
Proof. intros I. cbn. by apply no_break_at_end. Qed.

(** X27. Plain text reaches the page as markup, unescaped: for a raw text
    of one line that starts no link, holds no strong mark, is no list item
    and not blank, and holds no [</p><p>], the markup [formatMessageContent]
    assigns to [innerHTML] is the text itself between [<p>] and [</p>]:
    every tag the text holds is markup of the page; and
    [window.shopAuthUrl] is left as it is. *)
Theorem plain_text_is_not_escaped (raw : string) :
  JsString.all_chars (not_char JsString.nl) raw = true ->
  JsString.all_chars (not_char "[") raw = true ->
  includes "**" raw = false -> includes "__" raw = false ->
  unorderedMatch raw = None -> orderedMatch raw = None ->
  after_space raw <> EmptyString ->
  includes "</p><p>" raw = false ->
  formatMarkdown raw = "<p>" +:+ raw +:+ "</p>" /\ authLink raw = None.
Proof.
  intros Nl Nb S1 S2 U O B P.
  unfold formatMarkdown, authLink. rewrite (replaceLinks_none _ _ Nb). cbn [fst snd].
  split; [|done].
  unfold convertMarkdownToHtml.
  rewrite (replaceStrong_id _ S1 S2), (split_one_line _ Nl).
  cbn [fold_left]. unfold convert_line. rewrite U, O.
  cbn [currentList htmlContent listItems startNumber].
  destruct (after_space raw) as [|a r] eqn:E; [done|]. cbn [JsString.truthy].
  rewrite append_nil_l. by apply replaceBreaks_id, no_break_in_paragraph.
Qed.

(** an item of an ordered list is none of an unordered one *)
Lemma orderedMatch_not_unordered line entry :
  orderedMatch line = Some entry -> unorderedMatch line = None.
Proof.
  unfold orderedMatch, unorderedMatch.
  destruct (after_space line) as [|a rest]; [done|].
  cbn [Message.span]. destruct (is_digit a) eqn:D.
  - intros _.
    assert (Ascii.eqb a "-" || Ascii.eqb a "*" = false) as ->; [|done].
    apply orb_false_iff.
    split; apply not_true_is_false; intros ->%Ascii.eqb_eq; done.
  - done.
Qed.

Lemma convert_unordered lines : forall items its html n,
  Forall2 (fun line text => unorderedMatch line = Some text) lines items ->
  fold_left convert_line lines (mkConversion (Some ul) its html n) =
  mkConversion (Some ul) (its ++ List.map item items) html n.
Proof.
  induction lines as [|line lines IH]; intros items its html n F.
  - apply Forall2_nil_inv_l in F as ->. cbn. by rewrite app_nil_r.
  - apply Forall2_cons_inv_l in F as (text & items' & U & F & ->).
    cbn [fold_left].
    assert (convert_line (mkConversion (Some ul) its html n) line =
            mkConversion (Some ul) (its ++ [item text]) html n) as ->
      by (unfold convert_line; by rewrite U).
    rewrite (IH _ _ _ _ F). cbn [List.map]. by rewrite <- app_assoc.
Qed.

Lemma convert_ordered lines : forall numbered its html n,
  Forall2 (fun line entry => orderedMatch line = Some entry) lines numbered ->
  fold_left convert_line lines (mkConversion (Some ol) its html n) =
  mkConversion (Some ol) (its ++ List.map (fun entry => item (snd entry)) numbered) html n.
Proof.
  induction lines as [|line lines IH]; intros numbered its html n F.
  - apply Forall2_nil_inv_l in F as ->. cbn. by rewrite app_nil_r.
  - apply Forall2_cons_inv_l in F as ([digits text] & numbered' & O & F & ->).
    cbn [fold_left].
    assert (convert_line (mkConversion (Some ol) its html n) line =
            mkConversion (Some ol) (its ++ [item text]) html n) as ->
      by (unfold convert_line; by rewrite (orderedMatch_not_unordered _ _ O), O).
    rewrite (IH _ _ _ _ F). cbn [List.map snd]. by rewrite <- app_assoc.
Qed.

(** X28. Lines that are all items make one list: when every line of a text
    (once its strong marks are replaced) is an item of an unordered list,
    the markup is one [<ul>] with one [<li>] for each line, in order; when
    every line is an item of an ordered list, it is one [<ol>] whose [start]
    is the number of the first line, whatever the numbers of the other
    lines. The last replacement of [convertMarkdownToHtml] then runs on this
    markup. *)
Theorem item_lines_make_one_list (text : string) :
  let lines := JsString.split (String JsString.nl EmptyString) (replaceStrong 0 text) in
  (forall items,
      Forall2 (fun line text => unorderedMatch line = Some text) lines items ->
      convertMarkdownToHtml text =
      replaceBreaks 0 ("<ul>" +:+ join (List.map item items) +:+ "</ul>")) /\
  (forall numbered,
      Forall2 (fun line entry => orderedMatch line = Some entry) lines numbered ->
      exists digits first rest,
        numbered = (digits, first) :: rest /\
        convertMarkdownToHtml text =
        replaceBreaks 0
          (JSON.dq "<ol start='" +:+ number_text (parseInt digits) +:+ JSON.dq "'>" +:+
           join (List.map (fun entry => item (snd entry)) numbered) +:+ "</ol>")).
Proof.
  intros lines. unfold convertMarkdownToHtml. fold lines.
  pose proof (split_from_not_nil (String JsString.nl EmptyString) (replaceStrong 0 text) 0)
    as N. fold (JsString.split (String JsString.nl EmptyString) (replaceStrong 0 text)) in N.
  fold lines in N.
  split.
  - intros items F. destruct lines as [|line rest]; [done|].
    apply Forall2_cons_inv_l in F as (first & items' & U & F & ->).
    cbn [fold_left].
    assert (convert_line (mkConversion None [] EmptyString 1) line =
            mkConversion (Some ul) [item first] EmptyString 1) as ->
      by (unfold convert_line; by rewrite U).
    rewrite (convert_unordered _ _ _ _ _ F).
    cbn [currentList htmlContent list_markup listItems]. by rewrite append_nil_l.
  - intros numbered F. destruct lines as [|line rest]; [done|].
    apply Forall2_cons_inv_l in F as ([digits first] & numbered' & O & F & ->).
    exists digits, first, numbered'. split; [done|].
    cbn [fold_left].
    assert (convert_line (mkConversion None [] EmptyString 1) line =
            mkConversion (Some ol) [item first] EmptyString (parseInt digits)) as ->
      by (unfold convert_line; by rewrite (orderedMatch_not_unordered _ _ O), O).
    rewrite (convert_ordered _ _ _ _ _ F).
    cbn [currentList htmlContent list_markup listItems startNumber]. by rewrite append_nil_l.
Qed.

End MarkdownConversion.

Section MarkdownStrong.
Import Markdown.

Lemma terminator_before_mark s m t :
  s <> EmptyString -> m = "*"%char \/ m = "_"%char ->
  starts_with_one lineTerminators (s +:+ String m t) = starts_with_one lineTerminators s.
Proof.
  intros N M. unfold starts_with_one, lineTerminators.
  destruct s as [|c [|c1 [|c2 s]]]; [done|..]; rewrite ?append_cons, ?append_nil_l.
  all: destruct M as [-> | ->]; cbn [List.find units fold_right JsString.startsWith].
  all: repeat match goal with
         | |- context [Ascii.eqb (ascii_of_nat ?n) ?x] =>
             is_var x; destruct (Ascii.eqb (ascii_of_nat n) x)
         end; done.
Qed.

Lemma terminator_app s t :
  starts_with_one lineTerminators s <> 0%nat ->
  starts_with_one lineTerminators (s +:+ t) <> 0%nat.
Proof.
  unfold starts_with_one.
  destruct (List.find _ lineTerminators) as [c|] eqn:F; [|done]. intros _.
  apply find_some in F as [I S].
  destruct (List.find (fun c => JsString.startsWith c (s +:+ t)) lineTerminators)
    as [c'|] eqn:F'.
  - apply find_some in F' as [I' _].
    unfold lineTerminators in I'. cbn in I'. by destruct I' as [<-|[<-|[<-|[<-|[]]]]].
  - apply (find_none _ _ F') in I. by rewrite (startsWith_app _ _ t S) in I.
Qed.

Lemma no_mark_starts a s mark :
  no_mark a = true -> mark = "**" \/ mark = "__" ->
  JsString.startsWith mark (String a s) = false.
Proof.
  unfold no_mark, not_char. intros [A B]%andb_true_iff.
  apply negb_true_iff in A, B. rewrite Ascii.eqb_sym in A, B.
  intros [-> | ->]; cbn [JsString.startsWith]; by rewrite ?A, ?B.
Qed.

(** the lazy group ends at the first closing mark of the line *)
Lemma lazy_dots_closed mark inner post :
  mark = "**" \/ mark = "__" ->
  JsString.all_chars no_mark inner = true -> dots inner = inner ->
  lazy_dots mark (inner +:+ mark +:+ post) = Some inner.
Proof.
  intros M A D. induction inner as [|c inner IH].
  - by destruct M as [-> | ->].
  - cbn [JsString.all_chars] in A. apply andb_true_iff in A as [C A].
    rewrite append_cons. cbn [lazy_dots]. rewrite (no_mark_starts _ _ _ C M).
    rewrite <- append_cons.
    assert (starts_with_one lineTerminators (String c inner +:+ mark +:+ post) =
            starts_with_one lineTerminators (String c inner)) as ->
      by (destruct M as [-> | ->]; apply terminator_before_mark; auto).
    cbn [dots] in D. destruct (starts_with_one lineTerminators (String c inner)); [|done].
    injection D as D. by rewrite (IH A D).
Qed.

(** no closing mark is found beyond a line terminator *)
Lemma lazy_dots_open mark inner rest :
  mark = "**" \/ mark = "__" ->
  JsString.all_chars no_mark inner = true -> dots inner <> inner ->
  lazy_dots mark (inner +:+ rest) = None.
Proof.
  intros M A D. induction inner as [|c inner IH]; [done|].
  cbn [JsString.all_chars] in A. apply andb_true_iff in A as [C A].
  rewrite append_cons. cbn [lazy_dots]. rewrite (no_mark_starts _ _ _ C M).
  rewrite <- append_cons. cbn [dots] in D.
  destruct (starts_with_one lineTerminators (String c inner)) eqn:T.
  - destruct (starts_with_one lineTerminators (String c inner +:+ rest)); [|done].
    rewrite IH; [done..|]. intros E. by rewrite E in D.
  - pose proof (terminator_app (String c inner) rest) as N. rewrite T in N.
    destruct (starts_with_one lineTerminators (String c inner +:+ rest)); [|done].
    by destruct N.
Qed.

(** the scan passes what holds no mark *)
Lemma replaceStrong_plain pre s :
  JsString.all_chars no_mark pre = true ->
  replaceStrong 0 (pre +:+ s) = pre +:+ replaceStrong 0 s.
Proof.
  intros A. induction pre as [|c pre IH]; [done|].
  cbn [JsString.all_chars] in A. apply andb_true_iff in A as [C A].
  rewrite !append_cons. cbn [replaceStrong]. unfold strongMatch, strong_with.
  rewrite !strip_prefix_None by (apply (no_mark_starts _ _ _ C); auto).
  by rewrite (IH A).
Qed.

Lemma replaceStrong_skip m s :
  replaceStrong (String.length m) (m +:+ s) = replaceStrong 0 s.
Proof. induction m as [|c m IH]; [done|]. rewrite append_cons. exact IH. Qed.

Lemma replaceStrong_cons a s :
  replaceStrong 0 (String a s) =
  match strongMatch (String a s) with
  | Some inner =>
      "<strong>" +:+ inner +:+ "</strong>" +:+ replaceStrong (String.length inner + 3) s
  | None => String a (replaceStrong 0 s)
  end.
Proof. reflexivity. Qed.

(** X29. Strong text stays on its line: a text between two marks [**], or
    two marks [__], that holds no mark and no line terminator becomes the
    content of a [<strong>] element, as it is, and the conversion goes on
    behind the closing mark; when a line terminator comes before any closing
    mark, the opening mark and the text stay as they are, and the
    conversion goes on behind the text. *)
Theorem strong_text_stays_on_its_line (mark pre inner post : string) :
  mark = "**" \/ mark = "__" ->
  JsString.all_chars no_mark pre = true ->
  JsString.all_chars no_mark inner = true ->
  (dots inner = inner ->
   replaceStrong 0 (pre +:+ mark +:+ inner +:+ mark +:+ post) =
   pre +:+ "<strong>" +:+ inner +:+ "</strong>" +:+ replaceStrong 0 post) /\
  (dots inner <> inner ->
   replaceStrong 0 (pre +:+ mark +:+ inner +:+ post) =
   pre +:+ mark +:+ inner +:+ replaceStrong 0 post).
Proof.
  intros M Ap Ai. split; intros D; rewrite (replaceStrong_plain _ _ Ap); f_equal.
  - pose proof (lazy_dots_closed mark inner post M Ai D) as L.
    assert (strongMatch (mark +:+ inner +:+ mark +:+ post) = Some inner) as S.
    { unfold strongMatch, strong_with. destruct M as [-> | ->].
      - by rewrite strip_prefix_app, L.
      - assert (JsString.strip_prefix "**" ("__" +:+ inner +:+ "__" +:+ post) = None)
          as -> by done.
        by rewrite strip_prefix_app, L. }
    assert (exists m, mark = String m (String m EmptyString)) as [m ->]
      by (destruct M as [-> | ->]; by eexists).
    change (String m (String m EmptyString) +:+ inner +:+
            String m (String m EmptyString) +:+ post)
      with (String m (String m (inner +:+ String m (String m post)))) in *.
    rewrite replaceStrong_cons, S.
    assert (replaceStrong (String.length inner + 3)
              (String m (inner +:+ String m (String m post))) =
            replaceStrong 0 post) as ->; [|done].
    replace (String m (inner +:+ String m (String m post)))
      with ((String m inner +:+ String m (String m EmptyString)) +:+ post)
      by (by rewrite string_app_assoc).
    replace (String.length inner + 3)%nat
      with (String.length (String m inner +:+ String m (String m EmptyString)))
      by (rewrite length_app; cbn; lia).
    by rewrite replaceStrong_skip.
  - pose proof (lazy_dots_open mark inner post M Ai D) as L.
    destruct inner as [|c inner]; [done|].
    cbn [JsString.all_chars] in Ai. apply andb_true_iff in Ai as [C Ai].
    assert (exists m, mark = String m (String m EmptyString) /\
                      Ascii.eqb m c = false /\ (m = "*"%char \/ m = "_"%char))
      as (m & -> & Mc & Hm).
    { unfold no_mark, not_char in C. apply andb_true_iff in C as [C1 C2].
      apply negb_true_iff in C1, C2. rewrite Ascii.eqb_sym in C1, C2.
      destruct M as [-> | ->]; eexists; split; eauto. }
    change (String m (String m EmptyString) +:+ String c inner +:+ post)
      with (String m (String m (String c (inner +:+ post)))) in *.
    assert (strongMatch (String m (String m (String c (inner +:+ post)))) = None) as S1.
    { unfold strongMatch, strong_with. rewrite append_cons in L.
      destruct Hm as [-> | ->]; cbn [JsString.strip_prefix];
        rewrite ?Ascii.eqb_refl; [|change (Ascii.eqb "*" "_") with false; cbv iota];
        by rewrite L. }
    assert (strongMatch (String m (String c (inner +:+ post))) = None) as S2.
    { unfold strongMatch, strong_with.
      destruct Hm as [-> | ->]; cbn [JsString.strip_prefix];
        rewrite ?Ascii.eqb_refl, ?Mc; [|change (Ascii.eqb "*" "_") with false; cbv iota];
        done. }
    rewrite replaceStrong_cons, S1, replaceStrong_cons, S2.
    change (String m (String m EmptyString) +:+ String c inner +:+ replaceStrong 0 post)
      with (String m (String m (String c inner +:+ replaceStrong 0 post))).
    do 2 f_equal.
    rewrite <- append_cons.
    apply replaceStrong_plain. cbn [JsString.all_chars]. by rewrite C, Ai.
Qed.

End MarkdownStrong.

(** * The further properties at sample inputs *)

Section AtServerSamples.
Import Server ServerSamples.
#[local] Existing Instance ServerSamples.node.
#[local] Existing Instance Browser.browser.

(** X1 at a new user of the sample shop *)
Lemma register_then_check_witness :
  let token := ChatAuth.generateToken "u4" 1000 in
  let register := mkRequest "POST" None None None
                    (Some (User.credentials "register" "dave" "pass1" "shop")) in
  let check := mkRequest "GET" None (Some ("Bearer " +:+ token)) (Some "check") None in
  let st' := mkStore (chatUser store ++
                      [ChatUser.mk "u4" "shop" "dave" (sha256_hex "pass1") None true])
               (promptHistory store) (console store) in
  fst (AuthRoute.action 1000 "u4" register store) =
    value (jsonResponse
             (JObject [("success", JBool true); ("userId", JString "u4");
                       ("username", JString "dave"); ("token", JString token)])
             201 register) /\
  fst (AuthRoute.loader 5000 check st') =
    value (jsonResponse
             (JObject [("authenticated", JBool true); ("userId", JString "u4");
                       ("username", JString "dave"); ("currentPrompt", JNull)])
             200 check).
Proof.
  assert (5000 <= 1000 + ChatAuth.sevenDays) as Le by (vm_compute; discriminate).
  pose proof (register_then_check store 1000 5000 "u4" "shop" "dave" "pass1" None
                eq_refl ltac:(vm_compute; lia) ltac:(vm_compute; lia) eq_refl eq_refl Le) as [A B].
  cbv zeta. split; [by rewrite A|by rewrite B].
Defined.

(** X2 at the login of the first sample user *)
Lemma login_outcomes_witness :
  let request := mkRequest "POST" None None None
                   (Some (User.credentials "login" "alice" "secret" "shop")) in
  exists response,
    AuthRoute.action 1000 "u9" request store = (value response, store) /\
    status response = 200.
Proof.
  destruct (login_outcomes store 1000 "u9" "shop" "alice" "secret" None None None
              eq_refl ltac:(vm_compute; lia) ltac:(vm_compute; lia))
    as (response & E & _ & _ & _ & Ok & _).
  exists response. split; [exact E|].
  by rewrite (Ok alice eq_refl eq_refl eq_refl).
Defined.

(** X3 at a registration under the name of the first sample user *)
Lemma register_conflict_witness :
  let request := mkRequest "POST" None None None
                   (Some (User.credentials "register" "alice" "other" "shop")) in
  AuthRoute.action 1000 "u9" request store =
  (value (jsonResponse (error "用户名已存在") 409 request), store).
Proof.
  exact (register_conflict store 1000 "u9" "shop" "alice" "other" None None None alice
           eq_refl ltac:(vm_compute; lia) ltac:(vm_compute; lia) eq_refl).
Defined.

(** X6 at the check of the first sample user *)
Lemma check_vouches_for_active_users_witness :
  exists user,
    List.find (Db.has_id "u1") (chatUser store) = Some user /\
    ChatUser.isActive user = true.
Proof.
  set (request := mkRequest "GET" None
                    (Some ("Bearer " +:+ ChatAuth.generateToken "u1" 1000))
                    (Some "check") None).
  set (data := JObject [("authenticated", JBool true); ("userId", JString "u1");
                        ("username", JString "alice");
                        ("currentPrompt", JString "Be brief.")]).
  assert (AuthRoute.loader 5000 request store =
          (value (jsonResponse data 200 request), store)) as E
    by (vm_compute; reflexivity).
  destruct (check_vouches_for_active_users store store 5000 request
              (jsonResponse data 200 request) data E eq_refl eq_refl)
    as (token & payload & user & _ & _ & _ & F & A & D & _).
  exists user. split; [|exact A].
  assert (ChatUser.id user = "u1") as <-; [|exact F].
  unfold data in D. by injection D.
Defined.

(** X7 at the first sample user *)
Lemma unsigned_token_accepted_witness :
  let token := Base64.encode (JSON.stringify (JObject [("userId", JString "u1")])) in
  fst (PromptRoute.authenticateRequest 99999999999999
         (mkRequest "GET" None (Some ("Bearer " +:+ token)) (Some "check") None) store) =
  value (Some alice).
Proof.
  destruct (unsigned_token_accepted store 99999999999999 None alice eq_refl eq_refl)
    as [_ A].
  cbv zeta in A |- *. change (ChatUser.id alice) with "u1" in A. by rewrite A.
Defined.

(** X8 at the deactivated sample user *)
Lemma inactive_user_locked_out_witness :
  PromptRoute.loader 5000 (signed "u2" None None) store =
  (value (PromptRoute.unauthorized (signed "u2" None None)), store).
Proof.
  assert (AuthRoute.parseToken (ChatAuth.generateToken "u2" 1000) 5000 =
          Some (JObject [("userId", JString "u2");
                         ("exp", JNumber (1000 + ChatAuth.sevenDays) 0)])) as P
    by (vm_compute; reflexivity).
  exact (proj1 (proj2 (inactive_user_locked_out store 5000 "h9" 0
                         (signed "u2" None None)
                         (ChatAuth.generateToken "u2" 1000) _ bob
                         ltac:(discriminate) eq_refl P eq_refl eq_refl eq_refl))).
Defined.


(** X10 at the first prompt of the third sample user *)
Lemma first_prompt_not_archived_witness :
  let request := signed "u3" None (Some (update "Be formal.")) in
  promptHistory (snd (PromptRoute.action 5000 "h4" 6000 request store)) =
  promptHistory store.
Proof.
  set (request := signed "u3" None (Some (update "Be formal."))).
  assert (PromptRoute.authenticateRequest 5000 request store = (value (Some carol), store))
    as R by (vm_compute; reflexivity).
  pose proof (first_prompt_not_archived store 5000 "h4" 6000 request carol
                (update "Be formal.") "Be formal."
                ltac:(discriminate) R eq_refl eq_refl eq_refl eq_refl) as A.
  cbv zeta. by rewrite A.
Defined.

(** X11 at the first sample user and a history row of the second *)
Lemma restore_refuses_foreign_history_witness :
  let request := signed "u1" None (Some (restore "h2")) in
  fst (PromptRoute.action 5000 "h4" 6000 request store) =
  value (jsonResponse (error "服务器错误") 500 request).
Proof.
  set (request := signed "u1" None (Some (restore "h2"))).
  assert (PromptRoute.authenticateRequest 5000 request store = (value (Some alice), store))
    as R by (vm_compute; reflexivity).
  assert (forall h, List.find (Db.has_history_id "h2") (promptHistory store) = Some h ->
                    PromptHistory.userId h <> ChatUser.id alice) as Foreign
    by (by intros h [= <-]).
  pose proof (restore_refuses_foreign_history store 5000 "h4" 6000 request alice
                (restore "h2") "h2"
                ltac:(discriminate) R eq_refl eq_refl eq_refl eq_refl Foreign) as A.
  cbv zeta. by rewrite A.
Defined.

(** X12 at the first sample user and the first history row *)
Lemma restore_is_update_with_content_witness :
  PromptRoute.action 5000 "h4" 6000 (signed "u1" None (Some (restore "h1"))) store =
  PromptRoute.action 5000 "h4" 6000 (signed "u1" None (Some (update "Be kind."))) store.
Proof.
  set (request := signed "u1" None (Some (restore "h1"))).
  assert (PromptRoute.authenticateRequest 5000 request store = (value (Some alice), store))
    as R by (vm_compute; reflexivity).
  exact (proj1 (restore_is_update_with_content store 5000 "h4" 6000 request alice
                  (restore "h1") "h1"
                  (PromptHistory.mk "h1" "u1" "Be kind." 1 1700000000000)
                  ltac:(discriminate) R eq_refl eq_refl eq_refl eq_refl eq_refl eq_refl
                  eq_refl)).
Defined.

Lemma store_versions_distinct : Db.versions_distinct (promptHistory store).
Proof.
  intros userId. unfold Db.of_user. cbn -[String.eqb].
  destruct (String.eqb_spec "u1" userId) as [<-|_]; [by apply (bool_decide_unpack _)|].
  destruct (String.eqb "u2" userId); by apply (bool_decide_unpack _).
Qed.

(** X13 at the history of the first sample user *)
Lemma history_versions_distinct_and_listed_newest_first_witness :
  let request := mkRequest "GET" None
                   (Some ("Bearer " +:+ ChatAuth.generateToken "u1" 1000))
                   (Some "history") None in
  exists rows,
    PromptRoute.loader 5000 request store =
    (value (jsonResponse
              (JObject [("history", JArray (List.map PromptRoute.history_entry rows))])
              200 request), store) /\
    List.map PromptHistory.version rows = [2; 1].
Proof.
  set (request := mkRequest "GET" None _ (Some "history") None).
  assert (PromptRoute.authenticateRequest 5000 request store = (value (Some alice), store))
    as R by (vm_compute; reflexivity).
  destruct (history_versions_distinct_and_listed_newest_first store 5000 "h4" 6000 request
              store_versions_distinct) as [_ L].
  destruct (L alice ltac:(discriminate) eq_refl R) as (rows & E & _ & _).
  exists rows. split; [exact E|].
  assert (PromptRoute.loader 5000 request store =
          (value (jsonResponse
                    (JObject [("history",
                       JArray (List.map PromptRoute.history_entry
                         [PromptHistory.mk "h3" "u1" "Be clear." 2 1700000002000;
                          PromptHistory.mk "h1" "u1" "Be kind." 1 1700000000000]))])
                    200 request), store)) as E' by (vm_compute; reflexivity).
  rewrite E' in E. injection E as E.
  assert (forall a b, List.map PromptRoute.history_entry a =
                      List.map PromptRoute.history_entry b ->
                      List.map PromptHistory.version a = List.map PromptHistory.version b)
    as Inj.
  { induction a as [|x a IH]; intros [|y b]; cbn; try done.
    intros [= _ Ev _ _ Et]. by rewrite Ev, (IH b Et). }
  exact (Inj rows [PromptHistory.mk "h3" "u1" "Be clear." 2 1700000002000;
                   PromptHistory.mk "h1" "u1" "Be kind." 1 1700000000000] (eq_sym E)).
Defined.

End AtServerSamples.

Section AtClientSamples.
Import Server ServerSamples JSON API ShopAIChat Samples.
#[local] Existing Instance ServerSamples.node.
#[local] Existing Instance Browser.browser.

(** X14 at the response of a login *)
Lemma login_survives_reload_witness :
  let data := JObject [("success", JBool true); ("userId", JString "u1");
                       ("username", JString "alice"); ("token", JString "t0")] in
  exists st',
    User.saveUserData data (User.loaded ∅ None) = Some st' /\
    User.getAuthHeader (User.init (User.loaded (User.localStorage st') None)) =
    Some "Bearer t0".
Proof.
  destruct (@login_survives_reload Browser.browser (fun s => eq_refl) (User.loaded ∅ None)
              (JObject [("success", JBool true); ("userId", JString "u1");
                        ("username", JString "alice"); ("token", JString "t0")])
              "u1" "alice" "t0" None eq_refl eq_refl eq_refl eq_refl eq_refl)
    as (st' & E & _ & _ & R).
  cbv zeta in R. destruct R as (_ & _ & _ & _ & Hd).
  exists st'. by split.
Defined.

(** X15 at a response that only says [success] *)
Lemma missing_token_logs_in_after_reload_witness :
  exists st',
    User.saveUserData (JObject [("success", JBool true)]) (User.loaded ∅ None) = Some st' /\
    User.isLoggedIn st' = false /\
    User.isLoggedIn (User.init (User.loaded (User.localStorage st') None)) = true.
Proof.
  destruct (@missing_token_logs_in_after_reload Browser.browser (fun s => eq_refl) eq_refl
              (User.loaded ∅ None) [("success", JBool true)] None eq_refl eq_refl)
    as (st' & E & L & R).
  cbv zeta in R. destruct R as [R _].
  exists st'. by repeat split.
Defined.

(** X17 at a new user of the sample shop *)
Lemma registered_client_is_authenticated_witness :
  exists response st' client',
    AuthRoute.action 1000 "u4"
      (mkRequest "POST" None None None
         (Some (User.credentials "register" "dave" "pass1" "shop"))) store =
    (value response, st') /\
    User.receive true (body response) (User.loaded ∅ None) = Some client' /\
    User.isLoggedIn (User.init (User.loaded (User.localStorage client') None)) = true.
Proof.
  destruct (@registered_client_is_authenticated ServerSamples.node Browser.browser
              (fun s => eq_refl) store
              (User.loaded ∅ None) 1000 "u4" "shop" "dave" "pass1" None None
              eq_refl ltac:(vm_compute; lia) ltac:(vm_compute; lia) eq_refl eq_refl
              eq_refl)
    as (response & st' & client' & A & _ & Rc & R).
  cbv zeta in R. destruct R as [R _].
  exists response, st', client'. by repeat split.
Defined.

(** X18 at a message that holds the pattern after other text *)
Lemma tool_pattern_sound_witness :
  exists pre post,
    "Now Calling tool: search with arguments: {}" =
    pre +:+ "Calling tool: " +:+ "search" +:+ " with arguments: " +:+ "{}" +:+ post.
Proof.
  destruct (tool_pattern_sound "Now Calling tool: search with arguments: {}"
              "search" "{}" eq_refl eq_refl) as (pre & post & E & _).
  by exists pre, post.
Defined.


(** X20 at a [content_block_complete] event of the sample turn *)
Lemma typing_indicators_add_up_witness :
  Typing.shown (world turn) = 1%nat /\
  Typing.shown (fst (handleStreamEvent (event "content_block_complete") 2 "hi"
                       (world turn))) = 2%nat /\
  Typing.shown (fst (handleStreamEvent (event "chunk") 2 "hi"
                       (fst (handleStreamEvent (event "content_block_complete") 2 "hi"
                               (world turn))))) = 1%nat.
Proof.
  assert (Typing.attached (world turn)) as A by (repeat constructor).
  assert (Typing.unmarked (world turn)) as U by (vm_compute; repeat constructor).
  assert (Typing.unmarked (fst (handleStreamEvent (event "content_block_complete") 2 "hi"
                                  (world turn)))) as U1
    by (vm_compute; repeat constructor).
  destruct (typing_indicators_add_up (event "content_block_complete") 2 "hi" (world turn)
              A U)
    as (A1 & S1 & _).
  destruct (typing_indicators_add_up (event "chunk") 2 "hi" _ A1 U1) as (_ & S2 & _).
  split; [reflexivity|]. split; [by rewrite S1|by rewrite S2, S1].
Defined.


(** X22 at a history of four stored messages, the last without content *)
Lemma history_shows_text_blocks_in_order_witness :
  let attach := run (load storage) [DOMContentLoaded; history_response response_ok] in
  let stored role content := JObject [("role", JString role); ("content", JString content)] in
  let messages :=
    [stored "user" "hi";
     stored "assistant"
       (dq "[{'type':'text','text':'Hello'},{'type':'tool_use','name':'search'}]");
     stored "user" (dq "'quoted'");
     JObject [("role", JString "tool")]] in
  let data := JObject [("messages", JArray messages)] in
  HistoryView.shown messages =
  [(Some (JString "user"), Some (JString "hi"));
   (Some (JString "assistant"), Some (JString "Hello"));
   (Some (JString "tool"), None)] /\
  length (messagesContainer (world (step attach (history_json (history_data data))))) =
  3%nat /\
  (forall w, HistoryView.add_all [(Some (JString "tool"), None)] w =
             fst (appendChild (mkElement ["shop-ai-message"; "tool"] None (textContent "")) w)).
Proof.
  intros attach stored messages data.
  assert (HistoryView.shown messages =
          [(Some (JString "user"), Some (JString "hi"));
           (Some (JString "assistant"), Some (JString "Hello"));
           (Some (JString "tool"), None)]) as Sh by (vm_compute; reflexivity).
  split; [exact Sh|].
  destruct (history_shows_text_blocks_in_order (mkHistory "conv_1" 0 awaiting_json)
              data messages (world attach) eq_refl eq_refl eq_refl ltac:(discriminate)
              eq_refl)
    as (E & _ & C & _ & _ & _ & T).
  cbv zeta in E, C. split.
  - assert (world (step attach (history_json (history_data data))) =
            fst (fetchChatHistory_json (mkHistory "conv_1" 0 awaiting_json)
                   (history_data data) (world attach))) as ->
      by (vm_compute; reflexivity).
    assert (length (messagesContainer (world attach)) = 1%nat) as L
      by (vm_compute; reflexivity).
    rewrite L, Sh in C. cbn [length Nat.add] in C. lia.
  - intros w. exact (T None (Some (JString "tool")) w eq_refl eq_refl).
Defined.

(** X23 at an [id] event during the sample turn *)
Lemma id_event_replaces_conversation_witness :
  let data := JObject [("type", JString "id"); ("conversation_id", JString "conv_2")] in
  getItem "shopAiConversationId" (world turn) = Some "conv_1" /\
  getItem "shopAiConversationId" (fst (handleStreamEvent data 2 "hi" (world turn))) =
  Some "conv_2".
Proof.
  intros data. split; [reflexivity|].
  destruct (id_event_replaces_conversation data 2 "hi" (world turn) eq_refl) as [W _].
  exact (proj1 (W eq_refl)).
Defined.

(** X24 at the first sample user, logged in on the chat client *)
Lemma saved_prompt_agrees_with_server_witness :
  let client := User.mkState (Some (JString "u1")) (Some (JString "alice"))
                  (Some (JString (ChatAuth.generateToken "u1" 1000))) (Some JNull) ∅ None in
  let request := mkRequest "POST" None (User.getAuthHeader client) None
                   (Some (User.savePrompt_body "Be formal.")) in
  exists response st' client',
    PromptRoute.action 5000 "h4" 6000 request store = (value response, st') /\
    User.promptReceived true (body response) client = Some client' /\
    User.currentPrompt client' = Some (JString "Be formal.").
Proof.
  intros client request.
  assert (PromptRoute.authenticateRequest 5000 request store = (value (Some alice), store))
    as R by (vm_compute; reflexivity).
  destruct (@saved_prompt_agrees_with_server ServerSamples.node Browser.browser
              (fun s => eq_refl) store client 5000 "h4" 6000 None alice "Be formal." None
              R eq_refl) as (response & st' & client' & A & _ & _ & P & C & _).
  by exists response, st', client'.
Defined.

End AtClientSamples.

(** * The markup at sample texts *)

Section AtMarkdownSamples.
Import Markdown MarkdownSamples.
#[local] Existing Instance MarkdownSamples.engine.

(** X25 at a link to the sign-in page *)
Lemma auth_link_hides_url_witness :
  replaceLinks 0 ("Please [sign in](" +:+ signIn +:+ ") to go on.") None =
  ("Please " +:+ JSON.dq "<a href='#auth' class='shop-auth-trigger'>sign in</a>" +:+
   " to go on.", Some signIn).
Proof.
  pose proof (auth_link_hides_url "Please " "sign in" signIn " to go on." None
                eq_refl ltac:(done) eq_refl ltac:(done) eq_refl eq_refl) as W.
  cbv zeta in W.
  destruct (replaceLinks 0 " to go on." (Some signIn)) as [rest last].
  destruct W as (R & _ & _ & P). destruct (P eq_refl) as [-> ->]. exact R.
Defined.

(** X26 at a link to the cart *)
Lemma other_link_keeps_url_witness :
  replaceLinks 0 "Now [pay](https://shop.example/cart/1)." None =
  ("Now " +:+
   JSON.dq "<a href='https://shop.example/cart/1' target='_blank' rel='noopener noreferrer'>" +:+
   "click here to proceed to checkout</a>.", None).
Proof.
  pose proof (other_link_keeps_url "Now " "pay" "https://shop.example/cart/1" "." None
                eq_refl ltac:(done) eq_refl ltac:(done) eq_refl eq_refl) as W.
  cbv zeta in W.
  destruct (replaceLinks 0 "." None) as [rest last].
  destruct W as (R & P). destruct (P eq_refl) as [-> ->]. exact R.
Defined.

(** X27 at a text that holds tags *)
Lemma plain_text_is_not_escaped_witness :
  formatMarkdown "2 < 3, <b>really</b>" = "<p>2 < 3, <b>really</b></p>".
Proof.
  exact (proj1 (plain_text_is_not_escaped "2 < 3, <b>really</b>"
                  eq_refl eq_refl eq_refl eq_refl eq_refl eq_refl ltac:(done) eq_refl)).
Defined.

(** X28 at two numbered lines *)
Lemma item_lines_make_one_list_witness :
  convertMarkdownToHtml ("3. tea" +:+ String JsString.nl "9) milk") =
  JSON.dq "<ol start='3'><li>tea</li><li>milk</li></ol>".
Proof.
  destruct (item_lines_make_one_list ("3. tea" +:+ String JsString.nl "9) milk")) as [_ O].
  destruct (O [("3", "tea"); ("9", "milk")]) as (digits & first & rest & E & ->).
  { vm_compute. repeat constructor. }
  injection E as <- <- <-. vm_compute. reflexivity.
Defined.

(** X29 at a word between two marks *)
Lemma strong_text_stays_on_its_line_witness :
  replaceStrong 0 "very **good**!" = "very <strong>good</strong>!".
Proof.
  exact (proj1 (strong_text_stays_on_its_line "**" "very " "good" "!"
                  (or_introl eq_refl) eq_refl eq_refl) eq_refl).
Defined.

End AtMarkdownSamples.
